(** * Modbus RTU core of modbus-gui: frame checksum, register access,
      identification decoding, discovery scan and connection monitor.

    Each module embeds one source file of the repository:
    - [Registers]  : core/modbus_registers.py   (class ModbusRegisters)
    - [Parser]     : core/device_response_parser_fixed.py
    - [AutoSearch] : auto_search_worker.py
    - [Monitor]    : wizard/connection_monitor.py

    Python integers are unbounded, so they are [Z]; [>>], [&], [|] and [^]
    are [Z.shiftr], [Z.land], [Z.lor] and [Z.lxor].  A [bytes] or
    [bytearray] value is a [list Z]. *)

From Stdlib Require Import String Ascii ZArith List Bool Lia.
From Stdlib Require Import DecimalString.
Import ListNotations.

Open Scope Z_scope.

(** ** Python helpers shared by the modules *)

Module Py.

(** [bytearray([...])]: a ValueError unless every item is in range(256). *)
Definition in_byte_range (b : Z) : bool := (0 <=? b) && (b <? 256).

Definition bytearray (items : list Z) : option (list Z) :=
  if forallb in_byte_range items then Some items else None.

(** [len(x)] as a Python integer. *)
Definition len {A : Type} (l : list A) : Z := Z.of_nat (length l).

(** [x[i]] for an index known to be in range; the callers test the length
    first.  The default is never read on those paths. *)
Definition item (l : list Z) (i : nat) : Z := nth i l 0.

(** [x[-k]] for k >= 1. *)
Definition item_from_end (l : list Z) (k : nat) : Z :=
  nth (length l - k) l 0.

(** [x[:-2]] *)
Definition drop_last2 {A : Type} (l : list A) : list A :=
  firstn (length l - 2) l.

(** [range(start, stop, 2)] as the list of its indices: start, start+2, ...
    below stop; empty when stop <= start. *)
Definition range_step2 (start stop : nat) : list nat :=
  map (fun k => (start + 2 * k)%nat) (seq 0 ((stop - start + 1) / 2)).

(** [range(lo, hi)] over the integers, [lo <= hi]. *)
Definition range (lo hi : Z) : list Z :=
  map (fun k => lo + Z.of_nat k) (seq 0 (Z.to_nat (hi - lo))).

(** An item of a [bytes] object. *)
Definition byte (b : Z) : Prop := 0 <= b < 256.

End Py.

(** ** core/modbus_registers.py *)

Module Registers.

(** *** _calculate_crc16 *)

(** One pass of the inner [for _ in range(8)] loop. *)
Definition crc16_shift (crc : Z) : Z :=
  if Z.land crc 0x0001 =? 0
  then Z.shiftr crc 1
  else Z.lxor (Z.shiftr crc 1) 0xA001.

(** The body of [for byte in data]. *)
Definition crc16_byte (crc byte : Z) : Z :=
  Nat.iter 8 crc16_shift (Z.lxor crc byte).

Definition _calculate_crc16 (data : list Z) : Z :=
  fold_left crc16_byte data 0xFFFF.

(** [request.extend([crc & 0xFF, (crc >> 8) & 0xFF])] *)
Definition append_crc (request : list Z) : list Z :=
  let crc := _calculate_crc16 request in
  request ++ [Z.land crc 0xFF; Z.land (Z.shiftr crc 8) 0xFF].

(** *** The serial connection

    [connection] is a pyserial handle or None.  The handle answers
    [is_open]; [write] and [flush] either return or raise; [read(100)]
    returns bytes (possibly none), raises OSError, or raises something
    else.  What is read may depend on the request just written.  The field
    [read] gives what the call [read(100)] returns, not what the device
    sent: a statement about a whole reply of a device says that the reply
    has at most 100 bytes ([fits_one_read]). *)

Inductive read_outcome : Type :=
| ReadBytes (response : list Z)
| ReadOSError
| ReadRaises.

Record Serial : Type := {
  is_open : bool;
  write_raises : bool;
  flush_raises : bool;
  read : list Z -> read_outcome
}.

(** Calls made on the handle, in order. *)
Inductive link_event : Type :=
| EvWrite (request : list Z)
| EvFlush
| EvRead (size : Z).

(** The outcome of  write(request); flush(); sleep; read(100). *)
Inductive exchange_outcome : Type :=
| XRaised                      (* caught by the outer [except Exception] *)
| XReadOSError                 (* caught by the inner [except OSError] *)
| XResponse (response : list Z).

Definition exchange (conn : Serial) (request : list Z)
  : exchange_outcome * list link_event :=
  if write_raises conn then (XRaised, [EvWrite request])
  else if flush_raises conn then (XRaised, [EvWrite request; EvFlush])
  else
    let log := [EvWrite request; EvFlush; EvRead 100] in
    match read conn request with
    | ReadBytes response => (XResponse response, log)
    | ReadOSError => (XReadOSError, log)
    | ReadRaises => (XRaised, log)
    end.

(** [(response[-2]) | (response[-1] << 8)] *)
Definition response_crc (response : list Z) : Z :=
  Z.lor (Py.item_from_end response 2)
        (Z.shiftl (Py.item_from_end response 1) 8).

Definition calculated_crc (response : list Z) : Z :=
  _calculate_crc16 (Py.drop_last2 response).

(** *** _read_registers_with_function

    Every [return] of the method is one constructor; [read_value] gives the
    Python value returned there (None, or a list of registers). *)

Inductive read_status : Type :=
| RNotConnected                         (* connection None or port closed     *)
| RRaised                               (* outer [except Exception]           *)
| RReadError                            (* OSError from read                  *)
| RNoResponse                           (* empty response                     *)
| RTooShort                             (* fewer than 5 bytes                 *)
| RBadCrc                               (* CRC mismatch: returns []           *)
| RBadAddress
| RFunction11 (registers : list Z)      (* registers taken from a 0x11 reply  *)
| RFunction11Empty                      (* 0x11 reply, nothing extracted      *)
| RBadFunction
| RShorterThanExpected
| RRegisters (registers : list Z).

Definition read_value (s : read_status) : option (list Z) :=
  match s with
  | RBadCrc => Some []
  | RFunction11 registers => Some registers
  | RRegisters registers => Some registers
  | _ => None
  end.

(** [reg_value = int(hex_parts[i], 16) << 8 | int(hex_parts[i+1], 16)];
    [hex_parts[i]] is [f"{b:02X}"] of byte i, which [int(_, 16)] reads back
    as the byte, so no ValueError arises. *)
Definition pair_at (response : list Z) (i : nat) : Z :=
  Z.lor (Z.shiftl (Py.item response i) 8) (Py.item response (i + 1)).

(** The loop [for i in range(8, len(hex_parts), 2)] with its [break]. *)
Fixpoint extract_function11 (response : list Z) (count : Z)
    (indices : list nat) (registers : list Z) : list Z :=
  match indices with
  | [] => registers
  | i :: rest =>
      if (i + 1 <? length response)%nat then
        let registers' := registers ++ [pair_at response i] in
        if Py.len registers' >=? count then registers'
        else extract_function11 response count rest registers'
      else extract_function11 response count rest registers
  end.

(** The loop [for i in range(0, byte_count, 2)] of the regular path. *)
Fixpoint collect_registers (response : list Z) (indices : list nat)
    (registers : list Z) : list Z :=
  match indices with
  | [] => registers
  | i :: rest =>
      if (3 + i + 1 <? length response)%nat
      then collect_registers response rest
             (registers ++ [pair_at response (3 + i)])
      else collect_registers response rest registers
  end.

(** Everything after the response has been read. *)
Definition decode_read_response (device_address function_code count : Z)
    (response : list Z) : read_status :=
  match response with
  | [] => RNoResponse
  | _ =>
    if Py.len response <? 5 then RTooShort
    else if negb (response_crc response =? calculated_crc response)
    then RBadCrc
    else if negb (Py.item response 0 =? device_address) then RBadAddress
    else if negb (Py.item response 1 =? function_code) then
      if Py.item response 1 =? 0x11 then
        match extract_function11 response count
                (Py.range_step2 8 (length response)) [] with
        | [] => RFunction11Empty
        | registers => RFunction11 registers
        end
      else RBadFunction
    else
      let byte_count := Py.item response 2 in
      let expected_length := 5 + byte_count in
      if Py.len response <? expected_length then RShorterThanExpected
      else RRegisters
             (collect_registers response
                (Py.range_step2 0 (Z.to_nat byte_count)) [])
  end.

Definition read_registers_status (connection : option Serial)
    (device_address start_address count function_code : Z)
  : read_status * list link_event :=
  match connection with
  | None => (RNotConnected, [])
  | Some conn =>
    if negb (is_open conn) then (RNotConnected, [])
    else
      match Py.bytearray
              [device_address; function_code;
               Z.land (Z.shiftr start_address 8) 0xFF;
               Z.land start_address 0xFF;
               Z.land (Z.shiftr count 8) 0xFF;
               Z.land count 0xFF] with
      | None => (RRaised, [])
      | Some request =>
        let request := append_crc request in
        match exchange conn request with
        | (XRaised, log) => (RRaised, log)
        | (XReadOSError, log) => (RReadError, log)
        | (XResponse response, log) =>
            (decode_read_response device_address function_code count response,
             log)
        end
      end
  end.

Definition _read_registers_with_function (connection : option Serial)
    (device_address start_address count function_code : Z)
  : option (list Z) :=
  read_value
    (fst (read_registers_status connection device_address start_address count
            function_code)).

(** [if result:] on None or a list. *)
Definition truthy (result : option (list Z)) : bool :=
  match result with
  | Some (_ :: _) => true
  | _ => false
  end.

Definition read_holding_registers (connection : option Serial)
    (device_address start_address count : Z) : option (list Z) :=
  let result :=
    _read_registers_with_function connection device_address start_address
      count 0x03 in
  if truthy result then result
  else _read_registers_with_function connection device_address start_address
         count 0x04.

(** *** write_holding_registers and write_multiple_coils *)

Inductive write_status : Type :=
| WNoConnection                         (* connection is None                 *)
| WPortClosed
| WNoValues                             (* empty values list                  *)
| WRaised                               (* outer [except Exception]           *)
| WReadError                            (* OSError from read                  *)
| WNoResponse
| WTooShort                             (* fewer than 8 bytes                 *)
| WBadCrc
| WBadAddress
| WException (exception_code : Z)       (* function byte has bit 0x80         *)
| WBadFunction (received : Z)
| WWritten (echo_matches : bool).       (* returns True; a mismatching echo
                                           is only a warning                  *)

Definition write_value (s : write_status) : bool :=
  match s with
  | WWritten _ => true
  | _ => false
  end.

(** The decoding printed for an exception code (the Latin part of the
    printed line); None is the "unknown code" line. *)
Definition exception_text (exception_code : Z) : option string :=
  if exception_code =? 1 then Some "Illegal Function"%string
  else if exception_code =? 2 then Some "Illegal Data Address"%string
  else if exception_code =? 3 then Some "Illegal Data Value"%string
  else if exception_code =? 4 then Some "Slave Device Failure"%string
  else if exception_code =? 5 then Some "Acknowledge"%string
  else if exception_code =? 6 then Some "Slave Device Busy"%string
  else None.

(** Everything after the response has been read; [function_code] is 0x10 or
    0x0F, [start_address] and [count] are what the echo is compared with. *)
Definition decode_write_response
    (device_address function_code start_address count : Z)
    (response : list Z) : write_status :=
  match response with
  | [] => WNoResponse
  | _ =>
    if Py.len response <? 8 then WTooShort
    else if negb (response_crc response =? calculated_crc response)
    then WBadCrc
    else if negb (Py.item response 0 =? device_address) then WBadAddress
    else if negb (Py.item response 1 =? function_code) then
      if negb (Z.land (Py.item response 1) 0x80 =? 0)
      then WException (Py.item response 2)
      else WBadFunction (Py.item response 1)
    else
      let response_start :=
        Z.lor (Z.shiftl (Py.item response 2) 8) (Py.item response 3) in
      let response_count :=
        Z.lor (Z.shiftl (Py.item response 4) 8) (Py.item response 5) in
      WWritten ((response_start =? start_address)
                && (response_count =? count))
  end.

Definition transmit_write (conn : Serial)
    (device_address function_code start_address count : Z)
    (request : list Z) : write_status * list link_event :=
  match exchange conn (append_crc request) with
  | (XRaised, log) => (WRaised, log)
  | (XReadOSError, log) => (WReadError, log)
  | (XResponse response, log) =>
      (decode_write_response device_address function_code start_address
         count response, log)
  end.

(** [request.extend([(value >> 8) & 0xFF, value & 0xFF])] for each value. *)
Definition register_bytes (values : list Z) : list Z :=
  flat_map (fun value => [Z.land (Z.shiftr value 8) 0xFF; Z.land value 0xFF])
           values.

Definition write_holding_registers_status (connection : option Serial)
    (device_address start_address : Z) (values : list Z)
  : write_status * list link_event :=
  match connection with
  | None => (WNoConnection, [])
  | Some conn =>
    if negb (is_open conn) then (WPortClosed, [])
    else
      match values with
      | [] => (WNoValues, [])
      | _ =>
        let count := Py.len values in
        let byte_count := count * 2 in
        match Py.bytearray
                [device_address; 0x10;
                 Z.land (Z.shiftr start_address 8) 0xFF;
                 Z.land start_address 0xFF;
                 Z.land (Z.shiftr count 8) 0xFF;
                 Z.land count 0xFF;
                 byte_count] with
        | None => (WRaised, [])
        | Some request =>
            transmit_write conn device_address 0x10 start_address count
              (request ++ register_bytes values)
        end
      end
  end.

Definition write_holding_registers (connection : option Serial)
    (device_address start_address : Z) (values : list Z) : bool :=
  write_value
    (fst (write_holding_registers_status connection device_address
            start_address values)).

(** [write_single_register]: no values list, so no emptiness test; the
    echo is compared with the address and the value. *)
Definition write_single_register_status (connection : option Serial)
    (device_address address value : Z) : write_status * list link_event :=
  match connection with
  | None => (WNoConnection, [])
  | Some conn =>
    if negb (is_open conn) then (WPortClosed, [])
    else
      match Py.bytearray
              [device_address; 0x06;
               Z.land (Z.shiftr address 8) 0xFF;
               Z.land address 0xFF;
               Z.land (Z.shiftr value 8) 0xFF;
               Z.land value 0xFF] with
      | None => (WRaised, [])
      | Some request =>
          transmit_write conn device_address 0x06 address value request
      end
  end.

Definition write_single_register (connection : option Serial)
    (device_address address value : Z) : bool :=
  write_value
    (fst (write_single_register_status connection device_address address
            value)).

(** [write_single_coil]: [coil_value = 0xFF00 if value else 0x0000]. *)
Definition write_single_coil_status (connection : option Serial)
    (device_address address : Z) (value : bool)
  : write_status * list link_event :=
  match connection with
  | None => (WNoConnection, [])
  | Some conn =>
    if negb (is_open conn) then (WPortClosed, [])
    else
      let coil_value := if value then 0xFF00 else 0x0000 in
      match Py.bytearray
              [device_address; 0x05;
               Z.land (Z.shiftr address 8) 0xFF;
               Z.land address 0xFF;
               Z.land (Z.shiftr coil_value 8) 0xFF;
               Z.land coil_value 0xFF] with
      | None => (WRaised, [])
      | Some request =>
          transmit_write conn device_address 0x05 address coil_value request
      end
  end.

Definition write_single_coil (connection : option Serial)
    (device_address address : Z) (value : bool) : bool :=
  write_value
    (fst (write_single_coil_status connection device_address address value)).

(** [coil_bytes[byte_index] |= (1 << bit_index)] *)
Fixpoint set_bit (coil_bytes : list Z) (byte_index : nat) (bit_index : Z)
  : list Z :=
  match coil_bytes, byte_index with
  | [], _ => []
  | b :: rest, O => Z.lor b (Z.shiftl 1 bit_index) :: rest
  | b :: rest, S k => b :: set_bit rest k bit_index
  end.

(** [for i, value in enumerate(values)] *)
Fixpoint pack_coils (values : list bool) (i : nat) (coil_bytes : list Z)
  : list Z :=
  match values with
  | [] => coil_bytes
  | value :: rest =>
      pack_coils rest (S i)
        (if value
         then set_bit coil_bytes (i / 8) (Z.of_nat (i mod 8))
         else coil_bytes)
  end.

Definition write_multiple_coils_status (connection : option Serial)
    (device_address start_address : Z) (values : list bool)
  : write_status * list link_event :=
  match connection with
  | None => (WNoConnection, [])
  | Some conn =>
    if negb (is_open conn) then (WPortClosed, [])
    else
      match values with
      | [] => (WNoValues, [])
      | _ =>
        let count := Py.len values in
        let byte_count := (count + 7) / 8 in
        match Py.bytearray
                [device_address; 0x0F;
                 Z.land (Z.shiftr start_address 8) 0xFF;
                 Z.land start_address 0xFF;
                 Z.land (Z.shiftr count 8) 0xFF;
                 Z.land count 0xFF;
                 byte_count] with
        | None => (WRaised, [])
        | Some request =>
            let coil_bytes :=
              pack_coils values 0 (repeat 0 (Z.to_nat byte_count)) in
            transmit_write conn device_address 0x0F start_address count
              (request ++ coil_bytes)
        end
      end
  end.

Definition write_multiple_coils (connection : option Serial)
    (device_address start_address : Z) (values : list bool) : bool :=
  write_value
    (fst (write_multiple_coils_status connection device_address
            start_address values)).

(** *** Vocabulary for the statements about a received response *)

(** The open port accepts the request and [read(100)] returns [response]. *)
Definition answers (conn : Serial) (response : list Z) : Prop :=
  is_open conn = true /\ write_raises conn = false /\
  flush_raises conn = false /\
  forall request, read conn request = ReadBytes response.

(** A handle that always answers with [response]. *)
Definition responder (response : list Z) : Serial :=
  {| is_open := true; write_raises := false; flush_raises := false;
     read := fun _ => ReadBytes response |}.

(** The recomputed checksum equals the two trailing bytes. *)
Definition crc_valid (response : list Z) : Prop :=
  response_crc response = calculated_crc response.

(** Consecutive byte pairs read as big-endian 16-bit values; a trailing
    single byte is left out. *)
Fixpoint be_pairs (bs : list Z) : list Z :=
  match bs with
  | hi :: lo :: rest => Z.lor (Z.shiftl hi 8) lo :: be_pairs rest
  | _ => []
  end.

(** *** read_holding_registers with the calls it makes

    The same two-step read as [read_holding_registers], keeping the log of
    both requests. *)
Definition read_holding_registers_status (connection : option Serial)
    (device_address start_address count : Z)
  : option (list Z) * list link_event :=
  let '(status, log) :=
    read_registers_status connection device_address start_address count 0x03 in
  if truthy (read_value status) then (read_value status, log)
  else
    let '(status', log') :=
      read_registers_status connection device_address start_address count
        0x04 in
    (read_value status', log ++ log').

(** The request frame of a register read. *)
Definition read_request (device_address function_code start_address count : Z)
  : list Z :=
  append_crc
    [device_address; function_code;
     Z.land (Z.shiftr start_address 8) 0xFF; Z.land start_address 0xFF;
     Z.land (Z.shiftr count 8) 0xFF; Z.land count 0xFF].

(** A 16-bit register value. *)
Definition word (v : Z) : Prop := 0 <= v < 65536.

(** The reply a device sends to a register read: address, function, byte
    count, the registers high byte first, checksum. *)
Definition read_reply (device_address function_code : Z) (values : list Z)
  : list Z :=
  append_crc
    ([device_address; function_code; 2 * Py.len values]
     ++ register_bytes values).

(** [read(100)] returns at most 100 bytes: a reply that one read returns
    whole has at most that many. *)
Definition fits_one_read (response : list Z) : Prop := Py.len response <= 100.

(** The shapes of the log of one exchange. *)
Definition one_exchange (log : list link_event) (request : list Z) : Prop :=
  log = [EvWrite request]
  \/ log = [EvWrite request; EvFlush]
  \/ log = [EvWrite request; EvFlush; EvRead 100].

(** A call that transmits nothing, or one frame of bytes with a valid
    checksum in one exchange. *)
Definition sends_at_most_one_frame (log : list link_event) : Prop :=
  log = []
  \/ exists request,
       crc_valid request /\ Forall Py.byte request /\ one_exchange log request.

(** A device that answers function 0x04 only. *)
Definition input_only_device (values : list Z) : Serial :=
  {| is_open := true; write_raises := false; flush_raises := false;
     read := fun request =>
               if Py.item request 1 =? 0x04
               then ReadBytes (read_reply 1 0x04 values)
               else ReadBytes [] |}.

(** A device whose answer to function 0x03 is damaged and that is silent
    on function 0x04. *)
Definition damaged_holding_device : Serial :=
  {| is_open := true; write_raises := false; flush_raises := false;
     read := fun request =>
               if Py.item request 1 =? 0x03
               then ReadBytes [0x01; 0x03; 0x02; 0x00; 0x05; 0x00; 0x00]
               else ReadBytes [] |}.

End Registers.

(** ** core/device_response_parser_fixed.py *)

Module Parser.

Local Open Scope string_scope.
Local Open Scope Z_scope.

(** *** Python string operations used by the parser

    The text handed to the parser is the hexadecimal rendering of a
    response.  [int_hex] and [bytes_fromhex] are Python's [int(s, 16)] and
    [bytes.fromhex(s)] on text made of hexadecimal digits; any other
    character makes them raise ValueError here (Python also reads a sign, a
    0x prefix, underscores and blanks, which a rendered response never
    contains). *)

(** [s.replace(c, '')] for a one-character [c]. *)
Fixpoint remove_char (c : ascii) (s : string) : string :=
  match s with
  | EmptyString => EmptyString
  | String a rest =>
      if Ascii.eqb a c then remove_char c rest
      else String a (remove_char c rest)
  end.

(** [[s[i:i+2] for i in range(0, len(s), 2)]] *)
Fixpoint chunks2 (s : string) : list string :=
  match s with
  | EmptyString => []
  | String a EmptyString => [String a EmptyString]
  | String a (String b rest) => String a (String b EmptyString) :: chunks2 rest
  end.

Definition hex_digit (c : ascii) : option Z :=
  let n := Z.of_nat (nat_of_ascii c) in
  if (48 <=? n) && (n <=? 57) then Some (n - 48)          (* 0-9 *)
  else if (65 <=? n) && (n <=? 70) then Some (n - 55)     (* A-F *)
  else if (97 <=? n) && (n <=? 102) then Some (n - 87)    (* a-f *)
  else None.

Fixpoint int_hex_from (acc : Z) (s : string) : option Z :=
  match s with
  | EmptyString => Some acc
  | String c rest =>
      match hex_digit c with
      | Some d => int_hex_from (16 * acc + d) rest
      | None => None
      end
  end.

(** [int(s, 16)]; None is ValueError. *)
Definition int_hex (s : string) : option Z :=
  match s with
  | EmptyString => None
  | _ => int_hex_from 0 s
  end.

(** [bytes.fromhex(s)]; None is ValueError. *)
Fixpoint bytes_fromhex (s : string) : option (list Z) :=
  match s with
  | EmptyString => Some []
  | String _ EmptyString => None
  | String a (String b rest) =>
      match hex_digit a, hex_digit b, bytes_fromhex rest with
      | Some h, Some l, Some bs => Some (16 * h + l :: bs)
      | _, _, _ => None
      end
  end.

Definition upper_char (c : ascii) : ascii :=
  let n := nat_of_ascii c in
  if (97 <=? n)%nat && (n <=? 122)%nat then ascii_of_nat (n - 32) else c.

(** [s.upper()] *)
Fixpoint upper (s : string) : string :=
  match s with
  | EmptyString => EmptyString
  | String c rest => String (upper_char c) (upper rest)
  end.

(** [sep.join(parts)] *)
Definition join (sep : string) (parts : list string) : string :=
  String.concat sep parts.

(** [str(n)] and [f"{n}"] *)
Definition str (n : Z) : string := NilEmpty.string_of_int (Z.to_int n).

(** [f"{n:02d}"] *)
Definition fmt_02d (n : Z) : string :=
  let s := str n in
  if (String.length s <? 2)%nat then "0" ++ s else s.

(** [x[lo:hi]] on a list *)
Definition slice {A : Type} (l : list A) (lo hi : nat) : list A :=
  firstn (hi - lo) (skipn lo l).

(** [b.decode('ascii', errors='ignore')] *)
Definition decode_ascii_ignore (bs : list Z) : string :=
  string_of_list_ascii
    (map (fun b => ascii_of_nat (Z.to_nat b)) (filter (fun b => b <? 128) bs)).

(** Characters removed by [str.strip()]. *)
Definition is_space (c : ascii) : bool :=
  let n := nat_of_ascii c in
  ((9 <=? n) && (n <=? 13) || (28 <=? n) && (n <=? 32))%nat.

Fixpoint lstrip (s : string) : string :=
  match s with
  | EmptyString => EmptyString
  | String c rest => if is_space c then lstrip rest else s
  end.

Definition reverse_string (s : string) : string :=
  string_of_list_ascii (rev (list_ascii_of_string s)).

(** [s.strip()] *)
Definition strip (s : string) : string :=
  reverse_string (lstrip (reverse_string (lstrip s))).

(** *** The decoded dictionary

    The constant ["description"] texts and the ["bytes"] position labels of
    each entry are display strings derived from the same slices; the
    entries below keep every other key. *)

Record reversed_field : Type := {
  rf_value : string;
  rf_hex_format : string;
  rf_reversed_hex : string
}.

Record version_field : Type := {
  vf_value : string;
  vf_hex_format : string;
  vf_major : Z;
  vf_minor : Z
}.

Record ver_status_field : Type := {
  vs_value : string;
  vs_hex_format : string;
  vs_decimal : Z
}.

Record io_field : Type := {
  io_value : string;
  digital_inputs : Z;
  digital_outputs : Z;
  analog_inputs : Z;
  analog_outputs : Z
}.

Record crc_field : Type := {
  crc_value : string;
  crc_hex_format : string
}.

(** [parsed_data["device_specific_data"]]: a key is present when its field
    is [Some]. *)
Record device_specific_data : Type := {
  magic : option reversed_field;
  software : option version_field;
  hardware : option version_field;
  ver_status : option ver_status_field;
  status : option reversed_field;
  io_counts : option io_field;
  product_id : option reversed_field
}.

Record parsed_data : Type := {
  header_device_address : string;
  header_function_code : string;
  device_data : device_specific_data;
  raw_hex : string;
  byte_count : Z;
  crc : option crc_field;
  parse_error : option string   (* the literal int() refused *)
}.

Inductive parse_result : Type :=
| NotEnoughData                 (* {"error": "... (minimum 32 bytes)"} *)
| Raises (literal : string)     (* ValueError before the try block     *)
| Parsed (d : parsed_data).

Definition no_fields : device_specific_data :=
  {| magic := None; software := None; hardware := None; ver_status := None;
     status := None; io_counts := None; product_id := None |}.

(** A statement of the try block: it either runs to its end or raises on
    a literal, leaving the dictionary as it was before the statement. *)
Inductive step_result : Type :=
| Continue (d : parsed_data)
| Raise (literal : string).

Definition set_device_data (d : parsed_data)
    (f : device_specific_data -> device_specific_data) : parsed_data :=
  {| header_device_address := header_device_address d;
     header_function_code := header_function_code d;
     device_data := f (device_data d);
     raw_hex := raw_hex d;
     byte_count := byte_count d;
     crc := crc d;
     parse_error := parse_error d |}.

(** [int(x, 16)] where a ValueError leaves the enclosing statement. *)
Definition with_int (literal : string) (k : Z -> step_result) : step_result :=
  match int_hex literal with
  | Some n => k n
  | None => Raise literal
  end.

Definition reversed_entry (bytes4 : list string) (value_of : string -> string)
  : string -> reversed_field :=
  fun reversed =>
    {| rf_value := value_of reversed;
       rf_hex_format := join " " bytes4;
       rf_reversed_hex := upper reversed |}.

Definition parse_magic (byte_list : list string) (d : parsed_data)
  : step_result :=
  if (8 <=? length byte_list)%nat then
    let magic_bytes := slice byte_list 4 8 in
    let magic_reversed := join "" (rev magic_bytes) in
    with_int magic_reversed (fun n =>
      Continue (set_device_data d (fun f =>
        {| magic := Some (reversed_entry magic_bytes
                            (fun r => str n ++ " (" ++ upper r ++ ")")
                            magic_reversed);
           software := software f; hardware := hardware f;
           ver_status := ver_status f; status := status f;
           io_counts := io_counts f; product_id := product_id f |})))
  else Continue d.

Definition version_entry (bytes2 : list string) (major minor : Z)
  : version_field :=
  {| vf_value := "V" ++ fmt_02d major ++ "." ++ fmt_02d minor;
     vf_hex_format := join " " bytes2;
     vf_major := major;
     vf_minor := minor |}.

Definition parse_software (byte_list : list string) (d : parsed_data)
  : step_result :=
  if (10 <=? length byte_list)%nat then
    let software_bytes := slice byte_list 8 10 in
    with_int (nth 0 software_bytes "") (fun sw_major =>
    with_int (nth 1 software_bytes "") (fun sw_minor =>
      Continue (set_device_data d (fun f =>
        {| magic := magic f;
           software := Some (version_entry software_bytes sw_major sw_minor);
           hardware := hardware f;
           ver_status := ver_status f; status := status f;
           io_counts := io_counts f; product_id := product_id f |}))))
  else Continue d.

Definition parse_hardware (byte_list : list string) (d : parsed_data)
  : step_result :=
  if (12 <=? length byte_list)%nat then
    let hardware_bytes := slice byte_list 10 12 in
    with_int (nth 0 hardware_bytes "") (fun hw_major =>
    with_int (nth 1 hardware_bytes "") (fun hw_minor =>
      Continue (set_device_data d (fun f =>
        {| magic := magic f; software := software f;
           hardware := Some (version_entry hardware_bytes hw_major hw_minor);
           ver_status := ver_status f; status := status f;
           io_counts := io_counts f; product_id := product_id f |}))))
  else Continue d.

Definition parse_ver_status (byte_list : list string) (d : parsed_data)
  : step_result :=
  if (16 <=? length byte_list)%nat then
    let verstatus_bytes := slice byte_list 12 16 in
    with_int (join "" verstatus_bytes) (fun verstatus_value =>
      Continue (set_device_data d (fun f =>
        {| magic := magic f; software := software f; hardware := hardware f;
           ver_status :=
             Some {| vs_value := "0x" ++ upper (join "" verstatus_bytes)
                                 ++ " (" ++ str verstatus_value ++ ")";
                     vs_hex_format := join " " verstatus_bytes;
                     vs_decimal := verstatus_value |};
           status := status f;
           io_counts := io_counts f; product_id := product_id f |})))
  else Continue d.

(** The inner try/except around the ASCII decoding of the status word. *)
Definition status_text (status_reversed : string) : string :=
  match bytes_fromhex status_reversed with
  | Some bs =>
      let text := strip (decode_ascii_ignore bs) in
      match text with
      | EmptyString => "0x" ++ upper status_reversed
      | _ => text
      end
  | None => "0x" ++ upper status_reversed
  end.

Definition parse_status (byte_list : list string) (d : parsed_data)
  : step_result :=
  if (20 <=? length byte_list)%nat then
    let status_bytes := slice byte_list 16 20 in
    let status_reversed := join "" (rev status_bytes) in
    Continue (set_device_data d (fun f =>
      {| magic := magic f; software := software f; hardware := hardware f;
         ver_status := ver_status f;
         status := Some (reversed_entry status_bytes
                           (fun r => status_text r) status_reversed);
         io_counts := io_counts f; product_id := product_id f |}))
  else Continue d.

Definition parse_io_counts (byte_list : list string) (d : parsed_data)
  : step_result :=
  if (24 <=? length byte_list)%nat then
    let io_bytes := slice byte_list 20 24 in
    with_int (nth 0 io_bytes "") (fun di_count =>
    with_int (nth 1 io_bytes "") (fun do_count =>
    with_int (nth 2 io_bytes "") (fun ai_count =>
    with_int (nth 3 io_bytes "") (fun ao_count =>
      Continue (set_device_data d (fun f =>
        {| magic := magic f; software := software f; hardware := hardware f;
           ver_status := ver_status f; status := status f;
           io_counts :=
             Some {| io_value := str di_count ++ "/" ++ str do_count ++ "/"
                                 ++ str ai_count ++ "/" ++ str ao_count;
                     digital_inputs := di_count;
                     digital_outputs := do_count;
                     analog_inputs := ai_count;
                     analog_outputs := ao_count |};
           product_id := product_id f |}))))))
  else Continue d.

Definition parse_product_id (byte_list : list string) (d : parsed_data)
  : step_result :=
  if (32 <=? length byte_list)%nat then
    let product_bytes := slice byte_list 28 32 in
    let product_reversed := join "" (rev product_bytes) in
    with_int product_reversed (fun n =>
      Continue (set_device_data d (fun f =>
        {| magic := magic f; software := software f; hardware := hardware f;
           ver_status := ver_status f; status := status f;
           io_counts := io_counts f;
           product_id := Some (reversed_entry product_bytes
                                 (fun r => str n ++ " (" ++ upper r ++ ")")
                                 product_reversed) |})))
  else Continue d.

Definition parse_crc (byte_list : list string) (d : parsed_data)
  : step_result :=
  if (34 <=? length byte_list)%nat then
    let crc_bytes := skipn (length byte_list - 2) byte_list in
    with_int (join "" crc_bytes) (fun n =>
      Continue
        {| header_device_address := header_device_address d;
           header_function_code := header_function_code d;
           device_data := device_data d;
           raw_hex := raw_hex d;
           byte_count := byte_count d;
           crc := Some {| crc_value := "0x" ++ upper (join "" crc_bytes)
                                       ++ " (" ++ str n ++ ")";
                          crc_hex_format := join " " crc_bytes |};
           parse_error := parse_error d |})
  else Continue d.

(** The statements of the try block, in order. *)
Definition try_block : list (list string -> parsed_data -> step_result) :=
  [parse_magic; parse_software; parse_hardware; parse_ver_status;
   parse_status; parse_io_counts; parse_product_id; parse_crc].

(** Runs the statements; [except Exception] records the error and keeps
    what was stored before the statement that raised. *)
Fixpoint run_try (steps : list (list string -> parsed_data -> step_result))
    (byte_list : list string) (d : parsed_data) : parsed_data :=
  match steps with
  | [] => d
  | step :: rest =>
      match step byte_list d with
      | Continue d' => run_try rest byte_list d'
      | Raise literal =>
          {| header_device_address := header_device_address d;
             header_function_code := header_function_code d;
             device_data := device_data d;
             raw_hex := raw_hex d;
             byte_count := byte_count d;
             crc := crc d;
             parse_error := Some literal |}
      end
  end.

Definition byte_list_of (hex_response : string) : list string :=
  chunks2
    (remove_char "010" (remove_char "013" (remove_char " " hex_response))).

Definition parse_specific_device_response (hex_response : string)
  : parse_result :=
  let byte_list := byte_list_of hex_response in
  if (length byte_list <? 32)%nat then NotEnoughData
  else
    match int_hex (nth 0 byte_list "") with
    | None => Raises (nth 0 byte_list "")
    | Some device_address =>
      match int_hex (nth 1 byte_list "") with
      | None => Raises (nth 1 byte_list "")
      | Some function_code =>
        Parsed
          (run_try try_block byte_list
             {| header_device_address :=
                  str device_address ++ " (0x" ++ upper (nth 0 byte_list "")
                  ++ ")";
                header_function_code :=
                  str function_code ++ " (0x" ++ upper (nth 1 byte_list "")
                  ++ ")";
                device_data := no_fields;
                raw_hex := hex_response;
                byte_count := Py.len byte_list;
                crc := None;
                parse_error := None |})
      end
    end.

(** The example response of [main]. *)
Definition example_response : string :=
  "0F 11 0F FF 99 87 41 77 07 00 01 01 0F 00 00 00 2F 48 50 4F 00 00 20 00 00 00 00 00 FB 5F 19 63 19 62 B1 B2 EB D7".

(** *** The text handed to the parser (core/modbus_device_info.py)

    [get_device_info] stores the response both as [response.hex()]
    (["raw_response"]) and as [" ".join(f"{b:02X}" for b in response)]
    (["hex_format"]); the callers pass one of the two to the parser. *)

Definition hex_char (uppercase : bool) (n : Z) : ascii :=
  ascii_of_nat
    (Z.to_nat (if n <? 10 then 48 + n
               else if uppercase then 55 + n else 87 + n)).

(** Two hexadecimal digits of a byte. *)
Definition hex2 (uppercase : bool) (b : Z) : string :=
  String (hex_char uppercase (b / 16))
    (String (hex_char uppercase (b mod 16)) EmptyString).

Definition hex_format (response : list Z) : string :=
  join " " (map (hex2 true) response).

Definition raw_response (response : list Z) : string :=
  join "" (map (hex2 false) response).

Definition is_byte (b : Z) : Prop := 0 <= b < 256.

(** *** Vocabulary for the statements about the parser *)

Definition is_hex (c : ascii) : bool :=
  match hex_digit c with
  | Some _ => true
  | None => false
  end.

(** A string of exactly two hexadecimal digits. *)
Definition hex_pair (s : string) : Prop :=
  exists a b,
    s = String a (String b EmptyString) /\ is_hex a = true /\ is_hex b = true.

Fixpoint all_hex (s : string) : bool :=
  match s with
  | EmptyString => true
  | String c rest => is_hex c && all_hex rest
  end.

(** The value of a sequence of bytes read most significant byte first. *)
Definition be_value (bs : list Z) : Z :=
  fold_left (fun acc b => 256 * acc + b) bs 0.

(** The text of a sequence of ASCII codes. *)
Definition ascii_text (bs : list Z) : string :=
  string_of_list_ascii (map (fun b => ascii_of_nat (Z.to_nat b)) bs).

(** The example response of [main], as bytes. *)
Definition example_payload : list Z :=
  [0x0F; 0x11; 0x0F; 0xFF; 0x99; 0x87; 0x41; 0x77; 0x07; 0x00; 0x01; 0x01;
   0x0F; 0x00; 0x00; 0x00; 0x2F; 0x48; 0x50; 0x4F; 0x00; 0x00; 0x20; 0x00;
   0x00; 0x00; 0x00; 0x00; 0xFB; 0x5F; 0x19; 0x63; 0x19; 0x62; 0xB1; 0xB2;
   0xEB; 0xD7].

End Parser.

(** ** auto_search_worker.py *)

Module AutoSearch.

Definition SEARCH_BAUDRATES : list Z := [115200; 57600; 38400; 19200; 9600].
Definition MIN_ADDRESS : Z := 1.
Definition MAX_ADDRESS : Z := 200.

(** What the scan does that another party can observe, in order:
    a read of [self.should_stop] with the value read, the progress line of
    an address, one [scanner.scan_single(address, baudrate)] call, and the
    [_read_device_info] call that follows a hit. *)
Inductive event : Type :=
| FlagTest (should_stop : bool)
| Progress (address : Z)
| Probe (address baudrate : Z)
| ReadDeviceInfo (address baudrate : Z).

(** The [search_complete] emission that ends the scan. *)
Inductive completion : Type :=
| Found (address baudrate : Z)
| NotFound
| Stopped.

Section Scan.

(** [self.should_stop] is set by another thread ([stop()]); [should_stop n]
    is the value the scan reads at its n-th read of the flag. *)
Variable should_stop : nat -> bool.

(** [scanner.scan_single]: the response text of the device, or None. *)
Variable scan_single : Z -> Z -> option string.

(** The inner loop [for baudrate in self.SEARCH_BAUDRATES].  The first
    component is [Some c] when the method returned from inside the loop;
    the second is the number of flag reads made so far. *)
Fixpoint scan_baudrates (address : Z) (baudrates : list Z) (reads : nat)
  : option completion * nat * list event :=
  match baudrates with
  | [] => (None, reads, [])
  | baudrate :: rest =>
      if should_stop reads then (Some Stopped, S reads, [FlagTest true])
      else
        match scan_single address baudrate with
        | Some _ =>
            (Some (Found address baudrate), S reads,
             [FlagTest false; Probe address baudrate;
              ReadDeviceInfo address baudrate])
        | None =>
            let '(r, reads', log) := scan_baudrates address rest (S reads) in
            (r, reads', FlagTest false :: Probe address baudrate :: log)
        end
  end.

(** The outer loop [for address in range(MIN_ADDRESS, MAX_ADDRESS + 1)]. *)
Fixpoint scan_addresses (addresses : list Z) (reads : nat)
  : completion * list event :=
  match addresses with
  | [] => (NotFound, [])
  | address :: rest =>
      if should_stop reads then (Stopped, [FlagTest true])
      else
        match scan_baudrates address SEARCH_BAUDRATES (S reads) with
        | (Some c, _, log) => (c, FlagTest false :: Progress address :: log)
        | (None, reads', log) =>
            let '(c, log') := scan_addresses rest reads' in
            (c, FlagTest false :: Progress address :: log ++ log')
        end
  end.

Definition _sequential_search : completion * list event :=
  scan_addresses (Py.range MIN_ADDRESS (MAX_ADDRESS + 1)) 0.

(** [quick_auto_search]: the synchronous variant, without a stop flag.  It
    returns the address, the speed and the response text of the hit. *)
Fixpoint quick_baudrates (address : Z) (baudrates : list Z)
  : option (Z * Z * string) * list event :=
  match baudrates with
  | [] => (None, [])
  | baudrate :: rest =>
      match scan_single address baudrate with
      | Some response =>
          (Some (address, baudrate, response), [Probe address baudrate])
      | None =>
          let '(r, log) := quick_baudrates address rest in
          (r, Probe address baudrate :: log)
      end
  end.

Fixpoint quick_addresses (addresses : list Z)
  : option (Z * Z * string) * list event :=
  match addresses with
  | [] => (None, [])
  | address :: rest =>
      match quick_baudrates address [115200; 57600; 38400; 19200; 9600] with
      | (Some hit, log) => (Some hit, log)
      | (None, log) =>
          let '(r, log') := quick_addresses rest in
          (r, log ++ log')
      end
  end.

(** [scanner_loaded] is [scanner._scanner] being set. *)
Definition quick_auto_search (scanner_loaded : bool)
  : option (Z * Z * string) * list event :=
  if negb scanner_loaded then (None, [])
  else quick_addresses (Py.range 1 201).

End Scan.

(** The probes of a log, in order. *)
Fixpoint probes (log : list event) : list (Z * Z) :=
  match log with
  | [] => []
  | Probe address baudrate :: rest => (address, baudrate) :: probes rest
  | _ :: rest => probes rest
  end.

(** A stop flag that is never set. *)
Definition never : nat -> bool := fun _ => false.

(** The values read from the stop flag, in order. *)
Fixpoint flag_reads (log : list event) : list bool :=
  match log with
  | [] => []
  | FlagTest b :: rest => b :: flag_reads rest
  | _ :: rest => flag_reads rest
  end.

(** *** Vocabulary for the statements about the scan order *)

(** Every address from 1 to 200 with the five speeds, address by address. *)
Definition search_space : list (Z * Z) :=
  flat_map (fun address => map (fun baudrate => (address, baudrate))
                             SEARCH_BAUDRATES)
           (Py.range MIN_ADDRESS (MAX_ADDRESS + 1)).

Definition unanswered (scan_single : Z -> Z -> option string) (p : Z * Z)
  : Prop :=
  scan_single (fst p) (snd p) = None.

(** The pairs of a list up to and including the first one that answers. *)
Fixpoint through_first_hit (scan_single : Z -> Z -> option string)
    (space : list (Z * Z)) : list (Z * Z) :=
  match space with
  | [] => []
  | p :: rest =>
      match scan_single (fst p) (snd p) with
      | Some _ => [p]
      | None => p :: through_first_hit scan_single rest
      end
  end.

(** The first pair of a list that answers, with its response. *)
Fixpoint first_hit (scan_single : Z -> Z -> option string)
    (space : list (Z * Z)) : option (Z * Z * string) :=
  match space with
  | [] => None
  | p :: rest =>
      match scan_single (fst p) (snd p) with
      | Some response => Some (fst p, snd p, response)
      | None => first_hit scan_single rest
      end
  end.

(** *** Vocabulary for the statements about the stop flag *)

(** Every probe of the log comes directly after a flag test that read
    False. *)
Definition guarded (log : list event) : Prop :=
  forall pre address baudrate post,
    log = pre ++ Probe address baudrate :: post ->
    exists pre', pre = pre' ++ [FlagTest false].

(** No flag test of the log read True. *)
Definition unset (log : list event) : Prop := ~ In (FlagTest true) log.

(** The shape of a log with respect to the flag: either no test read True
    and the scan did not end as stopped, or the one test that read True is
    the last event and the scan ended as stopped. *)
Definition stop_shape (stopped : bool) (log : list event) : Prop :=
  (stopped = false /\ unset log)
  \/ (stopped = true /\ exists pre, log = pre ++ [FlagTest true] /\ unset pre).

Definition is_stopped (c : completion) : bool :=
  match c with
  | Stopped => true
  | _ => false
  end.

Definition returned_stopped (r : option completion) : bool :=
  match r with
  | Some c => is_stopped c
  | None => false
  end.

(** The pairs for which [_read_device_info] was called, in order. *)
Fixpoint info_reads (log : list event) : list (Z * Z) :=
  match log with
  | [] => []
  | ReadDeviceInfo address baudrate :: rest =>
      (address, baudrate) :: info_reads rest
  | _ :: rest => info_reads rest
  end.

(** The addresses announced by a progress line, in order. *)
Fixpoint progress_of (log : list event) : list Z :=
  match log with
  | [] => []
  | Progress address :: rest => address :: progress_of rest
  | _ :: rest => progress_of rest
  end.

(** What the end of a scan says about the pairs of [space] it probed:
    a hit is the first answering pair and the last one probed; a scan
    that found nothing probed every pair; a stopped scan probed a part,
    none of which answered. *)
Definition outcome_sound (scan_single : Z -> Z -> option string)
    (space : list (Z * Z)) (c : completion) (log : list event) : Prop :=
  match c with
  | Found address baudrate =>
      exists pre post response,
        space = pre ++ (address, baudrate) :: post
        /\ Forall (unanswered scan_single) pre
        /\ scan_single address baudrate = Some response
        /\ probes log = pre ++ [(address, baudrate)]
        /\ info_reads log = [(address, baudrate)]
  | NotFound =>
      Forall (unanswered scan_single) space
      /\ probes log = space /\ info_reads log = []
  | Stopped =>
      exists pre post,
        space = pre ++ post
        /\ Forall (unanswered scan_single) pre
        /\ probes log = pre /\ info_reads log = []
  end.

End AutoSearch.

(** ** wizard/connection_monitor.py *)

Module Monitor.

Inductive signal : Type :=
| device_disconnected
| device_reconnected.

(** What one pass of the [while] loop meets after its sleep. *)
Inductive poll : Type :=
| WorkerDown                  (* no worker thread, or it is not connected *)
| DeviceInfo (answered : bool)(* read_device_info() returned a value      *)
| ReadFails.                  (* read_device_info() raised                *)

Record ConnectionMonitor : Type := {
  fast_mode : bool;
  is_connected : bool;
  consecutive_failures : Z;
  max_failures : Z
}.

(** [__init__] *)
Definition init (fast : bool) : ConnectionMonitor :=
  {| fast_mode := fast;
     is_connected := true;
     consecutive_failures := 0;
     max_failures := if fast then 2 else 3 |}.

Definition set_state (m : ConnectionMonitor) (connected : bool) (failures : Z)
  : ConnectionMonitor :=
  {| fast_mode := fast_mode m;
     is_connected := connected;
     consecutive_failures := failures;
     max_failures := max_failures m |}.

(** The two branches that test [self.is_connected] before signalling. *)
Definition fail_guarded (m : ConnectionMonitor)
  : ConnectionMonitor * list signal :=
  let failures := consecutive_failures m + 1 in
  if failures >=? max_failures m then
    if is_connected m
    then (set_state m false failures, [device_disconnected])
    else (set_state m (is_connected m) failures, [])
  else (set_state m (is_connected m) failures, []).

(** One pass of the loop body. *)
Definition iteration (m : ConnectionMonitor) (p : poll)
  : ConnectionMonitor * list signal :=
  match p with
  | WorkerDown => fail_guarded m
  | DeviceInfo true =>
      if negb (is_connected m)
      then (set_state m true 0, [device_reconnected])
      else (set_state m (is_connected m) 0, [])
  | DeviceInfo false =>
      let failures := consecutive_failures m + 1 in
      if failures >=? max_failures m
      then (set_state m false failures, [device_disconnected])
      else (set_state m (is_connected m) failures, [])
  | ReadFails => fail_guarded m
  end.

(** The loop over the polls made before [should_stop] is seen. *)
Fixpoint loop (m : ConnectionMonitor) (polls : list poll)
  : ConnectionMonitor * list signal :=
  match polls with
  | [] => (m, [])
  | p :: rest =>
      let '(m', emitted) := iteration m p in
      let '(m'', later) := loop m' rest in
      (m'', emitted ++ later)
  end.

(** [run]: the counter is reset, then the loop. *)
Definition run (m : ConnectionMonitor) (polls : list poll)
  : ConnectionMonitor * list signal :=
  loop (set_state m (is_connected m) 0) polls.

(** *** Vocabulary for the statements about the monitor *)

(** A poll that counts as a failure. *)
Definition failed (p : poll) : bool :=
  match p with
  | DeviceInfo true => false
  | _ => true
  end.

(** The length of the longest run of consecutive failed polls, [current]
    being the length of the run in progress. *)
Fixpoint longest_failure_run (current : nat) (polls : list poll) : nat :=
  match polls with
  | [] => current
  | p :: rest =>
      if failed p then longest_failure_run (S current) rest
      else Nat.max current (longest_failure_run 0 rest)
  end.

(** The length of the run of failed polls that ends the list. *)
Fixpoint failures_at_end (current : nat) (polls : list poll) : nat :=
  match polls with
  | [] => current
  | p :: rest => failures_at_end (if failed p then S current else 0) rest
  end.

(** No two neighbours of the list are the same signal. *)
Definition alternates (signals : list signal) : Prop :=
  forall pre x y post, signals = pre ++ x :: y :: post -> x <> y.

End Monitor.

(** ** core/modbus_device_info.py *)

Module DeviceInfo.

Local Open Scope string_scope.
Local Open Scope Z_scope.

(** The serial handle as this class uses it: one request is written, then
    [read(100)] is called up to three times; [replies n] is what the n-th
    call returns.  Any exception of a call ends the exchange. *)
Record Port : Type := {
  is_open : bool;
  write_raises : bool;
  flush_raises : bool;
  replies : nat -> Registers.read_outcome
}.

(** The dictionary returned for a response: the raw text only when the
    response has fewer than 8 bytes, the decoded header and objects
    otherwise. *)
Record device_info : Type := {
  device_address : Z;
  function_code : Z;
  mei_response : Z;
  read_device_id_code : Z;
  conformity_level : Z;
  more_follows : Z;
  next_object_id : Z;
  number_of_objects : Z;
  objects : list (string * string);
  raw_response : string;
  hex_format : string;
  response_length : Z
}.

Inductive identification : Type :=
| RawOnly (raw : string)
| Identified (info : device_info).

(** [d[key] = value] on a dictionary kept as the list of its items in
    insertion order. *)
Fixpoint dict_set (d : list (string * string)) (key value : string)
  : list (string * string) :=
  match d with
  | [] => [(key, value)]
  | (k, v) :: rest =>
      if String.eqb k key then (k, value) :: rest
      else (k, v) :: dict_set rest key value
  end.

(** The loop [for i in range(device_info["number_of_objects"])]: [n] is
    the number of passes left, [pos] the read position. *)
Fixpoint parse_objects (response : list Z) (n : nat) (pos : nat)
    (objects : list (string * string)) : list (string * string) :=
  match n with
  | O => objects
  | S n' =>
      if (length response <=? pos + 2)%nat then objects
      else
        let object_id := nth pos response 0 in
        let object_length := Z.to_nat (nth (pos + 1) response 0) in
        let pos := (pos + 2)%nat in
        if (length response <? pos + object_length)%nat then objects
        else
          let object_value :=
            Parser.decode_ascii_ignore
              (firstn object_length (skipn pos response)) in
          parse_objects response n' (pos + object_length)
            (dict_set objects ("object_" ++ Parser.str object_id)
               object_value)
  end.

Definition _parse_device_identification_response (response : list Z)
  : identification :=
  if Py.len response <? 8 then RawOnly (Parser.raw_response response)
  else
    Identified
      {| device_address := Py.item response 0;
         function_code := Py.item response 1;
         mei_response := Py.item response 2;
         read_device_id_code := Py.item response 3;
         conformity_level := Py.item response 4;
         more_follows := Py.item response 5;
         next_object_id := Py.item response 6;
         number_of_objects := Py.item response 7;
         objects :=
           parse_objects response (Z.to_nat (Py.item response 7)) 8 [];
         raw_response := Parser.raw_response response;
         hex_format := Parser.hex_format response;
         response_length := Py.len response |}.

(** The checksum test; the class computes it with its own copy of
    [_calculate_crc16], the same code as in [Registers]. *)
Definition crc_ok (response : list Z) : bool :=
  Registers.response_crc response =? Registers.calculated_crc response.

(** How the retry loop [for retry_count in range(2)] ends. *)
Inductive retry_outcome : Type :=
| RetryAccepted (response : list Z)   (* break                       *)
| RetryExhausted                      (* the loop's else: return None *)
| RetryRaised.                        (* read raised                 *)

(** [attempts] passes are left; [reads] calls of read were made so far. *)
Fixpoint retry_read (port : Port) (attempts : nat) (reads : nat)
  : retry_outcome * nat :=
  match attempts with
  | O => (RetryExhausted, reads)
  | S n =>
      match replies port reads with
      | Registers.ReadBytes response =>
          if (2 <=? Py.len response) && crc_ok response
          then (RetryAccepted response, S reads)
          else retry_read port n (S reads)
      | _ => (RetryRaised, S reads)
      end
  end.

(** The last part of the method: address and function test, then the
    decoding. *)
Definition accept (address : Z) (response : list Z) : option identification :=
  if negb (Py.item response 0 =? address) || negb (Py.item response 1 =? 0x11)
  then None
  else Some (_parse_device_identification_response response).

Definition exchange_log (request : list Z) (reads : nat)
  : list Registers.link_event :=
  [Registers.EvWrite request; Registers.EvFlush]
  ++ repeat (Registers.EvRead 100) reads.

Definition _send_modbus_command_17 (port : Port) (address : Z)
  : option identification * list Registers.link_event :=
  match Py.bytearray [address; 0x11; 0x00; 0x00; 0x00; 0x00] with
  | None => (None, [])
  | Some request =>
    let request := Registers.append_crc request in
    if write_raises port then (None, [Registers.EvWrite request])
    else if flush_raises port
    then (None, [Registers.EvWrite request; Registers.EvFlush])
    else
      match replies port 0 with
      | Registers.ReadBytes response =>
          if Py.len response <? 7 then (None, exchange_log request 1)
          else if crc_ok response
          then (accept address response, exchange_log request 1)
          else
            match retry_read port 2 1 with
            | (RetryAccepted response', reads) =>
                (accept address response', exchange_log request reads)
            | (_, reads) => (None, exchange_log request reads)
            end
      | _ => (None, exchange_log request 1)
      end
  end.

(** [get_device_info]; the handle is a pyserial one, which has the
    [is_open] attribute, so the probing branch for handles without it is
    not entered. *)
Definition get_device_info (connection : option Port) (address : Z)
  : option identification * list Registers.link_event :=
  match connection with
  | None => (None, [])
  | Some port =>
      if negb (is_open port) then (None, [])
      else _send_modbus_command_17 port address
  end.

(** *** AutoSearchWorker._read_device_info (auto_search_worker.py)

    [connected] is the handle of the client when [client.connect()]
    succeeded, None otherwise.  The result combines the dictionary of
    [get_device_info] with that of the vendor parser. *)

Record combined_info : Type := {
  raw_info : identification;
  parsed_info : option Parser.parse_result   (* None: no text to parse *)
}.

(** [raw_info.get('raw_response') or raw_info.get('hex_format')] *)
Definition hex_response_of (info : identification) : option string :=
  match info with
  | RawOnly raw =>
      match raw with
      | EmptyString => None
      | _ => Some raw
      end
  | Identified i =>
      match raw_response i with
      | EmptyString =>
          match hex_format i with
          | EmptyString => None
          | text => Some text
          end
      | raw => Some raw
      end
  end.

Definition _read_device_info (connected : option Port) (address : Z)
  : option combined_info :=
  match connected with
  | None => None
  | Some port =>
      match fst (get_device_info (Some port) address) with
      | None => None
      | Some info =>
          match hex_response_of info with
          | None => Some {| raw_info := info; parsed_info := None |}
          | Some hex_response =>
              match Parser.parse_specific_device_response hex_response with
              | Parser.Raises _ => None      (* caught by the method *)
              | parsed =>
                  Some {| raw_info := info; parsed_info := Some parsed |}
              end
          end
      end
  end.

(** *** Vocabulary for the statements about the identification exchange *)

Definition crc_valid (response : list Z) : Prop := crc_ok response = true.

(** The number of [read] calls in a log. *)
Definition reads_in (log : list Registers.link_event) : nat :=
  length (filter (fun e => match e with
                           | Registers.EvRead _ => true
                           | _ => false
                           end) log).

(** The request frame of the identification command. *)
Definition identification_request (address : Z) : list Z :=
  Registers.append_crc [address; 0x11; 0x00; 0x00; 0x00; 0x00].

(** An object of an identification response: its id, then its length,
    then its bytes. *)
Definition encode_object (object : Z * list Z) : list Z :=
  fst object :: Py.len (snd object) :: snd object.

(** The dictionary entry an object decodes to. *)
Definition object_entry (object : Z * list Z) : string * string :=
  ("object_" ++ Parser.str (fst object),
   Parser.decode_ascii_ignore (snd object)).

(** The dictionary obtained by assigning the entries in order. *)
Definition dict_of (entries : list (string * string))
  : list (string * string) :=
  fold_left (fun d entry => dict_set d (fst entry) (snd entry)) entries [].

End DeviceInfo.

(** ** modbus_scanner_wrapper.py *)

Module ScannerWrapper.

Definition DEFAULT_BAUDRATES : list Z := [115200; 57600; 38400; 19200; 9600].

(** What the native scanner does on one address and speed. *)
Inductive native_result : Type :=
| NativeHit (response : string)
| NativeMiss
| NativeRaises.

(** [ModbusScannerRust.scan_single]; [_scanner] is None when the native
    library could not be imported, and the fallback then finds nothing. *)
Definition scan_single (_scanner : option (Z -> Z -> native_result))
    (address baudrate : Z) : option string :=
  match _scanner with
  | None => None
  | Some native =>
      match native address baudrate with
      | NativeHit response => Some response
      | NativeMiss => None
      | NativeRaises => None
      end
  end.

(** The loop of [auto_detect_baudrate]. *)
Fixpoint first_baudrate (_scanner : option (Z -> Z -> native_result))
    (address : Z) (baudrates : list Z) : option Z :=
  match baudrates with
  | [] => None
  | baudrate :: rest =>
      match scan_single _scanner address baudrate with
      | Some _ => Some baudrate
      | None => first_baudrate _scanner address rest
      end
  end.

Definition auto_detect_baudrate (_scanner : option (Z -> Z -> native_result))
    (address : Z) (baudrates : option (list Z)) : option Z :=
  first_baudrate _scanner address
    match baudrates with
    | None => DEFAULT_BAUDRATES
    | Some given => given
    end.

End ScannerWrapper.

(** * Properties *)

(** ** Frame checksum and request frames *)

Section FrameFacts.

Import Registers.

(** C1: for the bytes 01 03 00 00 00 0A the checksum has low byte 0xC5 and
    high byte 0xCD; the register read of 10 registers from address 0 on
    device 1 with function 0x03 therefore writes the frame
    01 03 00 00 00 0A C5 CD, low checksum byte first. *)
Theorem C1_crc16_test_vector :
  let crc := _calculate_crc16 [0x01; 0x03; 0x00; 0x00; 0x00; 0x0A] in
  Z.land crc 0xFF = 0xC5 /\
  Z.land (Z.shiftr crc 8) 0xFF = 0xCD /\
  append_crc [0x01; 0x03; 0x00; 0x00; 0x00; 0x0A]
    = [0x01; 0x03; 0x00; 0x00; 0x00; 0x0A; 0xC5; 0xCD] /\
  forall w f r,
    hd_error
      (snd (read_registers_status
              (Some {| is_open := true; write_raises := w;
                       flush_raises := f; read := r |})
              1 0 10 0x03))
    = Some (EvWrite [0x01; 0x03; 0x00; 0x00; 0x00; 0x0A; 0xC5; 0xCD]).
Proof.
  cbv zeta.
  split; [vm_compute; reflexivity|].
  split; [vm_compute; reflexivity|].
  split; [vm_compute; reflexivity|].
  intros w f r.
  unfold read_registers_status, exchange; cbn [is_open negb write_raises
    flush_raises read].
  change (Py.bytearray _) with (Some [1; 3; 0; 0; 0; 10]).
  change (append_crc [1; 3; 0; 0; 0; 10])
    with [0x01; 0x03; 0x00; 0x00; 0x00; 0x0A; 0xC5; 0xCD].
  cbv iota beta.
  destruct w; [reflexivity|].
  destruct f; [reflexivity|].
  destruct (r _); reflexivity.
Qed.

(** C10: with an empty values list both multi-value writes return False
    and make no call on the serial handle, whatever the connection is. *)
Theorem C10_empty_values_send_nothing :
  forall connection device_address start_address,
    write_holding_registers connection device_address start_address [] = false
    /\ snd (write_holding_registers_status connection device_address
              start_address []) = []
    /\ write_multiple_coils connection device_address start_address [] = false
    /\ snd (write_multiple_coils_status connection device_address
              start_address []) = [].
Proof.
  intros [conn|] device_address start_address;
    unfold write_holding_registers, write_multiple_coils,
      write_holding_registers_status, write_multiple_coils_status;
    [destruct (is_open conn)|]; repeat split; reflexivity.
Qed.

End FrameFacts.

(** ** Connection monitor *)

Section MonitorFacts.

Import Monitor.

Lemma max_failures_init :
  forall fast, max_failures (init fast) = if fast then 2 else 3.
Proof. reflexivity. Qed.

(** A single failed poll followed by an answered one emits nothing. *)
Lemma one_failure_then_success_is_silent :
  forall fast p,
    p <> DeviceInfo true ->
    snd (run (init fast) [p; DeviceInfo true]) = [].
Proof.
  intros fast p Hp.
  destruct fast, p as [|[|]|]; try reflexivity; contradiction.
Qed.

(** An answered poll after a loss emits the reconnection and clears the
    counter. *)
Lemma success_after_loss_reconnects :
  forall m,
    is_connected m = false ->
    iteration m (DeviceInfo true)
    = (set_state m true 0, [device_reconnected]).
Proof.
  intros m H. unfold iteration. rewrite H. reflexivity.
Qed.

(** The unanswered-poll branch signals at every poll from the threshold on. *)
Lemma unanswered_polls_signal_each_time :
  forall n m,
    max_failures m <= consecutive_failures m + 1 ->
    snd (loop m (repeat (DeviceInfo false) n))
    = repeat device_disconnected n.
Proof.
  induction n as [|n IH]; intros m Hm; [reflexivity|].
  cbn [repeat loop iteration].
  destruct (consecutive_failures m + 1 >=? max_failures m) eqn:E;
    [|rewrite Z.geb_leb, Z.leb_gt in E; lia].
  specialize (IH (set_state m false (consecutive_failures m + 1))).
  destruct (loop _ _) as [m'' later] eqn:El.
  cbn [snd app]. f_equal.
  apply IH. cbn. lia.
Qed.

(** C4: in normal mode (threshold 3) four consecutive unanswered polls
    emit [device_disconnected] twice, at the third and at the fourth poll:
    the branch for an unanswered poll does not test [is_connected] before
    signalling, unlike the two sibling branches. *)
Theorem C4_unanswered_polls_repeat_lost :
  snd (run (init false)
         [DeviceInfo false; DeviceInfo false; DeviceInfo false;
          DeviceInfo false])
  = [device_disconnected; device_disconnected]
  /\ snd (run (init false) [WorkerDown; WorkerDown; WorkerDown; WorkerDown])
     = [device_disconnected]
  /\ snd (run (init false) [ReadFails; ReadFails; ReadFails; ReadFails])
     = [device_disconnected].
Proof. repeat split; reflexivity. Qed.

End MonitorFacts.

(** ** Identification decoding *)

Section ParserFacts.

Import Parser.
Local Open Scope string_scope.

(** C8: on the example response the decoder yields software "V07.00"
    (major 7, minor 0) and I/O counts "0/0/32/0" (32 analog inputs), and
    hardware "V01.01"; the comments beside the code announce V00.07 and
    0/32/0/0 for these very bytes. *)
Theorem C8_example_decodes_swapped :
  match parse_specific_device_response example_response with
  | Parsed d =>
      option_map vf_value (software (device_data d)) = Some "V07.00"
      /\ option_map vf_major (software (device_data d)) = Some 7
      /\ option_map vf_minor (software (device_data d)) = Some 0
      /\ option_map vf_value (hardware (device_data d)) = Some "V01.01"
      /\ option_map io_value (io_counts (device_data d)) = Some "0/0/32/0"
      /\ option_map digital_outputs (io_counts (device_data d)) = Some 0
      /\ option_map analog_inputs (io_counts (device_data d)) = Some 32
      /\ parse_error d = None
  | _ => False
  end.
Proof. vm_compute. repeat split; reflexivity. Qed.

End ParserFacts.

(** ** Register access: classification of responses *)

Section RegisterFacts.

Import Registers.

Lemma land_ff_in_byte_range :
  forall x, Py.in_byte_range (Z.land x 0xFF) = true.
Proof.
  intro x. unfold Py.in_byte_range.
  change 0xFF with (Z.ones 8). rewrite Z.land_ones by lia.
  pose proof (Z.mod_pos_bound x (2 ^ 8) ltac:(lia)) as H.
  change (2 ^ 8) with 256 in *.
  apply andb_true_iff; split; [apply Z.leb_le | apply Z.ltb_lt]; lia.
Qed.

Lemma responder_answers : forall response, answers (responder response) response.
Proof. intro response. repeat split. Qed.

Lemma exchange_answers :
  forall conn response request,
    answers conn response ->
    exchange conn request
    = (XResponse response, [EvWrite request; EvFlush; EvRead 100]).
Proof.
  intros conn response request (_ & Hw & Hf & Hr).
  unfold exchange. rewrite Hw, Hf, Hr. reflexivity.
Qed.

(** Once a response is received, a read is decided by the response alone. *)
Lemma read_registers_received :
  forall conn response device_address start_address count function_code,
    answers conn response ->
    Py.in_byte_range device_address = true ->
    Py.in_byte_range function_code = true ->
    fst (read_registers_status (Some conn) device_address start_address count
           function_code)
    = decode_read_response device_address function_code count response.
Proof.
  intros conn response device_address start_address count function_code
    Hans Hd Hf.
  unfold read_registers_status.
  destruct Hans as (Ho & Hrest). rewrite Ho. cbn [negb].
  unfold Py.bytearray. cbn [forallb].
  rewrite Hd, Hf, !land_ff_in_byte_range. cbn [andb].
  rewrite (exchange_answers conn response) by (repeat split; tauto).
  reflexivity.
Qed.

Lemma transmit_write_received :
  forall conn response device_address function_code start_address count
         request,
    answers conn response ->
    fst (transmit_write conn device_address function_code start_address count
           request)
    = decode_write_response device_address function_code start_address count
        response.
Proof.
  intros. unfold transmit_write.
  rewrite (exchange_answers conn response) by assumption. reflexivity.
Qed.

(** The same for the multi-register write. *)
Lemma write_holding_registers_received :
  forall conn response device_address start_address values,
    answers conn response ->
    values <> [] ->
    Py.in_byte_range device_address = true ->
    Py.len values <= 127 ->
    fst (write_holding_registers_status (Some conn) device_address
           start_address values)
    = decode_write_response device_address 0x10 start_address
        (Py.len values) response.
Proof.
  intros conn response device_address start_address values Hans Hne Hd Hlen.
  unfold write_holding_registers_status.
  destruct (Hans) as (Ho & _). rewrite Ho. cbn [negb].
  destruct values as [|v values]; [contradiction|].
  unfold Py.bytearray. cbn [forallb].
  rewrite Hd, !land_ff_in_byte_range.
  assert (Hb : Py.in_byte_range (Py.len (v :: values) * 2) = true).
  { unfold Py.in_byte_range, Py.len in *.
    apply andb_true_iff; split; [apply Z.leb_le | apply Z.ltb_lt]; lia. }
  rewrite Hb. cbn [andb].
  apply transmit_write_received; assumption.
Qed.

(** A response is rejected by a write whenever its checksum is wrong. *)
Lemma decode_write_bad_crc :
  forall device_address function_code start_address count response,
    ~ crc_valid response ->
    write_value
      (decode_write_response device_address function_code start_address count
         response) = false.
Proof.
  intros device_address function_code start_address count response Hcrc.
  unfold decode_write_response.
  destruct response as [|b response]; [reflexivity|].
  destruct (Py.len (b :: response) <? 8); [reflexivity|].
  destruct (response_crc (b :: response) =? calculated_crc (b :: response))
    eqn:E; [apply Z.eqb_eq in E; contradiction | reflexivity].
Qed.

(** A write status that counts as success went through all four checks. *)
Lemma decode_write_success :
  forall device_address function_code start_address count response,
    write_value
      (decode_write_response device_address function_code start_address count
         response) = true ->
    8 <= Py.len response /\ crc_valid response /\
    Py.item response 0 = device_address /\
    Py.item response 1 = function_code.
Proof.
  intros device_address function_code start_address count response.
  unfold decode_write_response, crc_valid.
  destruct response as [|b response]; [discriminate|].
  destruct (Py.len (b :: response) <? 8) eqn:El; [discriminate|].
  destruct (response_crc (b :: response) =? calculated_crc (b :: response))
    eqn:Ec; [|discriminate].
  destruct (Py.item (b :: response) 0 =? device_address) eqn:Ea;
    [|discriminate].
  destruct (Py.item (b :: response) 1 =? function_code) eqn:Ef.
  - intros _. apply Z.ltb_ge in El. apply Z.eqb_eq in Ec, Ea, Ef. tauto.
  - cbn [negb]. destruct (negb _); discriminate.
Qed.

Lemma transmit_write_success :
  forall conn device_address function_code start_address count request,
    write_value
      (fst (transmit_write conn device_address function_code start_address
              count request)) = true ->
    exists response,
      read conn (append_crc request) = ReadBytes response /\
      snd (transmit_write conn device_address function_code start_address
             count request)
      = [EvWrite (append_crc request); EvFlush; EvRead 100] /\
      8 <= Py.len response /\ crc_valid response /\
      Py.item response 0 = device_address /\
      Py.item response 1 = function_code.
Proof.
  intros conn device_address function_code start_address count request.
  unfold transmit_write, exchange.
  destruct (write_raises conn); [discriminate|].
  destruct (flush_raises conn); [discriminate|].
  destruct (read conn (append_crc request)) as [response| |];
    [|discriminate|discriminate].
  cbn [fst snd]. intro H. exists response.
  split; [reflexivity|]. split; [reflexivity|].
  eapply decode_write_success; eassumption.
Qed.

(** C5: the code misses the exception reply a device sends.  The Modbus
    exception reply to function 0x10 from device 1 with code 2 is the
    five-byte frame 01 90 02 CD C1 (address, function, code, checksum).
    Its checksum is valid, the address matches, the function byte is 0x90
    and the third byte 0x02, yet [write_holding_registers] stops at the
    length test (fewer than 8 bytes, the length of the success echo) that
    precedes the exception table, and never decodes the code. *)
Lemma C5_short_exception_frame_is_too_short :
  let response := [0x01; 0x90; 0x02; 0xCD; 0xC1] in
  response = append_crc [0x01; 0x90; 0x02] /\
  crc_valid response /\
  Py.item response 0 = 1 /\ Py.item response 1 = 0x90 /\
  Py.item response 2 = 0x02 /\
  fst (write_holding_registers_status (Some (responder response)) 1 0 [5])
  = WTooShort /\
  fst (write_holding_registers_status (Some (responder response)) 1 0 [5])
  <> WException 2.
Proof.
  cbv zeta. split; [vm_compute; reflexivity|].
  split; [vm_compute; reflexivity|].
  split; [reflexivity|]. split; [reflexivity|]. split; [reflexivity|].
  split; [vm_compute; reflexivity|].
  vm_compute. discriminate.
Qed.

(** The exception table is reached only by a response as long as the
    success echo: a response of at least 8 bytes with a valid checksum and
    the device's address, whose function byte is 0x90 and whose third byte
    is 0x02, is classified as Modbus exception 2, "Illegal Data Address",
    and the write returns False. *)
Lemma exception_02_in_long_response :
  forall conn response device_address start_address values,
    answers conn response ->
    values <> [] ->
    Py.in_byte_range device_address = true ->
    Py.len values <= 127 ->
    8 <= Py.len response ->
    crc_valid response ->
    Py.item response 0 = device_address ->
    Py.item response 1 = 0x90 ->
    Py.item response 2 = 0x02 ->
    fst (write_holding_registers_status (Some conn) device_address
           start_address values) = WException 2
    /\ exception_text 2 = Some "Illegal Data Address"%string
    /\ write_holding_registers (Some conn) device_address start_address values
       = false.
Proof.
  intros conn response device_address start_address values
    Hans Hne Hd Hn Hlen Hcrc Ha Hf Hc.
  assert (E : fst (write_holding_registers_status (Some conn) device_address
                     start_address values) = WException 2).
  { rewrite (write_holding_registers_received conn response) by assumption.
    unfold decode_write_response.
    destruct response as [|b response]; [cbn in Hf; discriminate|].
    apply Z.ltb_ge in Hlen. rewrite Hlen.
    unfold crc_valid in Hcrc. rewrite Hcrc, Z.eqb_refl, Ha, Z.eqb_refl, Hf, Hc.
    reflexivity. }
  split; [exact E|]. split; [reflexivity|].
  unfold write_holding_registers. rewrite E. reflexivity.
Qed.

(** C6 as stated fails on the four-byte response 01 03 00 00: the
    checksum recomputed over 01 03 is not 00 00, and the read returns None
    (response too short), not the empty list. *)
Lemma C6_short_bad_crc_read_is_none :
  let response := [0x01; 0x03; 0x00; 0x00] in
  ~ crc_valid response /\
  _read_registers_with_function (Some (responder response)) 1 0 1 0x03 = None.
Proof.
  cbv zeta. split; [vm_compute; discriminate | vm_compute; reflexivity].
Qed.

(** C6 (amended): a register-read response of at least 5 bytes whose
    recomputed checksum differs from its two trailing bytes makes the read
    return the empty list; a write response whose checksum differs makes
    each of the four writes return False; and a write that returns True
    has written its request, flushed, and read a response of at least 8
    bytes that passes the checksum, device-address and function-code
    tests. *)
Theorem C6_crc_failures :
  (forall conn response device_address start_address count function_code,
      answers conn response ->
      Py.in_byte_range device_address = true ->
      Py.in_byte_range function_code = true ->
      5 <= Py.len response ->
      ~ crc_valid response ->
      _read_registers_with_function (Some conn) device_address start_address
        count function_code = Some [])
  /\
  (forall conn response device_address start_address values coils value coil,
      answers conn response ->
      ~ crc_valid response ->
      write_holding_registers (Some conn) device_address start_address values
      = false
      /\ write_multiple_coils (Some conn) device_address start_address coils
         = false
      /\ write_single_register (Some conn) device_address start_address value
         = false
      /\ write_single_coil (Some conn) device_address start_address coil
         = false)
  /\
  (forall conn device_address start_address values,
      write_holding_registers (Some conn) device_address start_address values
      = true ->
      exists request response,
        read conn request = ReadBytes response /\
        snd (write_holding_registers_status (Some conn) device_address
               start_address values)
        = [EvWrite request; EvFlush; EvRead 100] /\
        8 <= Py.len response /\ crc_valid response /\
        Py.item response 0 = device_address /\
        Py.item response 1 = 0x10)
  /\
  (forall conn device_address start_address coils,
      write_multiple_coils (Some conn) device_address start_address coils
      = true ->
      exists request response,
        read conn request = ReadBytes response /\
        snd (write_multiple_coils_status (Some conn) device_address
               start_address coils)
        = [EvWrite request; EvFlush; EvRead 100] /\
        8 <= Py.len response /\ crc_valid response /\
        Py.item response 0 = device_address /\
        Py.item response 1 = 0x0F)
  /\
  (forall conn device_address address value,
      write_single_register (Some conn) device_address address value = true ->
      exists request response,
        read conn request = ReadBytes response /\
        snd (write_single_register_status (Some conn) device_address address
               value)
        = [EvWrite request; EvFlush; EvRead 100] /\
        8 <= Py.len response /\ crc_valid response /\
        Py.item response 0 = device_address /\
        Py.item response 1 = 0x06)
  /\
  (forall conn device_address address value,
      write_single_coil (Some conn) device_address address value = true ->
      exists request response,
        read conn request = ReadBytes response /\
        snd (write_single_coil_status (Some conn) device_address address
               value)
        = [EvWrite request; EvFlush; EvRead 100] /\
        8 <= Py.len response /\ crc_valid response /\
        Py.item response 0 = device_address /\
        Py.item response 1 = 0x05)
  /\
  (forall device_address start_address values coils value coil,
      write_holding_registers None device_address start_address values = false
      /\ write_multiple_coils None device_address start_address coils = false
      /\ write_single_register None device_address start_address value = false
      /\ write_single_coil None device_address start_address coil = false).
Proof.
  split; [|split; [|split; [|split; [|split; [|split]]]]].
  - intros conn response device_address start_address count function_code
      Hans Hd Hf Hlen Hcrc.
    unfold _read_registers_with_function.
    rewrite (read_registers_received conn response) by assumption.
    unfold decode_read_response.
    destruct response as [|b response]; [cbn in Hlen; lia|].
    apply Z.ltb_ge in Hlen. rewrite Hlen.
    destruct (response_crc (b :: response) =? calculated_crc (b :: response))
      eqn:E; [apply Z.eqb_eq in E; contradiction | reflexivity].
  - intros conn response device_address start_address values coils value coil
      Hans Hcrc.
    assert (T : forall function_code a c request,
               write_value
                 (fst (transmit_write conn device_address function_code a c
                         request)) = false).
    { intros. rewrite (transmit_write_received conn response) by assumption.
      apply decode_write_bad_crc; assumption. }
    unfold write_holding_registers, write_multiple_coils,
      write_single_register, write_single_coil,
      write_holding_registers_status, write_multiple_coils_status,
      write_single_register_status, write_single_coil_status.
    destruct (negb (is_open conn)); [repeat split; reflexivity|].
    repeat split.
    + destruct values; [reflexivity|].
      destruct (Py.bytearray _); [apply T | reflexivity].
    + destruct coils; [reflexivity|].
      destruct (Py.bytearray _); [apply T | reflexivity].
    + destruct (Py.bytearray _); [apply T | reflexivity].
    + destruct (Py.bytearray _); [apply T | reflexivity].
  - intros conn device_address start_address values.
    unfold write_holding_registers, write_holding_registers_status.
    destruct (negb (is_open conn)); [discriminate|].
    destruct values as [|v values]; [discriminate|].
    destruct (Py.bytearray _) as [request|]; [|discriminate].
    intro H. apply transmit_write_success in H.
    destruct H as (response & H). eexists; exists response; exact H.
  - intros conn device_address start_address coils.
    unfold write_multiple_coils, write_multiple_coils_status.
    destruct (negb (is_open conn)); [discriminate|].
    destruct coils as [|v coils]; [discriminate|].
    destruct (Py.bytearray _) as [request|]; [|discriminate].
    intro H. apply transmit_write_success in H.
    destruct H as (response & H). eexists; exists response; exact H.
  - intros conn device_address address value.
    unfold write_single_register, write_single_register_status.
    destruct (negb (is_open conn)); [discriminate|].
    destruct (Py.bytearray _) as [request|]; [|discriminate].
    intro H. apply transmit_write_success in H.
    destruct H as (response & H). eexists; exists response; exact H.
  - intros conn device_address address value.
    unfold write_single_coil, write_single_coil_status.
    destruct (negb (is_open conn)); [discriminate|].
    destruct (Py.bytearray _) as [request|]; [|discriminate].
    intro H. apply transmit_write_success in H.
    destruct H as (response & H). eexists; exists response; exact H.
  - intros. repeat split; reflexivity.
Qed.

Lemma C6_crc_failures_witness :
  _read_registers_with_function
    (Some (responder [0x01; 0x03; 0x02; 0x00; 0x05; 0x00; 0x00])) 1 0 1 0x03
  = Some []
  /\ write_holding_registers
       (Some (responder [0x01; 0x10; 0x00; 0x00; 0x00; 0x01; 0x00; 0x00]))
       1 0 [5] = false
  /\ (exists request response,
        read (responder (append_crc [0x01; 0x10; 0x00; 0x00; 0x00; 0x01]))
          request = ReadBytes response /\
        snd (write_holding_registers_status
               (Some (responder
                        (append_crc [0x01; 0x10; 0x00; 0x00; 0x00; 0x01])))
               1 0 [5])
        = [EvWrite request; EvFlush; EvRead 100] /\
        8 <= Py.len response /\ crc_valid response /\
        Py.item response 0 = 1 /\ Py.item response 1 = 0x10)
  /\ (exists request response,
        read (responder (append_crc [0x01; 0x0F; 0x00; 0x00; 0x00; 0x03]))
          request = ReadBytes response /\
        snd (write_multiple_coils_status
               (Some (responder
                        (append_crc [0x01; 0x0F; 0x00; 0x00; 0x00; 0x03])))
               1 0 [true; false; true])
        = [EvWrite request; EvFlush; EvRead 100] /\
        8 <= Py.len response /\ crc_valid response /\
        Py.item response 0 = 1 /\ Py.item response 1 = 0x0F)
  /\ (exists request response,
        read (responder (append_crc [0x01; 0x06; 0x00; 0x06; 0x00; 0x07]))
          request = ReadBytes response /\
        snd (write_single_register_status
               (Some (responder
                        (append_crc [0x01; 0x06; 0x00; 0x06; 0x00; 0x07])))
               1 6 7)
        = [EvWrite request; EvFlush; EvRead 100] /\
        8 <= Py.len response /\ crc_valid response /\
        Py.item response 0 = 1 /\ Py.item response 1 = 0x06)
  /\ (exists request response,
        read (responder (append_crc [0x01; 0x05; 0x00; 0x20; 0xFF; 0x00]))
          request = ReadBytes response /\
        snd (write_single_coil_status
               (Some (responder
                        (append_crc [0x01; 0x05; 0x00; 0x20; 0xFF; 0x00])))
               1 32 true)
        = [EvWrite request; EvFlush; EvRead 100] /\
        8 <= Py.len response /\ crc_valid response /\
        Py.item response 0 = 1 /\ Py.item response 1 = 0x05).
Proof.
  destruct C6_crc_failures as (Hread & Hbad & Hregs & Hcoils & Hreg & Hcoil & _).
  split; [|split; [|split; [|split; [|split]]]].
  - apply (Hread (responder [0x01; 0x03; 0x02; 0x00; 0x05; 0x00; 0x00])
             [0x01; 0x03; 0x02; 0x00; 0x05; 0x00; 0x00] 1 0 1 0x03).
    + apply responder_answers.
    + reflexivity.
    + reflexivity.
    + vm_compute. discriminate.
    + vm_compute. discriminate.
  - apply (Hbad (responder [0x01; 0x10; 0x00; 0x00; 0x00; 0x01; 0x00; 0x00])
             [0x01; 0x10; 0x00; 0x00; 0x00; 0x01; 0x00; 0x00] 1 0 [5] [true]
             0 true).
    + apply responder_answers.
    + vm_compute. discriminate.
  - apply Hregs. vm_compute. reflexivity.
  - apply Hcoils. vm_compute. reflexivity.
  - apply Hreg. vm_compute. reflexivity.
  - apply Hcoil. vm_compute. reflexivity.
Defined.

(** *** Registers taken from an identification reply *)

Lemma step2_indices_cons :
  forall s n,
    map (fun k => (s + 2 * k)%nat) (seq 0 (S n))
    = s :: map (fun k => (s + 2 + 2 * k)%nat) (seq 0 n).
Proof.
  intros s n. cbn [seq map]. f_equal; [lia|].
  rewrite <- seq_shift, map_map. apply map_ext. intro k. lia.
Qed.

Lemma skipn_two :
  forall (l : list Z) s,
    (s + 1 < length l)%nat ->
    skipn s l = nth s l 0 :: nth (s + 1) l 0 :: skipn (s + 2) l.
Proof.
  induction l as [|a l IH]; intros s H; [cbn in H; lia|].
  destruct s as [|s].
  - destruct l as [|b l]; [cbn in H; lia | reflexivity].
  - cbn [skipn nth Nat.add]. apply IH. cbn in H. lia.
Qed.

Lemma be_pairs_short :
  forall l, (length l <= 1)%nat -> be_pairs l = [].
Proof.
  intros [|a [|b l]] H; try reflexivity. cbn in H. lia.
Qed.

(** The extraction loop yields the pairs found from its first index on,
    cut after [count] registers in all, and after one when [count] is
    already reached by what was gathered before. *)
Lemma extract_function11_pairs :
  forall n response count s registers,
    (length response <= s + 2 * n)%nat ->
    extract_function11 response count
      (map (fun k => (s + 2 * k)%nat) (seq 0 n)) registers
    = registers
      ++ firstn (Z.to_nat (Z.max 1 (count - Py.len registers)))
           (be_pairs (skipn s response)).
Proof.
  induction n as [|n IH]; intros response count s registers Hlen.
  - cbn [seq map extract_function11].
    rewrite skipn_all2 by lia. cbn [be_pairs]. rewrite firstn_nil, app_nil_r.
    reflexivity.
  - rewrite step2_indices_cons. cbn [extract_function11].
    destruct (s + 1 <? length response)%nat eqn:E.
    + apply Nat.ltb_lt in E. rewrite (skipn_two response s E).
      cbn [be_pairs]. fold (pair_at response s).
      assert (Hl : Py.len (registers ++ [pair_at response s])
                   = Py.len registers + 1).
      { unfold Py.len. rewrite length_app. cbn [length]. lia. }
      destruct (Py.len (registers ++ [pair_at response s]) >=? count) eqn:G.
      * rewrite Z.geb_leb in G. apply Z.leb_le in G.
        replace (Z.to_nat (Z.max 1 (count - Py.len registers))) with 1%nat
          by lia.
        reflexivity.
      * rewrite Z.geb_leb in G. apply Z.leb_gt in G.
        rewrite IH by lia. rewrite Hl, <- app_assoc. cbn [app].
        replace (Z.to_nat (Z.max 1 (count - Py.len registers)))
          with (S (Z.to_nat (Z.max 1 (count - (Py.len registers + 1)))))
          by lia.
        reflexivity.
    + apply Nat.ltb_ge in E. rewrite IH by lia.
      rewrite skipn_all2 by lia.
      rewrite (be_pairs_short (skipn s response))
        by (rewrite length_skipn; lia).
      reflexivity.
Qed.

Lemma range_step2_covers :
  forall s len, (len <= s + 2 * ((len - s + 1) / 2))%nat.
Proof.
  intros s len.
  pose proof (Nat.div_mod_eq (len - s + 1) 2) as H.
  pose proof (Nat.mod_upper_bound (len - s + 1) 2 ltac:(lia)) as B.
  lia.
Qed.

(** C7: a read issued with function 0x03 or 0x04 that receives a reply with
    a valid checksum, the device's address and function byte 0x11 returns
    the big-endian byte pairs found from offset 8 of the reply on, cut at
    the requested count (the count is tested after each register is
    appended, so at least one register is kept); when no pair is found the
    read returns None. *)
Theorem C7_function11_reply_reinterpreted :
  forall conn response device_address start_address count function_code,
    answers conn response ->
    Py.in_byte_range device_address = true ->
    function_code = 0x03 \/ function_code = 0x04 ->
    crc_valid response ->
    Py.item response 0 = device_address ->
    Py.item response 1 = 0x11 ->
    _read_registers_with_function (Some conn) device_address start_address
      count function_code
    = match firstn (Z.to_nat (Z.max 1 count)) (be_pairs (skipn 8 response)) with
      | [] => None
      | registers => Some registers
      end.
Proof.
  intros conn response device_address start_address count function_code
    Hans Hd Hfc Hcrc Ha Hf.
  unfold _read_registers_with_function.
  rewrite (read_registers_received conn response);
    [|assumption|assumption|destruct Hfc; subst; reflexivity].
  unfold decode_read_response.
  destruct response as [|b response]; [cbn in Hf; discriminate|].
  destruct (Py.len (b :: response) <? 5) eqn:El.
  - apply Z.ltb_lt in El. unfold Py.len in El.
    rewrite skipn_all2 by lia. cbn [be_pairs]. rewrite firstn_nil.
    reflexivity.
  - unfold crc_valid in Hcrc.
    rewrite Hcrc, Z.eqb_refl, Ha, Z.eqb_refl, Hf. cbn [negb].
    replace (0x11 =? function_code) with false
      by (destruct Hfc; subst; reflexivity).
    cbn [negb]. rewrite Z.eqb_refl.
    unfold Py.range_step2.
    rewrite extract_function11_pairs by apply range_step2_covers.
    cbn [app]. change (Py.len []) with 0. rewrite Z.sub_0_r.
    destruct (firstn _ _); reflexivity.
Qed.

Lemma C7_function11_reply_reinterpreted_witness :
  _read_registers_with_function
    (Some (responder
             [0x01; 0x11; 0x00; 0x00; 0x00; 0x00; 0x00; 0x00; 0x12; 0x34;
              0x56; 0x64; 0xB3]))
    1 0 2 0x03
  = Some [0x1234; 0x5664].
Proof.
  apply (C7_function11_reply_reinterpreted
           (responder
              [0x01; 0x11; 0x00; 0x00; 0x00; 0x00; 0x00; 0x00; 0x12; 0x34;
               0x56; 0x64; 0xB3])
           [0x01; 0x11; 0x00; 0x00; 0x00; 0x00; 0x00; 0x00; 0x12; 0x34;
            0x56; 0x64; 0xB3] 1 0 2 0x03).
  - apply responder_answers.
  - reflexivity.
  - left. reflexivity.
  - vm_compute. reflexivity.
  - reflexivity.
  - reflexivity.
Defined.

End RegisterFacts.

(** ** Discovery scan *)

Section ScanFacts.

Import AutoSearch.

Variable scan_single : Z -> Z -> option string.

Lemma probes_app :
  forall l1 l2, probes (l1 ++ l2) = probes l1 ++ probes l2.
Proof.
  induction l1 as [|e l1 IH]; intro l2; [reflexivity|].
  destruct e; cbn [app probes]; rewrite IH; reflexivity.
Qed.

Lemma through_first_hit_app :
  forall xs ys,
    through_first_hit scan_single (xs ++ ys)
    = match first_hit scan_single xs with
      | Some _ => through_first_hit scan_single xs
      | None => xs ++ through_first_hit scan_single ys
      end.
Proof.
  induction xs as [|p xs IH]; intro ys; [reflexivity|].
  cbn [app through_first_hit first_hit].
  destruct (scan_single (fst p) (snd p)); [reflexivity|].
  rewrite IH. destruct (first_hit scan_single xs); reflexivity.
Qed.

Lemma first_hit_app :
  forall xs ys,
    first_hit scan_single (xs ++ ys)
    = match first_hit scan_single xs with
      | Some hit => Some hit
      | None => first_hit scan_single ys
      end.
Proof.
  induction xs as [|p xs IH]; intro ys; [reflexivity|].
  cbn [app first_hit].
  destruct (scan_single (fst p) (snd p)); [reflexivity | apply IH].
Qed.

Lemma through_first_hit_none :
  forall xs,
    first_hit scan_single xs = None -> through_first_hit scan_single xs = xs.
Proof.
  induction xs as [|p xs IH]; [reflexivity|].
  cbn [first_hit through_first_hit].
  destruct (scan_single (fst p) (snd p)); [discriminate|].
  intro H. rewrite IH by assumption. reflexivity.
Qed.

(** What the two helper functions say, without them. *)
Lemma first_hit_cases :
  forall space,
    (exists pre address baudrate response post,
        space = pre ++ (address, baudrate) :: post /\
        Forall (unanswered scan_single) pre /\
        scan_single address baudrate = Some response /\
        through_first_hit scan_single space = pre ++ [(address, baudrate)] /\
        first_hit scan_single space = Some (address, baudrate, response))
    \/ (Forall (unanswered scan_single) space /\
        through_first_hit scan_single space = space /\
        first_hit scan_single space = None).
Proof.
  induction space as [|[a b] space IH].
  - right. repeat split. constructor.
  - cbn [through_first_hit first_hit fst snd].
    destruct (scan_single a b) as [response|] eqn:E.
    + left. exists [], a, b, response, space. repeat split; auto.
    + destruct IH as [(pre & a' & b' & r' & post & Hs & Hp & Ha & Ht & Hf)
                     | (Hall & Ht & Hf)].
      * left. exists ((a, b) :: pre), a', b', r', post.
        rewrite Hs at 1. rewrite Ht, Hf.
        repeat split; try assumption.
        constructor; [exact E | exact Hp].
      * right. rewrite Ht, Hf.
        repeat split; try assumption.
        constructor; [exact E | exact Hall].
Qed.

(** The inner loop when the flag is never set. *)
Lemma scan_baudrates_never :
  forall address baudrates reads,
    let space := map (fun baudrate => (address, baudrate)) baudrates in
    probes (snd (scan_baudrates never scan_single address baudrates reads))
    = through_first_hit scan_single space
    /\ fst (fst (scan_baudrates never scan_single address baudrates reads))
       = match first_hit scan_single space with
         | Some (a, b, _) => Some (Found a b)
         | None => None
         end.
Proof.
  intros address baudrates. induction baudrates as [|b baudrates IH];
    intro reads; [split; reflexivity|].
  cbn [map through_first_hit first_hit scan_baudrates fst snd never].
  destruct (scan_single address b) as [response|]; [split; reflexivity|].
  specialize (IH (S reads)). cbv zeta in IH.
  destruct (scan_baudrates never scan_single address baudrates (S reads))
    as [[r reads'] log].
  cbn [fst snd probes] in *. destruct IH as [IH1 IH2].
  rewrite IH1, IH2. split; reflexivity.
Qed.

Lemma scan_addresses_never :
  forall addresses reads,
    let space :=
      flat_map (fun address => map (fun baudrate => (address, baudrate))
                                 SEARCH_BAUDRATES) addresses in
    probes (snd (scan_addresses never scan_single addresses reads))
    = through_first_hit scan_single space
    /\ fst (scan_addresses never scan_single addresses reads)
       = match first_hit scan_single space with
         | Some (a, b, _) => Found a b
         | None => NotFound
         end.
Proof.
  induction addresses as [|address addresses IH]; intro reads;
    [split; reflexivity|].
  cbv zeta. cbn [flat_map scan_addresses never].
  rewrite through_first_hit_app, first_hit_app.
  destruct (scan_baudrates_never address SEARCH_BAUDRATES (S reads))
    as [H1 H2].
  destruct (scan_baudrates never scan_single address SEARCH_BAUDRATES
              (S reads)) as [[r reads'] log].
  cbn [fst snd] in H1, H2.
  destruct (first_hit scan_single
              (map (fun baudrate => (address, baudrate)) SEARCH_BAUDRATES))
    as [[[a b] response]|] eqn:E; subst r.
  - cbn [fst snd probes]. rewrite H1. split; reflexivity.
  - specialize (IH reads'). cbv zeta in IH.
    destruct (scan_addresses never scan_single addresses reads')
      as [c log'].
    cbn [fst snd probes] in *. destruct IH as [IH1 IH2].
    rewrite probes_app, H1, IH1, (through_first_hit_none _ E).
    split; [reflexivity | exact IH2].
Qed.

Lemma quick_baudrates_spec :
  forall address baudrates,
    let space := map (fun baudrate => (address, baudrate)) baudrates in
    probes (snd (quick_baudrates scan_single address baudrates))
    = through_first_hit scan_single space
    /\ fst (quick_baudrates scan_single address baudrates)
       = first_hit scan_single space.
Proof.
  intros address baudrates. induction baudrates as [|b baudrates IH];
    [split; reflexivity|].
  cbn [map through_first_hit first_hit quick_baudrates fst snd].
  destruct (scan_single address b) as [response|]; [split; reflexivity|].
  cbv zeta in IH.
  destruct (quick_baudrates scan_single address baudrates) as [r log].
  cbn [fst snd probes] in *. destruct IH as [IH1 IH2].
  rewrite IH1, IH2. split; reflexivity.
Qed.

Lemma quick_addresses_spec :
  forall addresses,
    let space :=
      flat_map (fun address => map (fun baudrate => (address, baudrate))
                                 [115200; 57600; 38400; 19200; 9600])
               addresses in
    probes (snd (quick_addresses scan_single addresses))
    = through_first_hit scan_single space
    /\ fst (quick_addresses scan_single addresses)
       = first_hit scan_single space.
Proof.
  induction addresses as [|address addresses IH]; [split; reflexivity|].
  cbv zeta. cbn [flat_map quick_addresses].
  rewrite through_first_hit_app, first_hit_app.
  destruct (quick_baudrates_spec address [115200; 57600; 38400; 19200; 9600])
    as [H1 H2].
  destruct (quick_baudrates scan_single address
              [115200; 57600; 38400; 19200; 9600]) as [r log].
  cbn [fst snd] in H1, H2. rewrite <- H2.
  destruct r as [hit|].
  - cbn [fst snd]. rewrite H1. split; reflexivity.
  - cbv zeta in IH.
    destruct (quick_addresses scan_single addresses) as [c log'].
    cbn [fst snd] in *. destruct IH as [IH1 IH2].
    rewrite probes_app, H1, IH1, (through_first_hit_none _ (eq_sym H2)).
    split; [reflexivity | exact IH2].
Qed.

End ScanFacts.

Section ScanOrder.

Import AutoSearch.

(** C2: whatever the devices answer, with the stop flag never set the scan
    probes address 1 at 115200, 57600, 38400, 19200 and 9600, then address
    2 at the same speeds, and so on up to address 200.  Either some pair
    answers: then the probes are exactly the pairs before the first
    answering one followed by that pair, and it is the one reported; or no
    pair answers: then all 1000 pairs were probed and the scan reports that
    nothing was found.  [quick_auto_search] probes and reports alike. *)
Theorem C2_scan_order :
  forall scan_single : Z -> Z -> option string,
    search_space
    = flat_map (fun address =>
                  [(address, 115200); (address, 57600); (address, 38400);
                   (address, 19200); (address, 9600)])
               (map Z.of_nat (seq 1 200))
    /\
    ((exists pre address baudrate response post,
         search_space = pre ++ (address, baudrate) :: post /\
         Forall (unanswered scan_single) pre /\
         scan_single address baudrate = Some response /\
         probes (snd (_sequential_search never scan_single))
         = pre ++ [(address, baudrate)] /\
         fst (_sequential_search never scan_single) = Found address baudrate /\
         probes (snd (quick_auto_search scan_single true))
         = pre ++ [(address, baudrate)] /\
         fst (quick_auto_search scan_single true)
         = Some (address, baudrate, response))
     \/
     (Forall (unanswered scan_single) search_space /\
      probes (snd (_sequential_search never scan_single)) = search_space /\
      fst (_sequential_search never scan_single) = NotFound /\
      probes (snd (quick_auto_search scan_single true)) = search_space /\
      fst (quick_auto_search scan_single true) = None)).
Proof.
  intro scan_single. split; [vm_compute; reflexivity|].
  destruct (scan_addresses_never scan_single
              (Py.range MIN_ADDRESS (MAX_ADDRESS + 1)) 0) as [S1 S2].
  destruct (quick_addresses_spec scan_single (Py.range 1 201)) as [Q1 Q2].
  fold search_space in S1, S2.
  change (flat_map _ (Py.range 1 201)) with search_space in Q1, Q2.
  unfold _sequential_search, quick_auto_search. cbn [negb].
  rewrite S1, S2, Q1, Q2.
  destruct (first_hit_cases scan_single search_space)
    as [(pre & a & b & r & post & Hs & Hp & Ha & Ht & Hf) | (Hall & Ht & Hf)].
  - left. exists pre, a, b, r, post. rewrite Ht, Hf. repeat split; assumption.
  - right. rewrite Ht, Hf. repeat split; assumption.
Qed.

End ScanOrder.

(** *** The stop flag *)

Section StopFacts.

Import AutoSearch.

Variable should_stop : nat -> bool.
Variable scan_single : Z -> Z -> option string.

Lemma guarded_nil : guarded [].
Proof. intros [|e pre] a b post H; discriminate. Qed.

Lemma guarded_cons :
  forall e log,
    (forall a b, e <> Probe a b) -> (forall a b tl, log <> Probe a b :: tl) ->
    guarded log -> guarded (e :: log).
Proof.
  intros e log He Hhd G pre a b post H.
  destruct pre as [|e' pre]; cbn in H.
  - injection H as H _. exfalso. eapply He; eassumption.
  - injection H as <- H.
    destruct (G pre a b post H) as [pre' ->]. exists (e :: pre'). reflexivity.
Qed.

Lemma guarded_test_probe :
  forall a b log,
    (forall a' b' tl, log <> Probe a' b' :: tl) ->
    guarded log -> guarded (FlagTest false :: Probe a b :: log).
Proof.
  intros a b log Hhd G pre a' b' post H.
  destruct pre as [|e pre]; [discriminate|].
  injection H as <- H.
  destruct pre as [|e pre]; [exists []; reflexivity|].
  injection H as <- H.
  destruct (G pre a' b' post H) as [pre' ->].
  exists (FlagTest false :: Probe a b :: pre'). reflexivity.
Qed.

Lemma guarded_app :
  forall l1 l2,
    guarded l1 -> guarded l2 -> guarded (l1 ++ l2).
Proof.
  intros l1 l2 G1 G2 pre a b post H.
  apply app_eq_app in H. destruct H as (l & [[H1 H2] | [H1 H2]]).
  - destruct l as [|e l].
    + cbn in H2. symmetry in H2. rewrite app_nil_r in H1. subst pre.
      destruct (G2 [] a b post H2) as [pre' E].
      destruct pre'; discriminate.
    + injection H2 as <- H2. exact (G1 pre a b l H1).
  - destruct (G2 l a b post H2) as [pre' ->].
    exists (l1 ++ pre'). rewrite H1, app_assoc. reflexivity.
Qed.

Lemma unset_app_last :
  forall (pre pre0 post : list event) x,
    pre ++ x :: post = pre0 ++ [x] -> ~ In x pre0 -> post = [] /\ pre = pre0.
Proof.
  intros pre pre0. revert pre.
  induction pre0 as [|y pre0 IH]; intros pre post x H Hn.
  - destruct pre as [|e pre]; cbn in H.
    + injection H as ->. split; reflexivity.
    + injection H as _ H. destruct pre; discriminate.
  - destruct pre as [|e pre]; cbn in H.
    + injection H as -> _. exfalso. apply Hn. left. reflexivity.
    + injection H as -> H.
      destruct (IH pre post x H) as [-> ->];
        [intro; apply Hn; right; assumption|].
      split; reflexivity.
Qed.

Lemma stop_shape_cons :
  forall e stopped log,
    e <> FlagTest true -> stop_shape stopped log -> stop_shape stopped (e :: log).
Proof.
  intros e stopped log He [[Hs Hu] | [Hs (pre & -> & Hu)]].
  - left. split; [assumption|]. intros [H|H]; [auto | exact (Hu H)].
  - right. split; [assumption|]. exists (e :: pre). split; [reflexivity|].
    intros [H|H]; [auto | exact (Hu H)].
Qed.

Lemma stop_shape_app :
  forall stopped l1 l2,
    unset l1 -> stop_shape stopped l2 -> stop_shape stopped (l1 ++ l2).
Proof.
  induction l1 as [|e l1 IH]; intros l2 Hu H; [exact H|].
  cbn [app]. apply stop_shape_cons.
  - intro E. apply Hu. left. exact E.
  - apply IH; [|exact H]. intro E. apply Hu. right. exact E.
Qed.

Lemma scan_baudrates_log :
  forall address baudrates reads,
    let r := scan_baudrates should_stop scan_single address baudrates reads in
    guarded (snd r)
    /\ (forall a b tl, snd r <> Probe a b :: tl)
    /\ stop_shape (returned_stopped (fst (fst r))) (snd r)
    /\ flag_reads (snd r)
       = map should_stop (seq reads (length (flag_reads (snd r))))
    /\ snd (fst r) = (reads + length (flag_reads (snd r)))%nat.
Proof.
  intros address baudrates.
  induction baudrates as [|b baudrates IH]; intro reads; cbv zeta.
  - cbn. repeat split; try apply guarded_nil; try discriminate; try lia.
    left. split; [reflexivity | intros []].
  - cbn [scan_baudrates].
    destruct (should_stop reads) eqn:Es.
    + cbn [fst snd returned_stopped is_stopped flag_reads length seq map].
      rewrite Es. repeat split; try discriminate; try lia.
      * apply guarded_cons; try discriminate. apply guarded_nil.
      * right. split; [reflexivity|]. exists []. split; [reflexivity|].
        intros [].
    + destruct (scan_single address b) as [response|].
      * cbn [fst snd returned_stopped is_stopped flag_reads length seq map].
        rewrite Es. repeat split; try discriminate; try lia.
        -- apply guarded_test_probe; [discriminate|].
           apply guarded_cons; try discriminate. apply guarded_nil.
        -- left. split; [reflexivity|].
           intros [H|[H|[H|[]]]]; discriminate.
      * specialize (IH (S reads)). cbv zeta in IH.
        destruct (scan_baudrates should_stop scan_single address baudrates
                    (S reads)) as [[r reads'] log].
        cbn [fst snd flag_reads length seq map] in *.
        destruct IH as (G & Hhd & Hshape & Hflags & Hreads).
        rewrite Es. repeat split; try discriminate.
        -- apply guarded_test_probe; [|exact G].
           intros a' b' tl. apply Hhd.
        -- apply stop_shape_cons; [discriminate|].
           apply stop_shape_cons; [discriminate|]. exact Hshape.
        -- f_equal. exact Hflags.
        -- lia.
Qed.

Lemma flag_reads_app :
  forall l1 l2, flag_reads (l1 ++ l2) = flag_reads l1 ++ flag_reads l2.
Proof.
  induction l1 as [|e l1 IH]; intro l2; [reflexivity|].
  destruct e; cbn [app flag_reads]; rewrite IH; reflexivity.
Qed.

Lemma scan_addresses_log :
  forall addresses reads,
    let r := scan_addresses should_stop scan_single addresses reads in
    guarded (snd r)
    /\ (forall a b tl, snd r <> Probe a b :: tl)
    /\ stop_shape (is_stopped (fst r)) (snd r)
    /\ flag_reads (snd r)
       = map should_stop (seq reads (length (flag_reads (snd r)))).
Proof.
  induction addresses as [|address addresses IH]; intro reads; cbv zeta.
  - cbn. repeat split; try apply guarded_nil; try discriminate.
    left. split; [reflexivity | intros []].
  - cbn [scan_addresses].
    destruct (should_stop reads) eqn:Es.
    + cbn [fst snd is_stopped flag_reads length seq map].
      rewrite Es. repeat split; try discriminate.
      * apply guarded_cons; try discriminate. apply guarded_nil.
      * right. split; [reflexivity|]. exists []. split; [reflexivity|].
        intros [].
    + pose proof (scan_baudrates_log address SEARCH_BAUDRATES (S reads)) as L.
      cbv zeta in L.
      destruct (scan_baudrates should_stop scan_single address
                  SEARCH_BAUDRATES (S reads)) as [[r reads'] log].
      cbn [fst snd] in L.
      destruct L as (G & Hhd & Hshape & Hflags & Hreads).
      destruct r as [c|].
      * cbn [fst snd flag_reads length seq map returned_stopped] in *.
        rewrite Es. repeat split; try discriminate.
        -- apply guarded_cons; try discriminate.
           apply guarded_cons; try discriminate; assumption.
        -- apply stop_shape_cons; [discriminate|].
           apply stop_shape_cons; [discriminate|]. exact Hshape.
        -- f_equal. exact Hflags.
      * specialize (IH reads'). cbv zeta in IH.
        destruct (scan_addresses should_stop scan_single addresses reads')
          as [c log'].
        cbn [fst snd flag_reads length seq map returned_stopped] in *.
        destruct IH as (G' & Hhd' & Hshape' & Hflags').
        rewrite Es. repeat split; try discriminate.
        -- apply guarded_cons; try discriminate.
           apply guarded_cons; try discriminate.
           ++ intros a b tl E. destruct log as [|e log].
              ** cbn in E. exact (Hhd' a b tl E).
              ** injection E as -> _. exact (Hhd a b log eq_refl).
           ++ apply guarded_app; assumption.
        -- apply stop_shape_cons; [discriminate|].
           apply stop_shape_cons; [discriminate|].
           apply stop_shape_app; [|exact Hshape'].
           destruct Hshape as [[_ Hu] | [Hs _]]; [exact Hu | discriminate].
        -- rewrite flag_reads_app, length_app, seq_app, map_app.
           f_equal. rewrite Hflags at 1. rewrite Hflags' at 1.
           subst reads'. reflexivity.
Qed.

End StopFacts.

Section StopFlag.

Import AutoSearch.

(** C3: whatever the devices answer and whenever the flag is set, the
    values the scan reads from [should_stop] are the flag's values in
    order; every probe comes directly after a test of the flag that read
    False, also between two speeds of one address; a test that reads True
    is the last thing the scan does, so no pair is probed after it, and
    the scan then reports that it was stopped; and it reports so only
    then. *)
Theorem C3_stop_flag_tested_before_every_probe :
  forall (should_stop : nat -> bool) (scan_single : Z -> Z -> option string),
    let log := snd (_sequential_search should_stop scan_single) in
    let c := fst (_sequential_search should_stop scan_single) in
    flag_reads log = map should_stop (seq 0 (length (flag_reads log)))
    /\ (forall pre address baudrate post,
           log = pre ++ Probe address baudrate :: post ->
           exists pre', pre = pre' ++ [FlagTest false])
    /\ (forall pre post,
           log = pre ++ FlagTest true :: post -> post = [] /\ c = Stopped)
    /\ (c = Stopped -> exists pre, log = pre ++ [FlagTest true]).
Proof.
  intros should_stop scan_single log c.
  destruct (scan_addresses_log should_stop scan_single
              (Py.range MIN_ADDRESS (MAX_ADDRESS + 1)) 0)
    as (G & _ & Hshape & Hflags).
  fold (_sequential_search should_stop scan_single) in G, Hshape, Hflags.
  fold log in G, Hshape, Hflags. fold c in Hshape.
  split; [exact Hflags|]. split; [exact G|]. split.
  - intros pre post E.
    destruct Hshape as [[_ Hu] | [Hs (pre0 & E0 & Hu)]].
    + exfalso. apply Hu. rewrite E. apply in_elt.
    + rewrite E0 in E.
      destruct (unset_app_last pre pre0 post (FlagTest true) (eq_sym E) Hu)
        as [-> _].
      split; [reflexivity|]. destruct c; try discriminate. reflexivity.
  - intro Hc.
    destruct Hshape as [[Hs _] | [_ (pre0 & E0 & _)]].
    + rewrite Hc in Hs. discriminate.
    + exists pre0. exact E0.
Qed.

Lemma C3_stop_flag_tested_before_every_probe_witness :
  let should_stop := fun n => (3 <=? n)%nat in
  let scan_single := fun (_ _ : Z) => @None string in
  (exists pre',
      [FlagTest false; Progress 1; FlagTest false; Probe 1 115200;
       FlagTest false] = pre' ++ [FlagTest false])
  /\ (@nil event = [] /\
      fst (_sequential_search should_stop scan_single) = Stopped)
  /\ (exists pre,
         snd (_sequential_search should_stop scan_single)
         = pre ++ [FlagTest true]).
Proof.
  intros should_stop scan_single.
  destruct (C3_stop_flag_tested_before_every_probe should_stop scan_single)
    as (_ & Hprobe & Hlast & Hstopped).
  split; [|split].
  - apply (Hprobe
             [FlagTest false; Progress 1; FlagTest false; Probe 1 115200;
              FlagTest false] 1 57600 [FlagTest true]).
    vm_compute. reflexivity.
  - apply (Hlast
             [FlagTest false; Progress 1; FlagTest false; Probe 1 115200;
              FlagTest false; Probe 1 57600] []).
    vm_compute. reflexivity.
  - apply Hstopped. vm_compute. reflexivity.
Defined.

End StopFlag.

(** ** Identification decoding: which fields are decoded *)

Section ParserFields.

Import Parser.
Local Open Scope string_scope.

Lemma hex_digit_hex_char :
  forall uppercase n,
    0 <= n < 16 -> hex_digit (hex_char uppercase n) = Some n.
Proof.
  intros uppercase n H.
  assert (E : In n [0; 1; 2; 3; 4; 5; 6; 7; 8; 9; 10; 11; 12; 13; 14; 15])
    by (cbn; lia).
  cbn in E.
  repeat (destruct E as [<-|E]; [destruct uppercase; reflexivity|]).
  destruct E.
Qed.

Lemma nibbles_of_byte :
  forall b, is_byte b -> 0 <= b / 16 < 16 /\ 0 <= b mod 16 < 16.
Proof.
  intros b [H0 H1]. split.
  - split; [apply Z.div_pos; lia | apply Z.div_lt_upper_bound; lia].
  - apply Z.mod_pos_bound. lia.
Qed.

Lemma hex2_is_hex_pair :
  forall uppercase b, is_byte b -> hex_pair (hex2 uppercase b).
Proof.
  intros uppercase b Hb. destruct (nibbles_of_byte b Hb) as [Hh Hl].
  exists (hex_char uppercase (b / 16)), (hex_char uppercase (b mod 16)).
  unfold is_hex. rewrite !hex_digit_hex_char by assumption.
  repeat split.
Qed.

(** [int(f"{b:02x}", 16)] is the byte again. *)
Lemma int_hex_hex2 :
  forall uppercase b, is_byte b -> int_hex (hex2 uppercase b) = Some b.
Proof.
  intros uppercase b Hb. destruct (nibbles_of_byte b Hb) as [Hh Hl].
  unfold hex2, int_hex. cbn [int_hex_from].
  rewrite !hex_digit_hex_char by assumption.
  f_equal. pose proof (Z.div_mod b 16 ltac:(lia)). lia.
Qed.

Lemma hex_pairs_of_bytes :
  forall uppercase payload,
    Forall is_byte payload -> Forall hex_pair (map (hex2 uppercase) payload).
Proof.
  intros uppercase payload H. induction H as [|b payload Hb _ IH];
    constructor; [apply hex2_is_hex_pair; assumption | exact IH].
Qed.

(** Hexadecimal digits are none of the three characters the parser removes. *)
Lemma is_hex_not_removed :
  forall a,
    is_hex a = true ->
    Ascii.eqb a " " = false /\ Ascii.eqb a "013" = false /\
    Ascii.eqb a "010" = false.
Proof.
  intros a H. repeat split; apply Ascii.eqb_neq; intro E; subst a;
    vm_compute in H; discriminate.
Qed.

Lemma join_empty_cons :
  forall a b bl,
    join "" (String a (String b EmptyString) :: bl)
    = String a (String b (join "" bl)).
Proof. intros a b [|y bl]; reflexivity. Qed.

Lemma join_space_cons2 :
  forall a b y bl,
    join " " (String a (String b EmptyString) :: y :: bl)
    = String a (String b (String " " (join " " (y :: bl)))).
Proof. reflexivity. Qed.

Lemma remove_space_join :
  forall bl,
    Forall hex_pair bl -> remove_char " " (join " " bl) = join "" bl.
Proof.
  intros bl H. induction H as [|x bl (a & b & -> & Ha & Hb) Hbl IH];
    [reflexivity|].
  destruct (is_hex_not_removed a Ha) as (Ea & _).
  destruct (is_hex_not_removed b Hb) as (Eb & _).
  rewrite join_empty_cons. destruct bl as [|y bl].
  - cbn. rewrite Ea, Eb. reflexivity.
  - rewrite join_space_cons2. cbn [remove_char]. rewrite Ea, Eb.
    cbn [Ascii.eqb Bool.eqb]. rewrite IH. reflexivity.
Qed.

Lemma remove_other_join :
  forall c bl,
    (forall a, is_hex a = true -> Ascii.eqb a c = false) ->
    Forall hex_pair bl -> remove_char c (join "" bl) = join "" bl.
Proof.
  intros c bl Hc H. induction H as [|x bl (a & b & -> & Ha & Hb) Hbl IH];
    [reflexivity|].
  rewrite join_empty_cons. cbn [remove_char].
  rewrite (Hc a Ha), (Hc b Hb), IH. reflexivity.
Qed.

Lemma chunks2_join :
  forall bl, Forall hex_pair bl -> chunks2 (join "" bl) = bl.
Proof.
  intros bl H. induction H as [|x bl (a & b & -> & Ha & Hb) Hbl IH];
    [reflexivity|].
  rewrite join_empty_cons. cbn [chunks2]. rewrite IH. reflexivity.
Qed.

Lemma byte_list_of_join_empty :
  forall bl, Forall hex_pair bl -> byte_list_of (join "" bl) = bl.
Proof.
  intros bl H. unfold byte_list_of.
  rewrite !remove_other_join; try assumption;
    try (intros a Ha; apply (is_hex_not_removed a Ha)).
  apply chunks2_join. assumption.
Qed.

Lemma byte_list_of_join_space :
  forall bl, Forall hex_pair bl -> byte_list_of (join " " bl) = bl.
Proof.
  intros bl H. unfold byte_list_of. rewrite remove_space_join by assumption.
  rewrite !remove_other_join; try assumption;
    try (intros a Ha; apply (is_hex_not_removed a Ha)).
  apply chunks2_join. assumption.
Qed.

(** Both renderings of a response are split back into its bytes. *)
Lemma byte_list_of_rendering :
  forall payload text,
    Forall is_byte payload ->
    text = hex_format payload \/ text = raw_response payload ->
    exists uppercase, byte_list_of text = map (hex2 uppercase) payload.
Proof.
  intros payload text Hp [-> | ->].
  - exists true. apply byte_list_of_join_space, hex_pairs_of_bytes, Hp.
  - exists false. apply byte_list_of_join_empty, hex_pairs_of_bytes, Hp.
Qed.


Lemma int_hex_from_all_hex :
  forall s acc, all_hex s = true -> exists n, int_hex_from acc s = Some n.
Proof.
  induction s as [|c s IH]; intros acc H; [exists acc; reflexivity|].
  cbn [all_hex] in H. apply andb_true_iff in H. destruct H as [Hc Hs].
  cbn [int_hex_from]. unfold is_hex in Hc.
  destruct (hex_digit c) as [d|]; [apply IH; exact Hs | discriminate].
Qed.

Lemma all_hex_join :
  forall l, Forall hex_pair l -> all_hex (join "" l) = true.
Proof.
  intros l H. induction H as [|x l (a & b & -> & Ha & Hb) Hl IH];
    [reflexivity|].
  rewrite join_empty_cons. cbn [all_hex]. rewrite Ha, Hb, IH. reflexivity.
Qed.

(** [int(''.join(parts), 16)] succeeds on one or more two-digit parts. *)
Lemma int_hex_join :
  forall l,
    Forall hex_pair l -> l <> [] -> exists n, int_hex (join "" l) = Some n.
Proof.
  intros l H Hne. pose proof (all_hex_join l H) as A.
  destruct l as [|x l]; [contradiction|].
  inversion H as [|? ? (a & b & -> & _) _]; subst.
  rewrite join_empty_cons in *. unfold int_hex.
  apply int_hex_from_all_hex. exact A.
Qed.

Lemma Forall_slice :
  forall (A : Type) (P : A -> Prop) l lo hi,
    Forall P l -> Forall P (slice l lo hi).
Proof.
  intros A P l lo hi H. unfold slice.
  rewrite <- (firstn_skipn lo l) in H. apply Forall_app in H.
  destruct H as [_ H].
  rewrite <- (firstn_skipn (hi - lo) (skipn lo l)) in H.
  apply Forall_app in H. apply H.
Qed.

Lemma length_slice :
  forall (A : Type) (l : list A) lo hi,
    (hi <= length l)%nat -> length (slice l lo hi) = (hi - lo)%nat.
Proof.
  intros A l lo hi H. unfold slice.
  rewrite length_firstn, length_skipn. lia.
Qed.

Lemma slice_not_nil :
  forall (A : Type) (l : list A) lo hi,
    (lo < hi)%nat -> (hi <= length l)%nat -> slice l lo hi <> [].
Proof.
  intros A l lo hi H1 H2 E.
  pose proof (length_slice A l lo hi H2) as L. rewrite E in L. cbn in L. lia.
Qed.

Lemma rev_not_nil :
  forall (A : Type) (l : list A), l <> [] -> rev l <> [].
Proof.
  intros A l H E. apply H. rewrite <- (rev_involutive l), E. reflexivity.
Qed.

(** [int(byte_list[lo:hi][k], 16)] is byte lo+k of the response. *)
Lemma int_hex_slice_nth :
  forall uppercase payload lo hi k,
    Forall is_byte payload ->
    (hi <= length payload)%nat -> (lo + k < hi)%nat ->
    int_hex (nth k (slice (map (hex2 uppercase) payload) lo hi) "")
    = Some (nth (lo + k) payload 0).
Proof.
  intros uppercase payload lo hi k Hp Hhi Hk. unfold slice.
  rewrite nth_firstn.
  replace (k <? hi - lo)%nat with true by (symmetry; apply Nat.ltb_lt; lia).
  rewrite nth_skipn.
  rewrite (nth_indep _ "" (hex2 uppercase 0))
    by (rewrite length_map; lia).
  rewrite map_nth. apply int_hex_hex2.
  apply (proj1 (Forall_forall is_byte payload) Hp). apply nth_In. lia.
Qed.

Ltac guard_holds :=
  match goal with
  | |- context [(?k <=? length ?l)%nat] =>
      replace (k <=? length l)%nat with true
        by (symmetry; apply Nat.leb_le; lia)
  end.

Ltac int_of_join :=
  match goal with
  | |- context [int_hex (join "" ?l)] =>
      let n := fresh "n" in
      let H := fresh "H" in
      destruct (int_hex_join l) as [n H];
      [ try apply Forall_rev; try apply Forall_slice; assumption
      | try apply rev_not_nil; apply slice_not_nil; lia
      | rewrite H ]
  end.

Ltac record_step :=
  cbn [set_device_data device_data header_device_address
       header_function_code raw_hex byte_count crc parse_error magic software
       hardware ver_status status io_counts product_id].

Ltac int_of_item :=
  match goal with
  | |- context [int_hex (nth ?k (slice (map (hex2 ?u) ?p) ?lo ?hi) "")] =>
      rewrite (int_hex_slice_nth u p lo hi k) by (assumption || lia)
  end.

Lemma run_try_fields :
  forall uppercase payload d0,
    Forall is_byte payload ->
    (32 <= length payload)%nat ->
    exists mg sw hw vs st io pid,
      device_data (run_try try_block (map (hex2 uppercase) payload) d0)
      = {| magic := Some mg; software := Some sw; hardware := Some hw;
           ver_status := Some vs; status := Some st; io_counts := Some io;
           product_id := Some pid |}
      /\ vf_major sw = nth 8 payload 0 /\ vf_minor sw = nth 9 payload 0
      /\ vf_major hw = nth 10 payload 0 /\ vf_minor hw = nth 11 payload 0
      /\ digital_inputs io = nth 20 payload 0
      /\ digital_outputs io = nth 21 payload 0
      /\ analog_inputs io = nth 22 payload 0
      /\ analog_outputs io = nth 23 payload 0
      /\ parse_error (run_try try_block (map (hex2 uppercase) payload) d0)
         = parse_error d0.
Proof.
  intros uppercase payload d0 Hp Hlen.
  pose proof (hex_pairs_of_bytes uppercase payload Hp) as Hbl.
  assert (Hl : length (map (hex2 uppercase) payload) = length payload)
    by apply length_map.
  destruct d0 as [hda hfc [m s h v st io p] rh bc c pe].
  unfold try_block. cbn [run_try].
  unfold parse_magic, with_int. guard_holds. cbv beta iota zeta.
  int_of_join. cbv beta iota. record_step.
  unfold parse_software, with_int. guard_holds. cbv beta iota zeta.
  do 2 (int_of_item; cbv beta iota). record_step.
  unfold parse_hardware, with_int. guard_holds. cbv beta iota zeta.
  do 2 (int_of_item; cbv beta iota). record_step.
  unfold parse_ver_status, with_int. guard_holds. cbv beta iota zeta.
  int_of_join. cbv beta iota. record_step.
  unfold parse_status. guard_holds. cbv beta iota zeta. record_step.
  unfold parse_io_counts, with_int. guard_holds. cbv beta iota zeta.
  do 4 (int_of_item; cbv beta iota). record_step.
  unfold parse_product_id, with_int. guard_holds. cbv beta iota zeta.
  int_of_join. cbv beta iota. record_step.
  match goal with
  | |- context [parse_crc ?bl ?d] => set (d7 := d)
  end.
  assert (D7 : exists mg sw hw vs st io pid,
             device_data d7
             = {| magic := Some mg; software := Some sw; hardware := Some hw;
                  ver_status := Some vs; status := Some st;
                  io_counts := Some io; product_id := Some pid |}
             /\ vf_major sw = nth 8 payload 0 /\ vf_minor sw = nth 9 payload 0
             /\ vf_major hw = nth 10 payload 0
             /\ vf_minor hw = nth 11 payload 0
             /\ digital_inputs io = nth 20 payload 0
             /\ digital_outputs io = nth 21 payload 0
             /\ analog_inputs io = nth 22 payload 0
             /\ analog_outputs io = nth 23 payload 0
             /\ parse_error d7 = pe).
  { do 7 eexists. subst d7. record_step. repeat split; reflexivity. }
  clearbody d7.
  unfold parse_crc, with_int.
  destruct (34 <=? length (map (hex2 uppercase) payload))%nat eqn:G;
    [|exact D7].
  apply Nat.leb_le in G.
  destruct (int_hex_join
              (skipn (length (map (hex2 uppercase) payload) - 2)
                 (map (hex2 uppercase) payload))) as [n2 H2].
  - rewrite <- (firstn_skipn (length (map (hex2 uppercase) payload) - 2)
                  (map (hex2 uppercase) payload)) in Hbl.
    apply Forall_app in Hbl. apply Hbl.
  - intro E. apply (f_equal (@length string)) in E.
    rewrite length_skipn in E. cbn in E. lia.
  - cbv zeta. rewrite H2. exact D7.
Qed.
Lemma int_hex_nth :
  forall uppercase payload k,
    Forall is_byte payload -> (k < length payload)%nat ->
    int_hex (nth k (map (hex2 uppercase) payload) "") = Some (nth k payload 0).
Proof.
  intros uppercase payload k Hp Hk.
  rewrite (nth_indep _ "" (hex2 uppercase 0)) by (rewrite length_map; lia).
  rewrite map_nth. apply int_hex_hex2.
  apply (proj1 (Forall_forall is_byte payload) Hp). apply nth_In. lia.
Qed.

(** The example response of [main], as bytes. *)
Lemma example_response_is_rendered :
  hex_format
    [0x0F; 0x11; 0x0F; 0xFF; 0x99; 0x87; 0x41; 0x77; 0x07; 0x00; 0x01; 0x01;
     0x0F; 0x00; 0x00; 0x00; 0x2F; 0x48; 0x50; 0x4F; 0x00; 0x00; 0x20; 0x00;
     0x00; 0x00; 0x00; 0x00; 0xFB; 0x5F; 0x19; 0x63; 0x19; 0x62; 0xB1; 0xB2;
     0xEB; 0xD7]
  = example_response.
Proof. vm_compute. reflexivity. Qed.

(** C9 as stated fails on the first twelve bytes of the example response:
    the magic number and both versions lie within these bytes, yet the
    decoder returns only its not-enough-data error and no field. *)
Lemma C9_twelve_bytes_decode_nothing :
  let payload :=
    [0x0F; 0x11; 0x0F; 0xFF; 0x99; 0x87; 0x41; 0x77; 0x07; 0x00; 0x01; 0x01] in
  length payload = 12%nat
  /\ hex_format payload = "0F 11 0F FF 99 87 41 77 07 00 01 01"
  /\ parse_specific_device_response (hex_format payload) = NotEnoughData
  /\ parse_specific_device_response (raw_response payload) = NotEnoughData.
Proof. cbv zeta. repeat split; vm_compute; reflexivity. Qed.

(** C9 (amended): a response of fewer than 32 bytes is rejected as a whole
    with the not-enough-data error, no field being decoded; a response of
    32 bytes or more is decoded without error and with every fixed-offset
    field present (magic, both versions, version status, status, I/O
    counts, product id), the version and I/O numbers being the bytes at
    offsets 8 to 11 and 20 to 23. *)
Theorem C9_decode_is_all_or_nothing :
  forall payload text,
    Forall is_byte payload ->
    text = hex_format payload \/ text = raw_response payload ->
    ((length payload < 32)%nat ->
     parse_specific_device_response text = NotEnoughData)
    /\
    ((32 <= length payload)%nat ->
     exists d mg sw hw vs st io pid,
       parse_specific_device_response text = Parsed d
       /\ parse_error d = None
       /\ device_data d
          = {| magic := Some mg; software := Some sw; hardware := Some hw;
               ver_status := Some vs; status := Some st; io_counts := Some io;
               product_id := Some pid |}
       /\ vf_major sw = nth 8 payload 0 /\ vf_minor sw = nth 9 payload 0
       /\ vf_major hw = nth 10 payload 0 /\ vf_minor hw = nth 11 payload 0
       /\ digital_inputs io = nth 20 payload 0
       /\ digital_outputs io = nth 21 payload 0
       /\ analog_inputs io = nth 22 payload 0
       /\ analog_outputs io = nth 23 payload 0).
Proof.
  intros payload text Hp Htext.
  destruct (byte_list_of_rendering payload text Hp Htext) as [uppercase E].
  unfold parse_specific_device_response. rewrite E, length_map.
  split; intro Hlen.
  - replace (length payload <? 32)%nat with true
      by (symmetry; apply Nat.ltb_lt; lia).
    reflexivity.
  - replace (length payload <? 32)%nat with false
      by (symmetry; apply Nat.ltb_ge; lia).
    rewrite !int_hex_nth by (assumption || lia).
    match goal with
    | |- context [run_try try_block _ ?d] =>
        destruct (run_try_fields uppercase payload d Hp Hlen)
          as (mg & sw & hw & vs & st & io & pid & Hd & H8 & H9 & H10 & H11
              & H20 & H21 & H22 & H23 & He)
    end.
    eexists. exists mg, sw, hw, vs, st, io, pid.
    split; [reflexivity|]. split; [exact He|].
    repeat split; assumption.
Qed.

Lemma C9_decode_is_all_or_nothing_witness :
  parse_specific_device_response
    (hex_format
       [0x0F; 0x11; 0x0F; 0xFF; 0x99; 0x87; 0x41; 0x77; 0x07; 0x00; 0x01;
        0x01])
  = NotEnoughData
  /\ exists d mg sw hw vs st io pid,
       parse_specific_device_response
         (raw_response
            [0x0F; 0x11; 0x0F; 0xFF; 0x99; 0x87; 0x41; 0x77; 0x07; 0x00;
             0x01; 0x01; 0x0F; 0x00; 0x00; 0x00; 0x2F; 0x48; 0x50; 0x4F;
             0x00; 0x00; 0x20; 0x00; 0x00; 0x00; 0x00; 0x00; 0xFB; 0x5F;
             0x19; 0x63])
       = Parsed d
       /\ parse_error d = None
       /\ device_data d
          = {| magic := Some mg; software := Some sw; hardware := Some hw;
               ver_status := Some vs; status := Some st; io_counts := Some io;
               product_id := Some pid |}
       /\ vf_major sw = 7 /\ vf_minor sw = 0
       /\ vf_major hw = 1 /\ vf_minor hw = 1
       /\ digital_inputs io = 0 /\ digital_outputs io = 0
       /\ analog_inputs io = 32 /\ analog_outputs io = 0.
Proof.
  split.
  - apply (C9_decode_is_all_or_nothing
             [0x0F; 0x11; 0x0F; 0xFF; 0x99; 0x87; 0x41; 0x77; 0x07; 0x00;
              0x01; 0x01]).
    + repeat (constructor; [unfold is_byte; lia|]). constructor.
    + left. reflexivity.
    + cbn. lia.
  - apply (C9_decode_is_all_or_nothing
             [0x0F; 0x11; 0x0F; 0xFF; 0x99; 0x87; 0x41; 0x77; 0x07; 0x00;
              0x01; 0x01; 0x0F; 0x00; 0x00; 0x00; 0x2F; 0x48; 0x50; 0x4F;
              0x00; 0x00; 0x20; 0x00; 0x00; 0x00; 0x00; 0x00; 0xFB; 0x5F;
              0x19; 0x63]).
    + repeat (constructor; [unfold is_byte; lia|]). constructor.
    + right. reflexivity.
    + cbn. lia.
Defined.

End ParserFields.

(** * Further properties *)

(** ** Checksum and frames *)

Section ChecksumFacts.

Import Registers.

Lemma lxor_16_bits :
  forall a b, 0 <= a < 65536 -> 0 <= b < 65536 -> 0 <= Z.lxor a b < 65536.
Proof.
  intros a b Ha Hb. split.
  - apply Z.lxor_nonneg. lia.
  - destruct (Z.eq_dec (Z.lxor a b) 0) as [E|E]; [lia|].
    assert (0 <= Z.lxor a b) by (apply Z.lxor_nonneg; lia).
    change 65536 with (2 ^ 16). apply Z.log2_lt_pow2; [lia|].
    eapply Z.le_lt_trans; [apply Z.log2_lxor; lia|].
    apply Z.max_lub_lt.
    + destruct (Z.eq_dec a 0) as [->|]; [cbn; lia|].
      apply Z.log2_lt_pow2; [lia|]. cbn. lia.
    + destruct (Z.eq_dec b 0) as [->|]; [cbn; lia|].
      apply Z.log2_lt_pow2; [lia|]. cbn. lia.
Qed.

Lemma crc16_shift_16_bits :
  forall crc, 0 <= crc < 65536 -> 0 <= crc16_shift crc < 65536.
Proof.
  intros crc H. unfold crc16_shift.
  assert (S : 0 <= Z.shiftr crc 1 < 65536).
  { rewrite Z.shiftr_div_pow2 by lia. change (2 ^ 1) with 2.
    split; [apply Z.div_pos; lia | apply Z.div_lt_upper_bound; lia]. }
  destruct (Z.land crc 1 =? 0); [exact S|].
  apply lxor_16_bits; [exact S | lia].
Qed.

Lemma crc16_byte_16_bits :
  forall crc b,
    0 <= crc < 65536 -> Py.byte b -> 0 <= crc16_byte crc b < 65536.
Proof.
  intros crc b Hc Hb. unfold crc16_byte, Py.byte in *.
  assert (X : 0 <= Z.lxor crc b < 65536) by (apply lxor_16_bits; lia).
  revert X. generalize (Z.lxor crc b). intros x X.
  do 8 (apply crc16_shift_16_bits in X). exact X.
Qed.

Lemma crc16_16_bits :
  forall data, Forall Py.byte data -> 0 <= _calculate_crc16 data < 65536.
Proof.
  intros data H. unfold _calculate_crc16.
  assert (G : forall crc, 0 <= crc < 65536 ->
                0 <= fold_left crc16_byte data crc < 65536).
  { induction H as [|b data Hb _ IH]; intros crc Hc; [exact Hc|].
    cbn [fold_left]. apply IH. apply crc16_byte_16_bits; assumption. }
  apply G. lia.
Qed.

(** X1: the checksum of a sequence of bytes is a 16-bit value. *)
Theorem X1_crc16_is_16_bits :
  forall data, Forall Py.byte data -> 0 <= _calculate_crc16 data < 65536.
Proof. exact crc16_16_bits. Qed.

Lemma X1_crc16_is_16_bits_witness :
  0 <= _calculate_crc16 [0x01; 0x03; 0x00; 0x00; 0x00; 0x0A] < 65536.
Proof.
  apply X1_crc16_is_16_bits.
  repeat (constructor; [unfold Py.byte; lia|]). constructor.
Defined.

Lemma testbit_above_16 :
  forall x n, 0 <= x < 65536 -> 16 <= n -> Z.testbit x n = false.
Proof.
  intros x n Hx Hn.
  destruct (Z.eq_dec x 0) as [->|]; [apply Z.testbit_0_l|].
  apply Z.bits_above_log2; [lia|].
  assert (Z.log2 x < 16)
    by (apply Z.log2_lt_pow2; [lia | change (2 ^ 16) with 65536; lia]).
  lia.
Qed.

(** Low byte and high byte put together again. *)
Lemma lor_low_high :
  forall x,
    0 <= x < 65536 ->
    Z.lor (Z.land x 0xFF) (Z.shiftl (Z.land (Z.shiftr x 8) 0xFF) 8) = x.
Proof.
  intros x Hx. apply Z.bits_inj'. intros n Hn.
  change 0xFF with (Z.ones 8).
  rewrite Z.lor_spec, Z.land_spec.
  destruct (Z.ltb_spec n 8) as [L|L].
  - rewrite Z.ones_spec_low by lia.
    rewrite Z.shiftl_spec_low by lia.
    rewrite andb_true_r, orb_false_r. reflexivity.
  - rewrite Z.ones_spec_high by lia.
    rewrite Z.shiftl_spec by lia.
    rewrite Z.land_spec, Z.shiftr_spec by lia.
    replace (n - 8 + 8) with n by lia.
    rewrite andb_false_r. cbn [orb].
    destruct (Z.ltb_spec n 16) as [M|M].
    + rewrite Z.ones_spec_low by lia. apply andb_true_r.
    + rewrite Z.ones_spec_high by lia.
      rewrite (testbit_above_16 x n) by lia. reflexivity.
Qed.

Lemma land_ff_byte : forall x, Py.byte (Z.land x 0xFF).
Proof.
  intro x. unfold Py.byte. change 0xFF with (Z.ones 8).
  rewrite Z.land_ones by lia.
  pose proof (Z.mod_pos_bound x (2 ^ 8) ltac:(lia)) as H.
  change (2 ^ 8) with 256 in *. lia.
Qed.

Lemma drop_last2_app :
  forall (A : Type) (l : list A) a b, Py.drop_last2 (l ++ [a; b]) = l.
Proof.
  intros A l a b. unfold Py.drop_last2.
  rewrite length_app. cbn [length].
  replace (length l + 2 - 2)%nat with (length l + 0)%nat by lia.
  rewrite firstn_app_2. cbn [firstn]. apply app_nil_r.
Qed.

Lemma item_from_end_app :
  forall l a b,
    Py.item_from_end (l ++ [a; b]) 2 = a /\ Py.item_from_end (l ++ [a; b]) 1 = b.
Proof.
  intros l a b. unfold Py.item_from_end. rewrite length_app. cbn [length].
  split.
  - rewrite app_nth2 by lia.
    replace (length l + 2 - 2 - length l)%nat with 0%nat by lia. reflexivity.
  - rewrite app_nth2 by lia.
    replace (length l + 2 - 1 - length l)%nat with 1%nat by lia. reflexivity.
Qed.

Lemma append_crc_accepted :
  forall data,
    Forall Py.byte data ->
    crc_valid (append_crc data)
    /\ Py.drop_last2 (append_crc data) = data
    /\ Forall Py.byte (append_crc data).
Proof.
  intros data H. unfold crc_valid, response_crc, calculated_crc, append_crc.
  destruct (item_from_end_app data
              (Z.land (_calculate_crc16 data) 0xFF)
              (Z.land (Z.shiftr (_calculate_crc16 data) 8) 0xFF)) as [E2 E1].
  rewrite E2, E1, drop_last2_app.
  split; [apply lor_low_high, crc16_16_bits, H|].
  split; [reflexivity|].
  apply Forall_app. split; [exact H|].
  repeat constructor; apply land_ff_byte.
Qed.

(** X2: a frame completed by [append_crc] passes the checksum test the
    module applies to responses, consists of bytes, and gives the data
    back when its last two bytes are cut off. *)
Theorem X2_appended_crc_is_accepted :
  forall data,
    Forall Py.byte data ->
    crc_valid (append_crc data)
    /\ Py.drop_last2 (append_crc data) = data
    /\ Forall Py.byte (append_crc data).
Proof. exact append_crc_accepted. Qed.

Lemma X2_appended_crc_is_accepted_witness :
  crc_valid (append_crc [0x01; 0x10; 0x00; 0x00; 0x00; 0x01])
  /\ Py.drop_last2 (append_crc [0x01; 0x10; 0x00; 0x00; 0x00; 0x01])
     = [0x01; 0x10; 0x00; 0x00; 0x00; 0x01]
  /\ Forall Py.byte (append_crc [0x01; 0x10; 0x00; 0x00; 0x00; 0x01]).
Proof.
  apply X2_appended_crc_is_accepted.
  repeat (constructor; [unfold Py.byte; lia|]). constructor.
Defined.

End ChecksumFacts.

(** ** Coil packing *)

Section CoilFacts.

Import Registers.

Lemma set_bit_length :
  forall coil_bytes k b, length (set_bit coil_bytes k b) = length coil_bytes.
Proof.
  induction coil_bytes as [|a coil_bytes IH]; intros k b; [reflexivity|].
  destruct k; cbn [set_bit length]; [reflexivity | rewrite IH; reflexivity].
Qed.

Lemma set_bit_testbit :
  forall coil_bytes k b k' b',
    0 <= b -> 0 <= b' ->
    Z.testbit (nth k' (set_bit coil_bytes k b) 0) b'
    = Z.testbit (nth k' coil_bytes 0) b'
      || ((k' =? k)%nat && (b' =? b) && (k <? length coil_bytes)%nat).
Proof.
  induction coil_bytes as [|a coil_bytes IH]; intros k b k' b' Hb Hb'.
  - cbn [set_bit length]. destruct k'; cbn [nth];
      rewrite Z.testbit_0_l, andb_false_r; reflexivity.
  - destruct k as [|k]; cbn [set_bit].
    + destruct k' as [|k']; cbn [nth].
      * rewrite Z.lor_spec, Z.shiftl_1_l, Z.pow2_bits_eqb by lia.
        cbn [Nat.eqb length Nat.ltb Nat.leb andb].
        rewrite andb_true_r, (Z.eqb_sym b b'). reflexivity.
      * cbn [Nat.eqb andb]. rewrite orb_false_r. reflexivity.
    + destruct k' as [|k']; cbn [nth].
      * cbn [Nat.eqb andb]. rewrite orb_false_r. reflexivity.
      * rewrite IH by assumption. reflexivity.
Qed.

Lemma lor_byte :
  forall a c, Py.byte a -> Py.byte c -> Py.byte (Z.lor a c).
Proof.
  intros a c Ha Hc. unfold Py.byte in *. split.
  - apply Z.lor_nonneg. lia.
  - destruct (Z.eq_dec (Z.lor a c) 0) as [E|E]; [lia|].
    assert (0 <= Z.lor a c) by (apply Z.lor_nonneg; lia).
    change 256 with (2 ^ 8). apply Z.log2_lt_pow2; [lia|].
    rewrite Z.log2_lor by lia. apply Z.max_lub_lt.
    + destruct (Z.eq_dec a 0) as [->|]; [cbn; lia|].
      apply Z.log2_lt_pow2; [lia|]. cbn. lia.
    + destruct (Z.eq_dec c 0) as [->|]; [cbn; lia|].
      apply Z.log2_lt_pow2; [lia|]. cbn. lia.
Qed.

Lemma set_bit_bytes :
  forall coil_bytes k b,
    0 <= b < 8 -> Forall Py.byte coil_bytes ->
    Forall Py.byte (set_bit coil_bytes k b).
Proof.
  induction coil_bytes as [|a coil_bytes IH]; intros k b Hb H;
    [constructor|].
  inversion H as [|? ? Ha Hrest]; subst.
  destruct k; cbn [set_bit]; constructor; auto.
  apply lor_byte; [exact Ha|].
  rewrite Z.shiftl_1_l. unfold Py.byte. split; [apply Z.pow_nonneg; lia|].
  change 256 with (2 ^ 8). apply Z.pow_lt_mono_r; lia.
Qed.

Lemma pack_coils_length :
  forall values i coil_bytes,
    length (pack_coils values i coil_bytes) = length coil_bytes.
Proof.
  induction values as [|v values IH]; intros i coil_bytes; [reflexivity|].
  cbn [pack_coils]. rewrite IH. destruct v; [apply set_bit_length|reflexivity].
Qed.

Lemma pack_coils_bytes :
  forall values i coil_bytes,
    Forall Py.byte coil_bytes -> Forall Py.byte (pack_coils values i coil_bytes).
Proof.
  induction values as [|v values IH]; intros i coil_bytes H; [exact H|].
  cbn [pack_coils]. apply IH. destruct v; [|exact H].
  apply set_bit_bytes; [|exact H].
  pose proof (Nat.mod_upper_bound i 8 ltac:(lia)). lia.
Qed.

Lemma same_position :
  forall p i,
    ((p / 8 =? i / 8)%nat && (Z.of_nat (p mod 8) =? Z.of_nat (i mod 8)))
    = (p =? i)%nat.
Proof.
  intros p i.
  pose proof (Nat.div_mod_eq p 8). pose proof (Nat.div_mod_eq i 8).
  destruct (Nat.eqb_spec p i) as [->|N].
  - rewrite Nat.eqb_refl, Z.eqb_refl. reflexivity.
  - destruct (Nat.eqb_spec (p / 8) (i / 8)) as [E|E]; [|reflexivity].
    cbn [andb]. apply Z.eqb_neq. lia.
Qed.

(** The bits of the packed bytes: what was there before, and the coils
    placed from position [i] on. *)
Lemma pack_coils_testbit :
  forall values i coil_bytes p,
    (i + length values <= 8 * length coil_bytes)%nat ->
    Z.testbit (nth (p / 8) (pack_coils values i coil_bytes) 0)
      (Z.of_nat (p mod 8))
    = Z.testbit (nth (p / 8) coil_bytes 0) (Z.of_nat (p mod 8))
      || ((i <=? p)%nat && nth (p - i) values false).
Proof.
  induction values as [|v values IH]; intros i coil_bytes p Hlen.
  - cbn [pack_coils]. destruct (p - i)%nat; cbn [nth];
      rewrite andb_false_r, orb_false_r; reflexivity.
  - cbn [pack_coils length] in *.
    rewrite IH
      by (destruct v; [rewrite set_bit_length|]; lia).
    assert (B : Z.testbit
                  (nth (p / 8)
                     (if v
                      then set_bit coil_bytes (i / 8) (Z.of_nat (i mod 8))
                      else coil_bytes) 0) (Z.of_nat (p mod 8))
                = Z.testbit (nth (p / 8) coil_bytes 0) (Z.of_nat (p mod 8))
                  || (v && (p =? i)%nat)).
    { destruct v; [|rewrite orb_false_r; reflexivity].
      rewrite set_bit_testbit by lia. rewrite same_position.
      replace (i / 8 <? length coil_bytes)%nat with true.
      - rewrite andb_true_r. reflexivity.
      - symmetry. apply Nat.ltb_lt.
        apply Nat.Div0.div_lt_upper_bound. lia. }
    rewrite B, <- orb_assoc. f_equal.
    destruct (Nat.eqb_spec p i) as [->|N].
    + rewrite Nat.sub_diag. cbn [nth].
      replace (S i <=? i)%nat with false by (symmetry; apply Nat.leb_gt; lia).
      rewrite Nat.leb_refl. destruct v; reflexivity.
    + rewrite andb_false_r. cbn [orb].
      destruct (Nat.leb_spec (S i) p) as [L|L].
      * replace (i <=? p)%nat with true by (symmetry; apply Nat.leb_le; lia).
        replace (p - i)%nat with (S (p - S i)) by lia. reflexivity.
      * replace (i <=? p)%nat with false
          by (symmetry; apply Nat.leb_gt; lia).
        reflexivity.
Qed.

Lemma coil_byte_count :
  forall n : nat, (n <= 8 * Z.to_nat ((Z.of_nat n + 7) / 8))%nat.
Proof.
  intro n.
  pose proof (Z.div_mod (Z.of_nat n + 7) 8 ltac:(lia)).
  pose proof (Z.mod_pos_bound (Z.of_nat n + 7) 8 ltac:(lia)).
  assert (0 <= (Z.of_nat n + 7) / 8) by (apply Z.div_pos; lia).
  lia.
Qed.

(** X7: coils are packed least significant bit first: in the bytes built
    for [write_multiple_coils], bit (p mod 8) of byte (p / 8) is coil p, and
    every bit beyond the last coil is 0; there are ceil(count / 8) bytes,
    each within a byte's range. *)
Theorem X7_coils_packed_lsb_first :
  forall (values : list bool),
    let byte_count := (Py.len values + 7) / 8 in
    let coil_bytes :=
      pack_coils values 0 (repeat 0 (Z.to_nat byte_count)) in
    (forall p : nat,
        Z.testbit (nth (p / 8) coil_bytes 0) (Z.of_nat (p mod 8))
        = nth p values false)
    /\ Py.len coil_bytes = byte_count
    /\ Forall Py.byte coil_bytes.
Proof.
  intros values byte_count coil_bytes. subst coil_bytes byte_count.
  unfold Py.len. split; [|split].
  - intro p. rewrite pack_coils_testbit
      by (rewrite repeat_length; cbn [Nat.add]; apply coil_byte_count).
    rewrite Nat.sub_0_r. cbn [Nat.leb andb].
    replace (nth (p / 8) (repeat 0 _) 0) with 0.
    + rewrite Z.testbit_0_l. reflexivity.
    + symmetry. apply nth_repeat.
  - rewrite pack_coils_length, repeat_length.
    apply Z2Nat.id. apply Z.div_pos; lia.
  - apply pack_coils_bytes. apply Forall_forall. intros x Hx.
    apply repeat_spec in Hx. subst x. unfold Py.byte. lia.
Qed.

End CoilFacts.

(** ** Register access: requests and replies *)

Section RequestFacts.

Import Registers.

Lemma bytearray_bytes :
  forall items request,
    Py.bytearray items = Some request ->
    request = items /\ Forall Py.byte items.
Proof.
  intros items request. unfold Py.bytearray.
  destruct (forallb Py.in_byte_range items) eqn:E; [|discriminate].
  intro H. injection H as <-. split; [reflexivity|].
  apply Forall_forall. intros x Hx.
  apply (proj1 (forallb_forall _ _) E) in Hx.
  unfold Py.in_byte_range in Hx. apply andb_true_iff in Hx.
  destruct Hx as [H0 H1]. apply Z.leb_le in H0. apply Z.ltb_lt in H1.
  unfold Py.byte. lia.
Qed.

Lemma in_byte_range_byte :
  forall b, Py.byte b -> Py.in_byte_range b = true.
Proof.
  intros b [H0 H1]. unfold Py.in_byte_range.
  apply andb_true_iff. split; [apply Z.leb_le | apply Z.ltb_lt]; lia.
Qed.

Lemma register_bytes_bytes :
  forall values, Forall Py.byte (register_bytes values).
Proof.
  induction values as [|v values IH]; [constructor|].
  cbn [register_bytes flat_map app].
  constructor; [apply land_ff_byte|]. constructor; [apply land_ff_byte|].
  exact IH.
Qed.

Lemma exchange_log :
  forall conn request, one_exchange (snd (exchange conn request)) request.
Proof.
  intros conn request. unfold exchange, one_exchange.
  destruct (write_raises conn); [left; reflexivity|].
  destruct (flush_raises conn); [right; left; reflexivity|].
  destruct (read conn request); right; right; reflexivity.
Qed.

Lemma transmit_write_log :
  forall conn device_address function_code start_address count request,
    Forall Py.byte request ->
    sends_at_most_one_frame
      (snd (transmit_write conn device_address function_code start_address
              count request)).
Proof.
  intros conn device_address function_code start_address count request H.
  right. exists (append_crc request).
  destruct (append_crc_accepted request H) as (Hc & _ & Hb).
  split; [exact Hc|]. split; [exact Hb|].
  unfold transmit_write.
  pose proof (exchange_log conn (append_crc request)) as L.
  destruct (exchange conn (append_crc request)) as [[| |response] log];
    exact L.
Qed.

(** X3: whatever the connection and the arguments, a register read and
    each of the four writes either transmit nothing or make one exchange
    (write, then flush, then one read of up to 100 bytes) whose request
    consists of bytes and carries a checksum that the module's own test
    accepts; none of them transmits twice. *)
Theorem X3_one_valid_frame_per_call :
  forall connection device_address start_address count function_code
         values coils value coil,
    sends_at_most_one_frame
      (snd (read_registers_status connection device_address start_address
              count function_code))
    /\ sends_at_most_one_frame
         (snd (write_holding_registers_status connection device_address
                 start_address values))
    /\ sends_at_most_one_frame
         (snd (write_multiple_coils_status connection device_address
                 start_address coils))
    /\ sends_at_most_one_frame
         (snd (write_single_register_status connection device_address
                 start_address value))
    /\ sends_at_most_one_frame
         (snd (write_single_coil_status connection device_address
                 start_address coil)).
Proof.
  intros [conn|] device_address start_address count function_code values
    coils value coil;
    [|repeat split; left; reflexivity].
  unfold read_registers_status, write_holding_registers_status,
    write_multiple_coils_status, write_single_register_status,
    write_single_coil_status.
  destruct (negb (is_open conn)); [repeat split; left; reflexivity|].
  split; [|split; [|split; [|split]]].
  - destruct (Py.bytearray _) as [request|] eqn:E; [|left; reflexivity].
    apply bytearray_bytes in E. destruct E as [-> Hb].
    right. exists (append_crc
                     [device_address; function_code;
                      Z.land (Z.shiftr start_address 8) 255;
                      Z.land start_address 255;
                      Z.land (Z.shiftr count 8) 255; Z.land count 255]).
    destruct (append_crc_accepted _ Hb) as (Hc & _ & Hb').
    split; [exact Hc|]. split; [exact Hb'|].
    pose proof (exchange_log conn
                  (append_crc
                     [device_address; function_code;
                      Z.land (Z.shiftr start_address 8) 255;
                      Z.land start_address 255;
                      Z.land (Z.shiftr count 8) 255; Z.land count 255])) as L.
    destruct (exchange conn _) as [[| |response] log]; exact L.
  - destruct values as [|v values]; [left; reflexivity|].
    destruct (Py.bytearray _) as [request|] eqn:E; [|left; reflexivity].
    apply bytearray_bytes in E. destruct E as [-> Hb].
    apply transmit_write_log. apply Forall_app. split; [exact Hb|].
    apply register_bytes_bytes.
  - destruct coils as [|c coils]; [left; reflexivity|].
    destruct (Py.bytearray _) as [request|] eqn:E; [|left; reflexivity].
    apply bytearray_bytes in E. destruct E as [-> Hb].
    apply transmit_write_log. apply Forall_app. split; [exact Hb|].
    apply pack_coils_bytes. apply Forall_forall. intros x Hx.
    apply repeat_spec in Hx. subst x. unfold Py.byte. lia.
  - destruct (Py.bytearray _) as [request|] eqn:E; [|left; reflexivity].
    apply bytearray_bytes in E. destruct E as [-> Hb].
    apply transmit_write_log. exact Hb.
  - destruct (Py.bytearray _) as [request|] eqn:E; [|left; reflexivity].
    apply bytearray_bytes in E. destruct E as [-> Hb].
    apply transmit_write_log. exact Hb.
Qed.

(** *** Decoding of a regular read reply *)

Lemma collect_registers_pairs :
  forall n response s registers,
    (n = 0 \/ 3 + s + 2 * (n - 1) + 1 < length response)%nat ->
    collect_registers response
      (map (fun k => (s + 2 * k)%nat) (seq 0 n)) registers
    = registers ++ firstn n (be_pairs (skipn (3 + s) response)).
Proof.
  induction n as [|n IH]; intros response s registers H.
  - cbn [seq map collect_registers firstn]. rewrite app_nil_r. reflexivity.
  - rewrite step2_indices_cons. cbn [collect_registers].
    assert (L : (3 + s + 1 < length response)%nat) by lia.
    replace (3 + s + 1 <? length response)%nat with true
      by (symmetry; apply Nat.ltb_lt; exact L).
    rewrite IH by lia.
    rewrite (skipn_two response (3 + s) L). cbn [be_pairs firstn].
    fold (pair_at response (3 + s)).
    rewrite <- app_assoc. cbn [app].
    replace (3 + (s + 2))%nat with (3 + s + 2)%nat by lia. reflexivity.
Qed.

Lemma half_up_covers :
  forall bc : nat, (bc = 0 \/ 2 * ((bc + 1) / 2 - 1) + 2 <= bc + 1)%nat.
Proof.
  intro bc. pose proof (Nat.div_mod_eq (bc + 1) 2).
  pose proof (Nat.mod_upper_bound (bc + 1) 2 ltac:(lia)).
  destruct bc; [left; reflexivity | right; lia].
Qed.

(** A reply that passes every test is decoded from its own byte count. *)
Lemma decode_read_regular :
  forall device_address function_code count response,
    5 <= Py.len response ->
    crc_valid response ->
    Py.item response 0 = device_address ->
    Py.item response 1 = function_code ->
    5 + Py.item response 2 <= Py.len response ->
    decode_read_response device_address function_code count response
    = RRegisters
        (firstn ((Z.to_nat (Py.item response 2) + 1) / 2)
           (be_pairs (skipn 3 response))).
Proof.
  intros device_address function_code count response Hlen Hcrc Ha Hf Hbc.
  unfold decode_read_response.
  destruct response as [|b response]; [cbn in Hlen; lia|].
  apply Z.ltb_ge in Hlen. rewrite Hlen.
  unfold crc_valid in Hcrc. rewrite Hcrc, Z.eqb_refl, Ha, Z.eqb_refl, Hf,
    Z.eqb_refl. cbn [negb].
  replace (Py.len (b :: response) <? 5 + Py.item (b :: response) 2)
    with false by (symmetry; apply Z.ltb_ge; exact Hbc).
  f_equal. unfold Py.range_step2.
  rewrite Nat.sub_0_r.
  rewrite collect_registers_pairs.
  - reflexivity.
  - unfold Py.len in Hbc.
    pose proof (half_up_covers (Z.to_nat (Py.item (b :: response) 2))) as C.
    destruct C as [C|C].
    + left. rewrite C. reflexivity.
    + right. lia.
Qed.

(** What a read does once the port delivers [response] to its request. *)
Lemma read_registers_exchange :
  forall conn device_address start_address count function_code response,
    is_open conn = true -> write_raises conn = false ->
    flush_raises conn = false ->
    Py.byte device_address -> Py.byte function_code ->
    read conn (read_request device_address function_code start_address count)
    = ReadBytes response ->
    read_registers_status (Some conn) device_address start_address count
      function_code
    = (decode_read_response device_address function_code count response,
       [EvWrite (read_request device_address function_code start_address
                   count);
        EvFlush; EvRead 100]).
Proof.
  intros conn device_address start_address count function_code response
    Ho Hw Hf Hd Hfc Hr.
  unfold read_registers_status. rewrite Ho. cbn [negb].
  unfold Py.bytearray. cbn [forallb].
  rewrite (in_byte_range_byte _ Hd), (in_byte_range_byte _ Hfc),
    !land_ff_in_byte_range.
  cbn [andb]. unfold exchange. rewrite Hw, Hf.
  fold (read_request device_address function_code start_address count).
  rewrite Hr. reflexivity.
Qed.

Lemma be_pairs_register_bytes :
  forall values tail,
    Forall word values ->
    be_pairs (register_bytes values ++ tail) = values ++ be_pairs tail.
Proof.
  intros values tail H. induction H as [|v values Hv _ IH]; [reflexivity|].
  change (register_bytes (v :: values))
    with ([Z.land (Z.shiftr v 8) 0xFF; Z.land v 0xFF] ++ register_bytes values).
  cbn [app be_pairs]. rewrite IH. f_equal.
  rewrite Z.lor_comm. apply lor_low_high. exact Hv.
Qed.

Lemma register_bytes_length :
  forall values, length (register_bytes values) = (2 * length values)%nat.
Proof.
  induction values as [|v values IH]; [reflexivity|].
  change (register_bytes (v :: values))
    with ([Z.land (Z.shiftr v 8) 0xFF; Z.land v 0xFF] ++ register_bytes values).
  cbn [app length]. rewrite IH. lia.
Qed.

(** The reply of a device is decoded into the registers it encodes. *)
Lemma decode_read_reply :
  forall device_address function_code count values,
    Py.byte device_address -> Py.byte function_code ->
    Forall word values -> Py.len values <= 127 ->
    decode_read_response device_address function_code count
      (read_reply device_address function_code values)
    = RRegisters values.
Proof.
  intros device_address function_code count values Hd Hf Hv Hn.
  assert (Hb : Forall Py.byte
                 ([device_address; function_code; 2 * Py.len values]
                  ++ register_bytes values)).
  { cbn [app]. constructor; [exact Hd|]. constructor; [exact Hf|].
    constructor; [unfold Py.byte, Py.len in *; lia|].
    apply register_bytes_bytes. }
  destruct (append_crc_accepted _ Hb) as (Hc & _ & _).
  unfold read_reply.
  rewrite decode_read_regular; try exact Hc.
  - f_equal. unfold append_crc. cbn [app skipn Py.item nth].
    rewrite be_pairs_register_bytes by exact Hv.
    unfold Py.len.
    replace ((Z.to_nat (2 * Z.of_nat (length values)) + 1) / 2)%nat
      with (length values + 0)%nat.
    + rewrite firstn_app_2. cbn [firstn]. apply app_nil_r.
    + replace (Z.to_nat (2 * Z.of_nat (length values)) + 1)%nat
        with (1 + length values * 2)%nat by lia.
      rewrite Nat.div_add by lia. cbn. lia.
  - unfold append_crc, Py.len. cbn [app length].
    rewrite length_app. cbn [length]. lia.
  - reflexivity.
  - reflexivity.
  - unfold append_crc, Py.len. cbn [app Py.item nth length].
    rewrite length_app, register_bytes_length. cbn [length]. lia.
Qed.

Lemma read_reply_length :
  forall device_address function_code values,
    Py.len (read_reply device_address function_code values)
    = 2 * Py.len values + 5.
Proof.
  intros device_address function_code values.
  unfold read_reply, append_crc, Py.len. cbn [app length].
  rewrite length_app, register_bytes_length. cbn [length]. lia.
Qed.

(** One [read(100)] returns a reply of up to 47 registers whole. *)
Lemma fits_one_read_registers :
  forall device_address function_code values,
    fits_one_read (read_reply device_address function_code values)
    <-> Py.len values <= 47.
Proof.
  intros device_address function_code values.
  unfold fits_one_read. rewrite read_reply_length. lia.
Qed.

(** The bound is sharp: the reply with 48 registers has 101 bytes, and the
    100 bytes that [read(100)] returns of it fail the checksum test. *)
Lemma reply_of_48_registers_is_cut :
  Py.len (read_reply 1 0x03 (repeat 0 48)) = 101 /\
  decode_read_response 1 0x03 48 (firstn 100 (read_reply 1 0x03 (repeat 0 48)))
  = RBadCrc.
Proof.
  split; vm_compute; reflexivity.
Qed.

End RequestFacts.

Section ReadWriteFacts.

Import Registers.

(** X4: a read returns the registers the device encoded: when
    [read(100)] returns the whole reply (at most 100 bytes, that is at
    most 47 registers), made of address, function, byte count 2n, n
    registers high byte first, and checksum, the read returns exactly
    these n 16-bit values. *)
Theorem X4_read_returns_encoded_registers :
  forall conn device_address start_address count function_code values,
    answers conn (read_reply device_address function_code values) ->
    fits_one_read (read_reply device_address function_code values) ->
    Py.byte device_address -> Py.byte function_code ->
    Forall word values ->
    _read_registers_with_function (Some conn) device_address start_address
      count function_code
    = Some values.
Proof.
  intros conn device_address start_address count function_code values
    Hans Hfit Hd Hf Hv.
  assert (Hn : Py.len values <= 127)
    by (apply fits_one_read_registers in Hfit; lia).
  unfold _read_registers_with_function.
  rewrite (read_registers_received conn _ _ _ _ _ Hans)
    by (apply in_byte_range_byte; assumption).
  rewrite decode_read_reply by assumption. reflexivity.
Qed.

Lemma X4_read_returns_encoded_registers_witness :
  _read_registers_with_function
    (Some (responder (read_reply 1 0x03 [0x1234; 0x0005; 0xFFFF])))
    1 0 3 0x03
  = Some [0x1234; 0x0005; 0xFFFF].
Proof.
  apply (X4_read_returns_encoded_registers
           (responder (read_reply 1 0x03 [0x1234; 0x0005; 0xFFFF]))).
  - apply responder_answers.
  - vm_compute. discriminate.
  - unfold Py.byte. lia.
  - unfold Py.byte. lia.
  - repeat (constructor; [unfold word; lia|]). constructor.
Defined.

(** X9: the number of registers a read returns is fixed by the byte count
    in the reply, not by the count that was requested: a reply that
    passes the length, checksum, address and function tests yields the
    first ceil(byte_count / 2) big-endian pairs found from offset 3 on. *)
Theorem X9_register_count_comes_from_reply :
  forall conn response device_address start_address count function_code,
    answers conn response ->
    Py.in_byte_range device_address = true ->
    Py.in_byte_range function_code = true ->
    5 <= Py.len response ->
    crc_valid response ->
    Py.item response 0 = device_address ->
    Py.item response 1 = function_code ->
    5 + Py.item response 2 <= Py.len response ->
    _read_registers_with_function (Some conn) device_address start_address
      count function_code
    = Some (firstn ((Z.to_nat (Py.item response 2) + 1) / 2)
              (be_pairs (skipn 3 response))).
Proof.
  intros conn response device_address start_address count function_code
    Hans Hd Hf Hlen Hcrc Ha Hfc Hbc.
  unfold _read_registers_with_function.
  rewrite (read_registers_received conn response) by assumption.
  rewrite decode_read_regular by assumption. reflexivity.
Qed.

Lemma X9_register_count_comes_from_reply_witness :
  _read_registers_with_function
    (Some (responder (read_reply 1 0x03 [0x1234; 0x0005; 0xFFFF])))
    1 0 1 0x03
  = Some [0x1234; 0x0005; 0xFFFF].
Proof.
  apply (X9_register_count_comes_from_reply
           (responder (read_reply 1 0x03 [0x1234; 0x0005; 0xFFFF]))
           (read_reply 1 0x03 [0x1234; 0x0005; 0xFFFF]) 1 0 1 0x03).
  - apply responder_answers.
  - reflexivity.
  - reflexivity.
  - vm_compute. discriminate.
  - vm_compute. reflexivity.
  - reflexivity.
  - reflexivity.
  - vm_compute. discriminate.
Defined.

Lemma decode_write_accepts :
  forall device_address function_code start_address count response,
    8 <= Py.len response -> crc_valid response ->
    Py.item response 0 = device_address ->
    Py.item response 1 = function_code ->
    write_value
      (decode_write_response device_address function_code start_address count
         response) = true.
Proof.
  intros device_address function_code start_address count response
    Hlen Hcrc Ha Hf.
  unfold decode_write_response.
  destruct response as [|b response]; [cbn in Hlen; lia|].
  apply Z.ltb_ge in Hlen. rewrite Hlen.
  unfold crc_valid in Hcrc.
  rewrite Hcrc, Z.eqb_refl, Ha, Z.eqb_refl, Hf, Z.eqb_refl. reflexivity.
Qed.

(** X5: once a response is received, [write_holding_registers] returns
    True exactly when the response has at least 8 bytes, a valid
    checksum, the device's address and function byte 0x10; the start
    address and the count echoed in the response play no part. *)
Theorem X5_write_succeeds_iff_response_passes :
  forall conn response device_address start_address values,
    answers conn response ->
    values <> [] ->
    Py.in_byte_range device_address = true ->
    Py.len values <= 127 ->
    (write_holding_registers (Some conn) device_address start_address values
     = true
     <-> 8 <= Py.len response /\ crc_valid response /\
         Py.item response 0 = device_address /\
         Py.item response 1 = 0x10).
Proof.
  intros conn response device_address start_address values Hans Hne Hd Hn.
  unfold write_holding_registers.
  rewrite (write_holding_registers_received conn response) by assumption.
  split.
  - apply decode_write_success.
  - intros (Hlen & Hcrc & Ha & Hf). apply decode_write_accepts; assumption.
Qed.

Lemma X5_write_succeeds_iff_response_passes_witness :
  write_holding_registers
    (Some (responder (append_crc [0x01; 0x10; 0x00; 0x63; 0x00; 0x09])))
    1 0 [5]
  = true
  <-> 8 <= Py.len (append_crc [0x01; 0x10; 0x00; 0x63; 0x00; 0x09]) /\
      crc_valid (append_crc [0x01; 0x10; 0x00; 0x63; 0x00; 0x09]) /\
      Py.item (append_crc [0x01; 0x10; 0x00; 0x63; 0x00; 0x09]) 0 = 1 /\
      Py.item (append_crc [0x01; 0x10; 0x00; 0x63; 0x00; 0x09]) 1 = 0x10.
Proof.
  apply (X5_write_succeeds_iff_response_passes
           (responder (append_crc [0x01; 0x10; 0x00; 0x63; 0x00; 0x09]))).
  - apply responder_answers.
  - discriminate.
  - reflexivity.
  - cbn. lia.
Defined.

Lemma land_bit7 :
  forall f, (Z.land f 0x80 =? 0) = negb (Z.testbit f 7).
Proof.
  intro f. change 0x80 with (2 ^ 7).
  destruct (Z.testbit f 7) eqn:E; cbn [negb].
  - apply Z.eqb_neq. intro H.
    apply (f_equal (fun x => Z.testbit x 7)) in H.
    rewrite Z.land_spec, E, Z.pow2_bits_true, Z.testbit_0_l in H by lia.
    discriminate.
  - apply Z.eqb_eq. apply Z.bits_inj'. intros n Hn.
    rewrite Z.land_spec, Z.pow2_bits_eqb, Z.testbit_0_l by lia.
    destruct (Z.eqb_spec 7 n) as [<-|]; [rewrite E|];
      rewrite ?andb_false_r; reflexivity.
Qed.

(** X6: a response of at least 8 bytes with a valid checksum and the
    device's address whose function byte differs from 0x10 is reported as
    a Modbus exception, with the third byte as its code, whenever bit 7 of
    the function byte is set -- whatever its other bits -- and as a wrong
    function otherwise; the write returns False in both cases. *)
Theorem X6_any_high_bit_function_is_exception :
  forall conn response device_address start_address values,
    answers conn response ->
    values <> [] ->
    Py.in_byte_range device_address = true ->
    Py.len values <= 127 ->
    8 <= Py.len response ->
    crc_valid response ->
    Py.item response 0 = device_address ->
    Py.item response 1 <> 0x10 ->
    fst (write_holding_registers_status (Some conn) device_address
           start_address values)
    = (if Z.testbit (Py.item response 1) 7
       then WException (Py.item response 2)
       else WBadFunction (Py.item response 1))
    /\ write_holding_registers (Some conn) device_address start_address values
       = false.
Proof.
  intros conn response device_address start_address values
    Hans Hne Hd Hn Hlen Hcrc Ha Hf.
  unfold write_holding_registers.
  rewrite (write_holding_registers_received conn response) by assumption.
  unfold decode_write_response.
  destruct response as [|b response]; [cbn in Hlen; lia|].
  apply Z.ltb_ge in Hlen. rewrite Hlen.
  unfold crc_valid in Hcrc. rewrite Hcrc, Z.eqb_refl, Ha, Z.eqb_refl.
  apply Z.eqb_neq in Hf. rewrite Hf. cbn [negb].
  rewrite land_bit7, negb_involutive.
  destruct (Z.testbit _ 7); split; reflexivity.
Qed.

Lemma X6_any_high_bit_function_is_exception_witness :
  fst (write_holding_registers_status
         (Some (responder (append_crc [0x01; 0x83; 0x04; 0x00; 0x00; 0x00])))
         1 0 [5])
  = (if Z.testbit
          (Py.item (append_crc [0x01; 0x83; 0x04; 0x00; 0x00; 0x00]) 1) 7
     then WException
            (Py.item (append_crc [0x01; 0x83; 0x04; 0x00; 0x00; 0x00]) 2)
     else WBadFunction
            (Py.item (append_crc [0x01; 0x83; 0x04; 0x00; 0x00; 0x00]) 1))
  /\ write_holding_registers
       (Some (responder (append_crc [0x01; 0x83; 0x04; 0x00; 0x00; 0x00])))
       1 0 [5]
     = false.
Proof.
  apply (X6_any_high_bit_function_is_exception
           (responder (append_crc [0x01; 0x83; 0x04; 0x00; 0x00; 0x00]))).
  - apply responder_answers.
  - discriminate.
  - reflexivity.
  - cbn. lia.
  - vm_compute. discriminate.
  - vm_compute. reflexivity.
  - reflexivity.
  - vm_compute. discriminate.
Defined.

(** *** The fallback of read_holding_registers *)

Lemma read_holding_registers_status_value :
  forall connection device_address start_address count,
    fst (read_holding_registers_status connection device_address
           start_address count)
    = read_holding_registers connection device_address start_address count.
Proof.
  intros. unfold read_holding_registers_status, read_holding_registers,
    _read_registers_with_function.
  destruct (read_registers_status connection device_address start_address
              count 3) as [status log].
  cbn [fst]. destruct (truthy (read_value status)); [reflexivity|].
  destruct (read_registers_status connection device_address start_address
              count 4) as [status' log'].
  reflexivity.
Qed.

(** X8: when [read(100)] returns the device's whole answer to the
    function 0x03 request (at most 100 bytes, that is at most 47
    registers) and the answer holds a non-empty block of registers,
    [read_holding_registers] returns them and makes that one exchange
    only: no 0x04 request is sent. *)
Theorem X8_holding_answer_needs_no_fallback :
  forall conn device_address start_address count values,
    is_open conn = true -> write_raises conn = false ->
    flush_raises conn = false ->
    Py.byte device_address ->
    Forall word values -> values <> [] ->
    fits_one_read (read_reply device_address 0x03 values) ->
    read conn (read_request device_address 0x03 start_address count)
    = ReadBytes (read_reply device_address 0x03 values) ->
    read_holding_registers (Some conn) device_address start_address count
    = Some values
    /\ snd (read_holding_registers_status (Some conn) device_address
              start_address count)
       = [EvWrite (read_request device_address 0x03 start_address count);
          EvFlush; EvRead 100].
Proof.
  intros conn device_address start_address count values
    Ho Hw Hf Hd Hv Hne Hfit Hr.
  assert (Hn : Py.len values <= 127)
    by (apply fits_one_read_registers in Hfit; lia).
  rewrite <- read_holding_registers_status_value.
  unfold read_holding_registers_status.
  assert (H3 : Py.byte 0x03) by (unfold Py.byte; lia).
  rewrite (read_registers_exchange conn _ _ _ _ _ Ho Hw Hf Hd H3 Hr).
  rewrite decode_read_reply by assumption.
  destruct values as [|v values]; [contradiction|].
  split; reflexivity.
Qed.

Lemma X8_holding_answer_needs_no_fallback_witness :
  read_holding_registers (Some (responder (read_reply 1 0x03 [7; 9]))) 1 1 2
  = Some [7; 9]
  /\ snd (read_holding_registers_status
            (Some (responder (read_reply 1 0x03 [7; 9]))) 1 1 2)
     = [EvWrite (read_request 1 0x03 1 2); EvFlush; EvRead 100].
Proof.
  apply (X8_holding_answer_needs_no_fallback
           (responder (read_reply 1 0x03 [7; 9])) 1 1 2 [7; 9]).
  - reflexivity.
  - reflexivity.
  - reflexivity.
  - unfold Py.byte. lia.
  - repeat (constructor; [unfold word; lia|]). constructor.
  - discriminate.
  - vm_compute. discriminate.
  - reflexivity.
Defined.

End ReadWriteFacts.

Section FallbackFacts.

Import Registers.

Lemma decode_read_not_truthy :
  forall device_address function_code count response,
    response = [] \/ (5 <= Py.len response /\ ~ crc_valid response) ->
    truthy
      (read_value
         (decode_read_response device_address function_code count response))
    = false.
Proof.
  intros device_address function_code count response [->|[Hlen Hcrc]];
    [reflexivity|].
  unfold decode_read_response.
  destruct response as [|b response]; [reflexivity|].
  apply Z.ltb_ge in Hlen. rewrite Hlen.
  destruct (response_crc (b :: response) =? calculated_crc (b :: response))
    eqn:E; [apply Z.eqb_eq in E; contradiction | reflexivity].
Qed.

(** X10: when the function 0x03 request gets no answer, or an answer of at
    least 5 bytes with a wrong checksum, [read_holding_registers] sends
    the same read again with function 0x04 and, when [read(100)] returns
    the whole reply to it (at most 100 bytes, that is at most 47
    registers), returns the registers of that reply: two exchanges, 0x03
    first. *)
Theorem X10_fallback_to_input_registers :
  forall conn device_address start_address count first values,
    is_open conn = true -> write_raises conn = false ->
    flush_raises conn = false ->
    Py.byte device_address ->
    Forall word values ->
    fits_one_read (read_reply device_address 0x04 values) ->
    first = [] \/ (5 <= Py.len first /\ ~ crc_valid first) ->
    read conn (read_request device_address 0x03 start_address count)
    = ReadBytes first ->
    read conn (read_request device_address 0x04 start_address count)
    = ReadBytes (read_reply device_address 0x04 values) ->
    read_holding_registers (Some conn) device_address start_address count
    = Some values
    /\ snd (read_holding_registers_status (Some conn) device_address
              start_address count)
       = [EvWrite (read_request device_address 0x03 start_address count);
          EvFlush; EvRead 100;
          EvWrite (read_request device_address 0x04 start_address count);
          EvFlush; EvRead 100].
Proof.
  intros conn device_address start_address count first values
    Ho Hw Hf Hd Hv Hfit Hfirst Hr3 Hr4.
  assert (Hn : Py.len values <= 127)
    by (apply fits_one_read_registers in Hfit; lia).
  rewrite <- read_holding_registers_status_value.
  unfold read_holding_registers_status.
  assert (H3 : Py.byte 0x03) by (unfold Py.byte; lia).
  assert (H4 : Py.byte 0x04) by (unfold Py.byte; lia).
  rewrite (read_registers_exchange conn _ _ _ _ _ Ho Hw Hf Hd H3 Hr3).
  rewrite decode_read_not_truthy by exact Hfirst.
  rewrite (read_registers_exchange conn _ _ _ _ _ Ho Hw Hf Hd H4 Hr4).
  rewrite decode_read_reply by assumption.
  split; reflexivity.
Qed.

Lemma X10_fallback_to_input_registers_witness :
  read_holding_registers (Some (input_only_device [7; 9])) 1 1 2
  = Some [7; 9]
  /\ snd (read_holding_registers_status (Some (input_only_device [7; 9]))
            1 1 2)
     = [EvWrite (read_request 1 0x03 1 2); EvFlush; EvRead 100;
        EvWrite (read_request 1 0x04 1 2); EvFlush; EvRead 100].
Proof.
  apply (X10_fallback_to_input_registers
           (input_only_device [7; 9]) 1 1 2 [] [7; 9]).
  - reflexivity.
  - reflexivity.
  - reflexivity.
  - unfold Py.byte. lia.
  - repeat (constructor; [unfold word; lia|]). constructor.
  - vm_compute. discriminate.
  - left. reflexivity.
  - reflexivity.
  - reflexivity.
Defined.

(** X11: the empty list that a checksum failure yields is not what
    [read_holding_registers] returns: the 0x04 read is made, and when that
    one gets no answer the result is None. *)
Theorem X11_crc_failure_then_silence_is_none :
  forall conn device_address start_address count first,
    is_open conn = true -> write_raises conn = false ->
    flush_raises conn = false ->
    Py.byte device_address ->
    5 <= Py.len first -> ~ crc_valid first ->
    read conn (read_request device_address 0x03 start_address count)
    = ReadBytes first ->
    read conn (read_request device_address 0x04 start_address count)
    = ReadBytes [] ->
    _read_registers_with_function (Some conn) device_address start_address
      count 0x03 = Some []
    /\ read_holding_registers (Some conn) device_address start_address count
       = None.
Proof.
  intros conn device_address start_address count first
    Ho Hw Hf Hd Hlen Hcrc Hr3 Hr4.
  assert (H3 : Py.byte 0x03) by (unfold Py.byte; lia).
  assert (H4 : Py.byte 0x04) by (unfold Py.byte; lia).
  assert (E3 : _read_registers_with_function (Some conn) device_address
                 start_address count 0x03 = Some []).
  { unfold _read_registers_with_function.
    rewrite (read_registers_exchange conn _ _ _ _ _ Ho Hw Hf Hd H3 Hr3).
    cbn [fst]. unfold decode_read_response.
    destruct first as [|b first]; [cbn in Hlen; lia|].
    apply Z.ltb_ge in Hlen. rewrite Hlen.
    destruct (response_crc (b :: first) =? calculated_crc (b :: first))
      eqn:E; [apply Z.eqb_eq in E; contradiction | reflexivity]. }
  split; [exact E3|].
  unfold read_holding_registers. rewrite E3. cbn [truthy].
  unfold _read_registers_with_function.
  rewrite (read_registers_exchange conn _ _ _ _ _ Ho Hw Hf Hd H4 Hr4).
  reflexivity.
Qed.

Lemma X11_crc_failure_then_silence_is_none_witness :
  _read_registers_with_function (Some damaged_holding_device) 1 0 1 0x03
  = Some []
  /\ read_holding_registers (Some damaged_holding_device) 1 0 1 = None.
Proof.
  apply (X11_crc_failure_then_silence_is_none damaged_holding_device 1 0 1
           [0x01; 0x03; 0x02; 0x00; 0x05; 0x00; 0x00]).
  - reflexivity.
  - reflexivity.
  - reflexivity.
  - unfold Py.byte. lia.
  - vm_compute. discriminate.
  - vm_compute. discriminate.
  - reflexivity.
  - reflexivity.
Defined.

End FallbackFacts.

(** ** Connection monitor: when signals are emitted *)

Section MonitorSignals.

Import Monitor.

Lemma longest_failure_run_ge :
  forall polls current, (current <= longest_failure_run current polls)%nat.
Proof.
  induction polls as [|p polls IH]; intro current; cbn [longest_failure_run];
    [lia|].
  destruct (failed p); [specialize (IH (S current)) |]; lia.
Qed.

Lemma set_state_same :
  forall m, set_state m (is_connected m) (consecutive_failures m) = m.
Proof. intros []. reflexivity. Qed.

(** While no run of failures reaches the threshold the monitor stays
    connected, emits nothing, and counts the failures of the current run. *)
Lemma loop_below_threshold :
  forall polls m current,
    is_connected m = true ->
    consecutive_failures m = Z.of_nat current ->
    Z.of_nat (longest_failure_run current polls) < max_failures m ->
    loop m polls
    = (set_state m true (Z.of_nat (failures_at_end current polls)), []).
Proof.
  induction polls as [|p polls IH]; intros m current Hc Hk Hrun.
  - cbn [loop failures_at_end]. rewrite <- Hc, <- Hk, set_state_same.
    reflexivity.
  - cbn [loop longest_failure_run failures_at_end] in *.
    destruct (failed p) eqn:Ef.
    + pose proof (longest_failure_run_ge polls (S current)) as G.
      assert (E : iteration m p
                  = (set_state m true (Z.of_nat (S current)), [])).
      { assert (B : (consecutive_failures m + 1 >=? max_failures m) = false)
          by (rewrite Z.geb_leb; apply Z.leb_gt; lia).
        destruct p as [|[|]|]; try discriminate;
          unfold iteration, fail_guarded; rewrite B, Hc, Hk;
          do 2 f_equal; lia. }
      rewrite E.
      rewrite (IH (set_state m true (Z.of_nat (S current))) (S current))
        by (cbn; auto).
      reflexivity.
    + destruct p as [|[|]|]; try discriminate.
      unfold iteration. rewrite Hc. cbn [negb].
      rewrite (IH (set_state m true 0) 0%nat); [reflexivity| | |];
        cbn; auto; lia.
Qed.

(** X12: as long as the polls contain no run of N consecutive failures
    (N = 2 in fast mode, 3 otherwise), the monitor emits no signal at
    all, however many isolated failures there are. *)
Theorem X12_no_signal_below_threshold :
  forall fast polls,
    Z.of_nat (longest_failure_run 0 polls) < max_failures (init fast) ->
    snd (run (init fast) polls) = [].
Proof.
  intros fast polls H. unfold run.
  rewrite (loop_below_threshold polls _ 0%nat); [reflexivity| | |];
    cbn; auto.
Qed.

Lemma X12_no_signal_below_threshold_witness :
  snd (run (init false)
         [DeviceInfo false; WorkerDown; DeviceInfo true; ReadFails;
          DeviceInfo false; DeviceInfo true; WorkerDown])
  = [].
Proof.
  apply X12_no_signal_below_threshold. vm_compute. reflexivity.
Defined.

Lemma loop_app :
  forall l1 l2 m,
    loop m (l1 ++ l2)
    = (fst (loop (fst (loop m l1)) l2),
       snd (loop m l1) ++ snd (loop (fst (loop m l1)) l2)).
Proof.
  induction l1 as [|p l1 IH]; intros l2 m.
  - cbn [app loop fst snd]. destruct (loop m l2). reflexivity.
  - cbn [app loop]. destruct (iteration m p) as [m' emitted].
    rewrite IH. destruct (loop m' l1) as [m1 s1]. cbn [fst snd].
    destruct (loop m1 l2) as [m2 s2]. cbn [fst snd].
    rewrite app_assoc. reflexivity.
Qed.

Lemma all_failed_runs :
  forall polls current,
    Forall (fun p => failed p = true) polls ->
    longest_failure_run current polls = (current + length polls)%nat
    /\ failures_at_end current polls = (current + length polls)%nat.
Proof.
  induction polls as [|p polls IH]; intros current H;
    cbn [longest_failure_run failures_at_end length]; [lia|].
  inversion H as [|? ? Hp Hrest]; subst. rewrite Hp.
  destruct (IH (S current) Hrest). lia.
Qed.

Lemma failures_at_end_app :
  forall l1 l2 current,
    failures_at_end current (l1 ++ l2)
    = failures_at_end (failures_at_end current l1) l2.
Proof.
  induction l1 as [|p l1 IH]; intros l2 current; [reflexivity|].
  cbn [app failures_at_end]. apply IH.
Qed.

Lemma longest_failure_run_app :
  forall l1 l2 current,
    longest_failure_run current (l1 ++ l2)
    = Nat.max (longest_failure_run current l1)
              (longest_failure_run (failures_at_end current l1) l2).
Proof.
  induction l1 as [|p l1 IH]; intros l2 current.
  - cbn [app longest_failure_run failures_at_end].
    pose proof (longest_failure_run_ge l2 current). lia.
  - cbn [app longest_failure_run failures_at_end].
    destruct (failed p); rewrite IH; lia.
Qed.

(** A failed poll that brings the count to the threshold while the
    monitor is connected emits the loss. *)
Lemma iteration_reaches_threshold :
  forall m p,
    is_connected m = true -> failed p = true ->
    max_failures m <= consecutive_failures m + 1 ->
    iteration m p
    = (set_state m false (consecutive_failures m + 1), [device_disconnected]).
Proof.
  intros m p Hc Hp Hk.
  assert (B : (consecutive_failures m + 1 >=? max_failures m) = true)
    by (rewrite Z.geb_leb; apply Z.leb_le; lia).
  destruct p as [|[|]|]; try discriminate;
    unfold iteration, fail_guarded; rewrite B, ?Hc; reflexivity.
Qed.

(** X13: after polls that never reached the threshold and did not end in a
    failure, N consecutive failed polls of any kind (worker down, no
    answer, exception) produce exactly one [device_disconnected], emitted
    at the N-th, and leave the monitor disconnected. *)
Theorem X13_lost_at_the_threshold :
  forall fast before failures,
    Z.of_nat (longest_failure_run 0 before) < max_failures (init fast) ->
    failures_at_end 0 before = 0%nat ->
    Forall (fun p => failed p = true) failures ->
    Z.of_nat (length failures) = max_failures (init fast) ->
    snd (run (init fast) (before ++ failures)) = [device_disconnected]
    /\ is_connected (fst (run (init fast) (before ++ failures))) = false.
Proof.
  intros fast before failures Hq He Hf Hn.
  assert (Hlast : exists front p, failures = front ++ [p]).
  { destruct failures as [|p failures] using rev_ind.
    - destruct fast; cbn in Hn; lia.
    - exists failures, p. reflexivity. }
  destruct Hlast as (front & p & ->).
  apply Forall_app in Hf. destruct Hf as [Hfront Hp].
  inversion Hp as [|? ? Hp' _]; subst.
  rewrite length_app in Hn. cbn [length] in Hn.
  destruct (all_failed_runs front 0 Hfront) as [Rl Re].
  unfold run. rewrite app_assoc, loop_app.
  rewrite (loop_below_threshold (before ++ front) _ 0%nat); cbn [fst snd].
  - cbn [loop].
    rewrite iteration_reaches_threshold; [split; reflexivity | reflexivity
                                         | exact Hp' |].
    cbn [max_failures consecutive_failures set_state init] in *.
    rewrite failures_at_end_app, He, Re. lia.
  - reflexivity.
  - reflexivity.
  - cbn [max_failures set_state init] in *.
    rewrite longest_failure_run_app, He, Rl. lia.
Qed.

Lemma X13_lost_at_the_threshold_witness :
  snd (run (init false)
         ([DeviceInfo false; DeviceInfo true]
          ++ [WorkerDown; DeviceInfo false; ReadFails]))
  = [device_disconnected]
  /\ is_connected
       (fst (run (init false)
               ([DeviceInfo false; DeviceInfo true]
                ++ [WorkerDown; DeviceInfo false; ReadFails]))) = false.
Proof.
  apply X13_lost_at_the_threshold.
  - vm_compute. reflexivity.
  - reflexivity.
  - repeat constructor.
  - reflexivity.
Defined.

End MonitorSignals.

Section MonitorOrder.

Import Monitor.

(** What one pass of the loop can emit, and what it does to the
    connected flag. *)
Lemma iteration_cases :
  forall m p,
    (snd (iteration m p) = []
     /\ is_connected (fst (iteration m p)) = is_connected m)
    \/ (snd (iteration m p) = [device_disconnected]
        /\ is_connected (fst (iteration m p)) = false
        /\ (p = DeviceInfo false \/ is_connected m = true))
    \/ (snd (iteration m p) = [device_reconnected]
        /\ is_connected m = false
        /\ is_connected (fst (iteration m p)) = true).
Proof.
  intros m p. destruct p as [|[|]|]; unfold iteration, fail_guarded.
  - destruct (consecutive_failures m + 1 >=? max_failures m);
      [|left; split; reflexivity].
    destruct (is_connected m) eqn:E; [right; left | left]; cbn; auto.
  - destruct (is_connected m) eqn:E; cbn [negb];
      [left | right; right]; cbn; auto.
  - destruct (consecutive_failures m + 1 >=? max_failures m);
      [right; left | left]; cbn; auto.
  - destruct (consecutive_failures m + 1 >=? max_failures m);
      [|left; split; reflexivity].
    destruct (is_connected m) eqn:E; [right; left | left]; cbn; auto.
Qed.

Lemma loop_cons :
  forall m p polls,
    snd (loop m (p :: polls))
    = snd (iteration m p) ++ snd (loop (fst (iteration m p)) polls).
Proof.
  intros m p polls. cbn [loop]. destruct (iteration m p) as [m' emitted].
  cbn [fst snd]. destruct (loop m' polls) as [m'' later]. reflexivity.
Qed.

Lemma reconnect_follows_loss :
  forall polls m pre post,
    snd (loop m polls) = pre ++ device_reconnected :: post ->
    (pre = [] /\ is_connected m = false)
    \/ exists pre', pre = pre' ++ [device_disconnected].
Proof.
  induction polls as [|p polls IH]; intros m pre post H.
  - cbn in H. destruct pre; discriminate.
  - rewrite loop_cons in H.
    destruct (iteration_cases m p)
      as [[E C] | [(E & C & _) | (E & C0 & C)]]; rewrite E in H.
    + cbn [app] in H. destruct (IH _ _ _ H) as [[-> Hc] | Hp];
        [left; split; [reflexivity | congruence] | right; exact Hp].
    + destruct pre as [|x pre]; [discriminate|].
      injection H as <- H. right.
      destruct (IH _ _ _ H) as [[-> _] | [pre' ->]].
      * exists []. reflexivity.
      * exists (device_disconnected :: pre'). reflexivity.
    + destruct pre as [|x pre]; [left; split; [reflexivity | exact C0]|].
      injection H as <- H. right.
      destruct (IH _ _ _ H) as [[_ Hc] | [pre' ->]]; [congruence|].
      exists (device_reconnected :: pre'). reflexivity.
Qed.

(** X14: whatever the polls, every [device_reconnected] the monitor emits
    comes directly after a [device_disconnected]; in particular the
    first signal of a monitor is never a reconnection. *)
Theorem X14_reconnect_only_after_loss :
  forall fast polls pre post,
    snd (run (init fast) polls) = pre ++ device_reconnected :: post ->
    exists pre', pre = pre' ++ [device_disconnected].
Proof.
  intros fast polls pre post H. unfold run in H.
  destruct (reconnect_follows_loss _ _ _ _ H) as [[_ Hc] | Hp];
    [discriminate | exact Hp].
Qed.

Lemma X14_reconnect_only_after_loss_witness :
  exists pre', [device_disconnected; device_disconnected]
               = pre' ++ [device_disconnected].
Proof.
  apply (X14_reconnect_only_after_loss true
           [DeviceInfo false; DeviceInfo false; DeviceInfo false;
            DeviceInfo true; WorkerDown]
           [device_disconnected; device_disconnected] []).
  reflexivity.
Defined.

Lemma alternates_nil : alternates [].
Proof. intros [|a [|b pre]] x y post H; discriminate. Qed.

Lemma alternates_cons :
  forall x signals,
    alternates signals ->
    (forall y rest, signals = y :: rest -> x <> y) ->
    alternates (x :: signals).
Proof.
  intros x signals A Hhd pre a b post H.
  destruct pre as [|c pre].
  - injection H as -> H. exact (Hhd b post H).
  - injection H as _ H. exact (A pre a b post H).
Qed.

Lemma guarded_polls_alternate :
  forall polls m,
    ~ In (DeviceInfo false) polls ->
    alternates (snd (loop m polls))
    /\ (forall y rest,
           snd (loop m polls) = y :: rest ->
           y = if is_connected m then device_disconnected
               else device_reconnected).
Proof.
  induction polls as [|p polls IH]; intros m Hno.
  - cbn. split; [apply alternates_nil | discriminate].
  - rewrite loop_cons.
    assert (Hno' : ~ In (DeviceInfo false) polls)
      by (intro; apply Hno; right; assumption).
    assert (Hp : p <> DeviceInfo false)
      by (intro; apply Hno; left; assumption).
    destruct (IH (fst (iteration m p)) Hno') as [A Hhd].
    destruct (iteration_cases m p)
      as [[E C] | [(E & C & [C0|C0]) | (E & C0 & C)]]; rewrite E.
    + cbn [app]. rewrite C in Hhd. split; assumption.
    + contradiction.
    + cbn [app]. rewrite C in Hhd. rewrite C0. split.
      * apply alternates_cons; [exact A|].
        intros y rest Hy. rewrite (Hhd y rest Hy). discriminate.
      * intros y rest Hy. injection Hy as <- _. reflexivity.
    + cbn [app]. rewrite C in Hhd. rewrite C0. split.
      * apply alternates_cons; [exact A|].
        intros y rest Hy. rewrite (Hhd y rest Hy). discriminate.
      * intros y rest Hy. injection Hy as <- _. reflexivity.
Qed.

(** X15: when no poll is an unanswered read (failures are a disconnected
    worker or an exception only), losses and reconnections alternate:
    the first signal, if any, is [device_disconnected] and no signal is
    emitted twice in a row. *)
Theorem X15_guarded_failures_signal_once :
  forall fast polls,
    ~ In (DeviceInfo false) polls ->
    alternates (snd (run (init fast) polls))
    /\ (forall y rest,
           snd (run (init fast) polls) = y :: rest ->
           y = device_disconnected).
Proof.
  intros fast polls H. unfold run.
  destruct (guarded_polls_alternate polls
              (set_state (init fast) (is_connected (init fast)) 0) H)
    as [A Hhd].
  split; [exact A | exact Hhd].
Qed.

Lemma X15_guarded_failures_signal_once_witness :
  alternates
    (snd (run (init true)
            [WorkerDown; ReadFails; WorkerDown; DeviceInfo true; ReadFails;
             ReadFails; ReadFails]))
  /\ (forall y rest,
         snd (run (init true)
                [WorkerDown; ReadFails; WorkerDown; DeviceInfo true;
                 ReadFails; ReadFails; ReadFails]) = y :: rest ->
         y = device_disconnected).
Proof.
  apply X15_guarded_failures_signal_once.
  intros [H|[H|[H|[H|[H|[H|[H|[]]]]]]]]; discriminate.
Defined.

End MonitorOrder.

(** ** Discovery scan under any stop flag *)

Section ScanOutcome.

Import AutoSearch.

Variable should_stop : nat -> bool.
Variable scan_single : Z -> Z -> option string.

Lemma info_reads_app :
  forall l1 l2, info_reads (l1 ++ l2) = info_reads l1 ++ info_reads l2.
Proof.
  induction l1 as [|e l1 IH]; intro l2; [reflexivity|].
  destruct e; cbn [app info_reads]; rewrite IH; reflexivity.
Qed.

Lemma progress_of_app :
  forall l1 l2, progress_of (l1 ++ l2) = progress_of l1 ++ progress_of l2.
Proof.
  induction l1 as [|e l1 IH]; intro l2; [reflexivity|].
  destruct e; cbn [app progress_of]; rewrite IH; reflexivity.
Qed.

(** The inner loop: either it returned, with a sound outcome for the
    speeds of this address, or it ran through all of them unanswered. *)
Lemma scan_baudrates_outcome :
  forall address baudrates reads,
    let space := map (fun baudrate => (address, baudrate)) baudrates in
    let r := scan_baudrates should_stop scan_single address baudrates reads in
    progress_of (snd r) = []
    /\ match fst (fst r) with
       | Some NotFound => False
       | Some c => outcome_sound scan_single space c (snd r)
       | None =>
           Forall (unanswered scan_single) space
           /\ probes (snd r) = space /\ info_reads (snd r) = []
       end.
Proof.
  intros address baudrates.
  induction baudrates as [|b baudrates IH]; intro reads; cbv zeta.
  - cbn. repeat split. constructor.
  - cbn [scan_baudrates map].
    destruct (should_stop reads).
    + cbn [fst snd progress_of outcome_sound]. split; [reflexivity|].
      exists [], ((address, b)
                  :: map (fun baudrate => (address, baudrate)) baudrates).
      repeat split. constructor.
    + destruct (scan_single address b) as [response|] eqn:E.
      * cbn [fst snd progress_of outcome_sound]. split; [reflexivity|].
        exists [], (map (fun baudrate => (address, baudrate)) baudrates),
          response.
        repeat split; [constructor | exact E].
      * specialize (IH (S reads)). cbv zeta in IH.
        destruct (scan_baudrates should_stop scan_single address baudrates
                    (S reads)) as [[r reads'] log].
        cbn [fst snd progress_of probes info_reads] in *.
        destruct IH as [Hp IH]. split; [exact Hp|].
        destruct r as [[a' b'| |]|]; cbn [outcome_sound probes info_reads] in *.
        -- destruct IH as (pre & post & response & Hs & Hu & Ha & Hpr & Hi).
           exists ((address, b) :: pre), post, response.
           rewrite Hs, Hpr. repeat split; try assumption.
           constructor; [exact E | exact Hu].
        -- exact IH.
        -- destruct IH as (pre & post & Hs & Hu & Hpr & Hi).
           exists ((address, b) :: pre), post.
           rewrite Hs, Hpr. repeat split; try assumption.
           constructor; [exact E | exact Hu].
        -- destruct IH as (Hu & Hpr & Hi).
           rewrite Hpr. repeat split; try assumption.
           constructor; [exact E | exact Hu].
Qed.

Lemma scan_addresses_outcome :
  forall addresses reads,
    let space :=
      flat_map (fun address => map (fun baudrate => (address, baudrate))
                                 SEARCH_BAUDRATES) addresses in
    let r := scan_addresses should_stop scan_single addresses reads in
    outcome_sound scan_single space (fst r) (snd r)
    /\ (exists rest, addresses = progress_of (snd r) ++ rest)
    /\ (forall a b, In (a, b) (probes (snd r)) -> In a (progress_of (snd r))).
Proof.
  induction addresses as [|address addresses IH]; intro reads; cbv zeta.
  - cbn. repeat split; try constructor.
    + exists []. reflexivity.
    + intros a b [].
  - cbn [scan_addresses flat_map].
    destruct (should_stop reads).
    + cbn [fst snd outcome_sound probes info_reads progress_of].
      split; [|split].
      * exists [], (map (fun baudrate => (address, baudrate)) SEARCH_BAUDRATES
                    ++ flat_map
                         (fun address0 =>
                            map (fun baudrate => (address0, baudrate))
                              SEARCH_BAUDRATES) addresses).
        repeat split. constructor.
      * exists (address :: addresses). reflexivity.
      * intros a b [].
    + pose proof (scan_baudrates_outcome address SEARCH_BAUDRATES (S reads))
        as L.
      cbv zeta in L.
      destruct (scan_baudrates should_stop scan_single address
                  SEARCH_BAUDRATES (S reads)) as [[r reads'] log].
      cbn [fst snd] in L. destruct L as [Lp L].
      assert (Hin : forall a b,
                 In (a, b) (probes log) ->
                 (exists pre post,
                     map (fun baudrate => (address, baudrate)) SEARCH_BAUDRATES
                     = pre ++ post /\ In (a, b) pre)
                 \/ In (a, b)
                      (map (fun baudrate => (address, baudrate))
                         SEARCH_BAUDRATES) ->
                 a = address).
      { intros a b _ [(pre & post & Hs & Hi) | Hi].
        - assert (Hi' : In (a, b)
                          (map (fun baudrate => (address, baudrate))
                             SEARCH_BAUDRATES))
            by (rewrite Hs; apply in_or_app; left; exact Hi).
          apply in_map_iff in Hi'. destruct Hi' as (x & Hx & _).
          injection Hx as <- _. reflexivity.
        - apply in_map_iff in Hi. destruct Hi as (x & Hx & _).
          injection Hx as <- _. reflexivity. }
      destruct r as [[a' b'| |]|].
      * cbn [fst snd outcome_sound probes info_reads progress_of] in *.
        rewrite Lp.
        destruct L as (pre & post & response & Hs & Hu & Ha & Hpr & Hi).
        split; [|split].
        -- exists pre, (post ++ flat_map
                                  (fun address0 =>
                                     map (fun baudrate => (address0, baudrate))
                                       SEARCH_BAUDRATES) addresses), response.
           rewrite Hs, <- app_assoc. repeat split; assumption.
        -- exists addresses. reflexivity.
        -- intros a b Hab. left. symmetry. apply (Hin a b Hab).
           left. exists (pre ++ [(a', b')]), post.
           rewrite Hs, <- app_assoc. split; [reflexivity|].
           rewrite <- Hpr. exact Hab.
      * contradiction.
      * cbn [fst snd outcome_sound probes info_reads progress_of] in *.
        rewrite Lp.
        destruct L as (pre & post & Hs & Hu & Hpr & Hi).
        split; [|split].
        -- exists pre, (post ++ flat_map
                                  (fun address0 =>
                                     map (fun baudrate => (address0, baudrate))
                                       SEARCH_BAUDRATES) addresses).
           rewrite Hs, <- app_assoc. repeat split; assumption.
        -- exists addresses. reflexivity.
        -- intros a b Hab. left. symmetry. apply (Hin a b Hab).
           left. exists pre, post. split; [exact Hs|].
           rewrite <- Hpr. exact Hab.
      * specialize (IH reads'). cbv zeta in IH.
        destruct (scan_addresses should_stop scan_single addresses reads')
          as [c log'].
        cbn [fst snd probes info_reads progress_of] in *.
        destruct L as (Hu & Hpr & Hi).
        destruct IH as (IH & (rest & Hrest) & Hprog).
        rewrite probes_app, progress_of_app, Lp, Hpr.
        cbn [app]. split; [|split].
        -- destruct c as [a' b'| |];
             cbn [outcome_sound probes info_reads] in *;
             rewrite probes_app, info_reads_app, Hpr, Hi; cbn [app].
           ++ destruct IH as (pre & post & response & Hs & Hu' & Ha & Hpr'
                              & Hi').
              exists (map (fun baudrate => (address, baudrate))
                        SEARCH_BAUDRATES ++ pre), post, response.
              rewrite Hs, Hpr', <- !app_assoc.
              repeat split; try assumption.
              apply Forall_app. split; assumption.
           ++ destruct IH as (Hu' & Hpr' & Hi').
              rewrite Hpr'. repeat split; try assumption.
              apply Forall_app. split; assumption.
           ++ destruct IH as (pre & post & Hs & Hu' & Hpr' & Hi').
              exists (map (fun baudrate => (address, baudrate))
                        SEARCH_BAUDRATES ++ pre), post.
              rewrite Hs, Hpr', <- !app_assoc.
              repeat split; try assumption.
              apply Forall_app. split; assumption.
        -- exists rest. rewrite Hrest at 1. reflexivity.
        -- intros a b Hab. apply in_app_or in Hab.
           destruct Hab as [Hab | Hab].
           ++ left. symmetry. apply (Hin a b).
              ** rewrite Hpr. exact Hab.
              ** right. exact Hab.
           ++ right. exact (Hprog a b Hab).
Qed.

End ScanOutcome.

Section ScanOutcomeFacts.

Import AutoSearch.

(** X16: whenever the stop flag is set, the way a scan ends is true to
    what it probed: a reported pair is the first pair of the scan order
    that answers, it is the last pair probed, and device information is
    read for it and for nothing else; a scan that reports nothing found
    probed all 1000 pairs without an answer; a stopped scan probed an
    initial part of the scan order, none of which answered. *)
Theorem X16_scan_outcome_is_sound :
  forall (should_stop : nat -> bool) (scan_single : Z -> Z -> option string),
    outcome_sound scan_single search_space
      (fst (_sequential_search should_stop scan_single))
      (snd (_sequential_search should_stop scan_single)).
Proof.
  intros should_stop scan_single.
  apply (scan_addresses_outcome should_stop scan_single
           (Py.range MIN_ADDRESS (MAX_ADDRESS + 1)) 0).
Qed.

(** X17: under any stop flag and any answers the probes of a scan are an
    initial segment of the scan order: at most 1000 probes, no pair
    outside addresses 1 to 200 and the five speeds, none probed twice. *)
Theorem X17_probes_are_a_prefix_of_the_order :
  forall (should_stop : nat -> bool) (scan_single : Z -> Z -> option string),
    (exists rest,
        search_space
        = probes (snd (_sequential_search should_stop scan_single)) ++ rest)
    /\ (length (probes (snd (_sequential_search should_stop scan_single)))
        <= 1000)%nat
    /\ NoDup (probes (snd (_sequential_search should_stop scan_single))).
Proof.
  intros should_stop scan_single.
  pose proof (scan_addresses_outcome should_stop scan_single
                (Py.range MIN_ADDRESS (MAX_ADDRESS + 1)) 0) as H.
  cbv zeta in H. destruct H as (H & _).
  fold search_space in H.
  fold (_sequential_search should_stop scan_single) in H.
  assert (P : exists rest,
             search_space
             = probes (snd (_sequential_search should_stop scan_single))
               ++ rest).
  { destruct (fst (_sequential_search should_stop scan_single))
      as [a b| |]; cbn [outcome_sound] in H.
    - destruct H as (pre & post & response & Hs & _ & _ & Hp & _).
      exists post. rewrite Hp, Hs, <- app_assoc. reflexivity.
    - destruct H as (_ & Hp & _). exists []. rewrite Hp, app_nil_r.
      reflexivity.
    - destruct H as (pre & post & Hs & _ & Hp & _).
      exists post. rewrite Hp. exact Hs. }
  split; [exact P|]. destruct P as [rest P].
  split.
  - apply (f_equal (@length (Z * Z))) in P. rewrite length_app in P.
    change (length search_space) with 1000%nat in P. lia.
  - assert (N : NoDup search_space).
    { apply (NoDup_nth search_space (0, 0)).
      assert (D : forall i, (i < 1000)%nat ->
                    nth i search_space (0, 0)
                    = (1 + Z.of_nat (i / 5),
                       nth (i mod 5) SEARCH_BAUDRATES 0)).
      { intros i Hi.
        assert (E : forallb
                      (fun i =>
                         let p := nth i search_space (0, 0) in
                         (fst p =? 1 + Z.of_nat (i / 5))
                         && (snd p =? nth (i mod 5) SEARCH_BAUDRATES 0))
                      (seq 0 1000) = true) by (vm_compute; reflexivity).
        pose proof (proj1 (forallb_forall _ _) E i) as Ei.
        cbv zeta in Ei.
        specialize (Ei ltac:(apply in_seq; lia)).
        apply andb_true_iff in Ei. destruct Ei as [E1 E2].
        apply Z.eqb_eq in E1, E2. clear E.
        destruct (nth i search_space (0, 0)) as [a b].
        cbn [fst snd] in E1, E2. rewrite E1, E2. reflexivity. }
      change (length search_space) with 1000%nat.
      intros i j Hi Hj Hij. rewrite (D i Hi), (D j Hj) in Hij.
      pose proof (f_equal fst Hij) as Ha. pose proof (f_equal snd Hij) as Hb.
      cbn [fst snd] in Ha, Hb.
      assert (Hq : (i / 5 = j / 5)%nat) by lia.
      assert (Hr : (i mod 5 = j mod 5)%nat).
      { pose proof (Nat.mod_upper_bound i 5 ltac:(lia)) as Bi.
        pose proof (Nat.mod_upper_bound j 5 ltac:(lia)) as Bj.
        revert Hb. generalize (i mod 5)%nat (j mod 5)%nat Bi Bj.
        intros x y Bx By.
        do 5 (destruct x as [|x]; [do 5 (destruct y as [|y];
                                       [cbn; intro; (reflexivity || discriminate)|]);
                                   lia|]).
        lia. }
      pose proof (Nat.div_mod_eq i 5). pose proof (Nat.div_mod_eq j 5). lia. }
    rewrite P in N. apply NoDup_app_remove_r in N. exact N.
Qed.

(** X18: under any stop flag a progress line is issued once per address,
    the addresses ascending from 1 without a gap, and no pair is probed
    whose address was not announced. *)
Theorem X18_progress_once_per_address :
  forall (should_stop : nat -> bool) (scan_single : Z -> Z -> option string),
    (exists rest,
        map Z.of_nat (seq 1 200)
        = progress_of (snd (_sequential_search should_stop scan_single))
          ++ rest)
    /\ (forall address baudrate,
           In (address, baudrate)
              (probes (snd (_sequential_search should_stop scan_single))) ->
           In address
              (progress_of (snd (_sequential_search should_stop scan_single)))).
Proof.
  intros should_stop scan_single.
  pose proof (scan_addresses_outcome should_stop scan_single
                (Py.range MIN_ADDRESS (MAX_ADDRESS + 1)) 0) as H.
  cbv zeta in H. destruct H as (_ & Hprog & Hin).
  fold (_sequential_search should_stop scan_single) in Hprog, Hin.
  split; [|exact Hin].
  destruct Hprog as [rest Hrest]. exists rest. rewrite <- Hrest.
  vm_compute. reflexivity.
Qed.

End ScanOutcomeFacts.

(** ** Identification exchange (core/modbus_device_info.py) *)

Section DeviceInfoFacts.

Import DeviceInfo.

Lemma retry_read_accepted :
  forall port attempts reads response reads',
    retry_read port attempts reads = (RetryAccepted response, reads') ->
    (reads < reads' <= reads + attempts)%nat
    /\ replies port (reads' - 1) = Registers.ReadBytes response
    /\ crc_valid response /\ 2 <= Py.len response.
Proof.
  intros port attempts. induction attempts as [|n IH];
    intros reads response reads' H; cbn [retry_read] in H; [discriminate|].
  destruct (replies port reads) as [r| |] eqn:E; try discriminate.
  destruct ((2 <=? Py.len r) && crc_ok r) eqn:C.
  - injection H as <- <-. apply andb_true_iff in C. destruct C as [C1 C2].
    apply Z.leb_le in C1.
    replace (S reads - 1)%nat with reads by lia.
    repeat split; try assumption; lia.
  - destruct (IH _ _ _ H) as (Hr & Hrest). split; [lia | exact Hrest].
Qed.

Lemma retry_read_bound :
  forall port attempts reads,
    (reads <= snd (retry_read port attempts reads) <= reads + attempts)%nat.
Proof.
  intros port attempts. induction attempts as [|n IH]; intro reads;
    cbn [retry_read]; [cbn; lia|].
  destruct (replies port reads) as [r| |]; cbn [snd]; try lia.
  destruct ((2 <=? Py.len r) && crc_ok r); cbn [snd]; [lia|].
  specialize (IH (S reads)). lia.
Qed.

Lemma accept_some :
  forall address response id,
    accept address response = Some id ->
    Py.item response 0 = address /\ Py.item response 1 = 0x11
    /\ id = _parse_device_identification_response response.
Proof.
  intros address response id. unfold accept.
  destruct (Py.item response 0 =? address) eqn:Ea; [|discriminate].
  destruct (Py.item response 1 =? 17) eqn:Ef; [|discriminate].
  cbn [negb orb]. intro H. injection H as <-.
  apply Z.eqb_eq in Ea, Ef. repeat split; assumption.
Qed.

(** X19: identification data is returned only from a response that
    passed the checksum test and carries the device's address and function
    0x11; it is the decoding of that response, which is the result of one
    of at most three reads, made after a single request. *)
Theorem X19_identification_only_from_checked_response :
  forall connection address id,
    fst (get_device_info connection address) = Some id ->
    exists port response n,
      connection = Some port
      /\ (n < 3)%nat
      /\ replies port n = Registers.ReadBytes response
      /\ crc_valid response
      /\ Py.item response 0 = address
      /\ Py.item response 1 = 0x11
      /\ id = _parse_device_identification_response response
      /\ snd (get_device_info connection address)
         = exchange_log (identification_request address) (S n).
Proof.
  intros [port|] address id; [|discriminate].
  unfold get_device_info. destruct (negb (is_open port)); [discriminate|].
  unfold _send_modbus_command_17.
  destruct (Py.bytearray _) as [request|] eqn:Eb; [|discriminate].
  apply bytearray_bytes in Eb. destruct Eb as [-> _].
  fold (identification_request address).
  destruct (write_raises port); [discriminate|].
  destruct (flush_raises port); [discriminate|].
  destruct (replies port 0) as [r0| |] eqn:E0; try discriminate.
  destruct (Py.len r0 <? 7); [discriminate|].
  destruct (crc_ok r0) eqn:C0.
  - cbn [fst snd]. intro H. apply accept_some in H.
    destruct H as (Ha & Hf & Hid).
    exists port, r0, 0%nat. repeat split; try assumption. lia.
  - destruct (retry_read port 2 1) as [[r| |] reads] eqn:Er;
      try discriminate.
    cbn [fst snd]. intro H. apply accept_some in H.
    destruct H as (Ha & Hf & Hid).
    apply retry_read_accepted in Er. destruct Er as (Hk & Hr & Hc & _).
    exists port, r, (reads - 1)%nat.
    replace (S (reads - 1)) with reads by lia.
    repeat split; try assumption. lia.
Qed.

Lemma X19_identification_only_from_checked_response_witness :
  exists port response n,
    Some {| is_open := true; write_raises := false; flush_raises := false;
            replies := fun _ =>
                         Registers.ReadBytes
                           (Registers.append_crc
                              [0x01; 0x11; 0x0F; 0xFF; 0x99]) |}
    = Some port
    /\ (n < 3)%nat
    /\ replies port n = Registers.ReadBytes response
    /\ crc_valid response
    /\ Py.item response 0 = 1
    /\ Py.item response 1 = 0x11
    /\ RawOnly "01110fff99ad65"
       = _parse_device_identification_response response
    /\ snd (get_device_info
              (Some {| is_open := true; write_raises := false;
                       flush_raises := false;
                       replies := fun _ =>
                                    Registers.ReadBytes
                                      (Registers.append_crc
                                         [0x01; 0x11; 0x0F; 0xFF; 0x99]) |})
              1)
       = exchange_log (identification_request 1) (S n).
Proof.
  apply X19_identification_only_from_checked_response.
  vm_compute. reflexivity.
Defined.

(** X20: whatever the port does, one call of [get_device_info] writes at
    most one request, the identification frame with its checksum, and
    calls [read] at most three times. *)
Theorem X20_one_request_three_reads_at_most :
  forall connection address,
    let log := snd (get_device_info connection address) in
    log = []
    \/ log = [Registers.EvWrite (identification_request address)]
    \/ log = [Registers.EvWrite (identification_request address);
              Registers.EvFlush]
    \/ exists reads,
         (1 <= reads <= 3)%nat
         /\ log = exchange_log (identification_request address) reads.
Proof.
  intros [port|] address; cbv zeta; [|left; reflexivity].
  unfold get_device_info. destruct (negb (is_open port)); [left; reflexivity|].
  unfold _send_modbus_command_17.
  destruct (Py.bytearray _) as [request|] eqn:Eb; [|left; reflexivity].
  apply bytearray_bytes in Eb. destruct Eb as [-> _].
  fold (identification_request address).
  destruct (write_raises port); [right; left; reflexivity|].
  destruct (flush_raises port); [right; right; left; reflexivity|].
  right. right. right.
  destruct (replies port 0) as [r0| |];
    try (exists 1%nat; split; [lia | reflexivity]).
  destruct (Py.len r0 <? 7); [exists 1%nat; split; [lia | reflexivity]|].
  destruct (crc_ok r0); [exists 1%nat; split; [lia | reflexivity]|].
  pose proof (retry_read_bound port 2 1) as B.
  destruct (retry_read port 2 1) as [[r| |] reads]; cbn [snd] in *;
    exists reads; (split; [lia | reflexivity]).
Qed.

End DeviceInfoFacts.

Section DeviceInfoRetry.

Import DeviceInfo.

Lemma send_command_first_read :
  forall port address first,
    write_raises port = false -> flush_raises port = false ->
    Py.byte address ->
    replies port 0 = Registers.ReadBytes first ->
    7 <= Py.len first ->
    _send_modbus_command_17 port address
    = if crc_ok first
      then (accept address first,
            exchange_log (identification_request address) 1)
      else
        match retry_read port 2 1 with
        | (RetryAccepted response', reads) =>
            (accept address response',
             exchange_log (identification_request address) reads)
        | (_, reads) =>
            (None, exchange_log (identification_request address) reads)
        end.
Proof.
  intros port address first Hw Hf Ha Hr Hlen.
  unfold _send_modbus_command_17, Py.bytearray. cbn [forallb].
  rewrite (in_byte_range_byte _ Ha). cbn [Py.in_byte_range andb Z.leb Z.ltb
    Z.compare].
  fold (identification_request address).
  rewrite Hw, Hf, Hr.
  replace (Py.len first <? 7) with false by (symmetry; apply Z.ltb_ge; lia).
  reflexivity.
Qed.

Lemma accept_checked :
  forall address response,
    Py.item response 0 = address -> Py.item response 1 = 0x11 ->
    accept address response
    = Some (_parse_device_identification_response response).
Proof.
  intros address response Ha Hf. unfold accept.
  rewrite Ha, Hf, !Z.eqb_refl. reflexivity.
Qed.

(** X21: the minimum of 7 bytes applies to the first read only: after a
    first response with a wrong checksum, a retried response is accepted
    as soon as it has two bytes or more, a valid checksum, the device's
    address and function 0x11, and its decoding is returned after two
    reads. *)
Theorem X21_retried_response_needs_no_minimum_length :
  forall port address first second,
    is_open port = true -> write_raises port = false ->
    flush_raises port = false -> Py.byte address ->
    replies port 0 = Registers.ReadBytes first ->
    7 <= Py.len first -> crc_ok first = false ->
    replies port 1 = Registers.ReadBytes second ->
    2 <= Py.len second -> crc_valid second ->
    Py.item second 0 = address -> Py.item second 1 = 0x11 ->
    get_device_info (Some port) address
    = (Some (_parse_device_identification_response second),
       exchange_log (identification_request address) 2).
Proof.
  intros port address first second Ho Hw Hf Ha H0 Hlen Hc0 H1 Hl1 Hc1 Ha1 Hf1.
  unfold get_device_info. rewrite Ho. cbn [negb].
  rewrite (send_command_first_read port address first) by assumption.
  rewrite Hc0. cbn [retry_read]. rewrite H1.
  unfold crc_valid in Hc1. rewrite Hc1.
  replace (2 <=? Py.len second) with true by (symmetry; apply Z.leb_le; lia).
  cbn [andb]. rewrite accept_checked by assumption. reflexivity.
Qed.

Lemma X21_retried_response_needs_no_minimum_length_witness :
  get_device_info
    (Some {| is_open := true; write_raises := false; flush_raises := false;
             replies := fun n =>
                          match n with
                          | O => Registers.ReadBytes
                                   [0x01; 0x11; 0x0F; 0xFF; 0x99; 0x00; 0x00]
                          | _ => Registers.ReadBytes [0x01; 0x11; 0xC0; 0x2C]
                          end |}) 1
  = (Some (_parse_device_identification_response [0x01; 0x11; 0xC0; 0x2C]),
     exchange_log (identification_request 1) 2).
Proof.
  apply (X21_retried_response_needs_no_minimum_length _ 1
           [0x01; 0x11; 0x0F; 0xFF; 0x99; 0x00; 0x00]
           [0x01; 0x11; 0xC0; 0x2C]).
  - reflexivity.
  - reflexivity.
  - reflexivity.
  - unfold Py.byte. lia.
  - reflexivity.
  - vm_compute. discriminate.
  - vm_compute. reflexivity.
  - reflexivity.
  - vm_compute. discriminate.
  - vm_compute. reflexivity.
  - reflexivity.
  - reflexivity.
Defined.

(** X22: when the first response of 7 bytes or more has a wrong checksum
    and neither of the two further reads returns a response of two bytes
    or more with a valid checksum, the call gives up: it returns None
    after exactly three reads and does not send the request again. *)
Theorem X22_gives_up_after_two_retries :
  forall port address first second third,
    is_open port = true -> write_raises port = false ->
    flush_raises port = false -> Py.byte address ->
    replies port 0 = Registers.ReadBytes first ->
    7 <= Py.len first -> crc_ok first = false ->
    replies port 1 = Registers.ReadBytes second ->
    Py.len second < 2 \/ crc_ok second = false ->
    replies port 2 = Registers.ReadBytes third ->
    Py.len third < 2 \/ crc_ok third = false ->
    get_device_info (Some port) address
    = (None, exchange_log (identification_request address) 3).
Proof.
  intros port address first second third
    Ho Hw Hf Ha H0 Hlen Hc0 H1 Hb1 H2 Hb2.
  unfold get_device_info. rewrite Ho. cbn [negb].
  rewrite (send_command_first_read port address first) by assumption.
  rewrite Hc0. cbn [retry_read]. rewrite H1.
  replace ((2 <=? Py.len second) && crc_ok second) with false.
  - rewrite H2.
    replace ((2 <=? Py.len third) && crc_ok third) with false; [reflexivity|].
    symmetry. apply andb_false_iff.
    destruct Hb2 as [Hb2|Hb2]; [left; apply Z.leb_gt; lia | right; exact Hb2].
  - symmetry. apply andb_false_iff.
    destruct Hb1 as [Hb1|Hb1]; [left; apply Z.leb_gt; lia | right; exact Hb1].
Qed.

Lemma X22_gives_up_after_two_retries_witness :
  get_device_info
    (Some {| is_open := true; write_raises := false; flush_raises := false;
             replies := fun n =>
                          match n with
                          | O => Registers.ReadBytes
                                   [0x01; 0x11; 0x0F; 0xFF; 0x99; 0x00; 0x00]
                          | S O => Registers.ReadBytes []
                          | _ => Registers.ReadBytes [0x01; 0x11; 0x00; 0x00]
                          end |}) 1
  = (None, exchange_log (identification_request 1) 3).
Proof.
  apply (X22_gives_up_after_two_retries _ 1
           [0x01; 0x11; 0x0F; 0xFF; 0x99; 0x00; 0x00] []
           [0x01; 0x11; 0x00; 0x00]).
  - reflexivity.
  - reflexivity.
  - reflexivity.
  - unfold Py.byte. lia.
  - reflexivity.
  - vm_compute. discriminate.
  - vm_compute. reflexivity.
  - reflexivity.
  - left. cbn. lia.
  - reflexivity.
  - right. vm_compute. reflexivity.
Defined.

End DeviceInfoRetry.

Section DeviceInfoObjects.

Import DeviceInfo.

Lemma parse_objects_encoded :
  forall objs pre tail d,
    tail <> [] ->
    parse_objects (pre ++ flat_map encode_object objs ++ tail)
      (length objs) (length pre) d
    = fold_left
        (fun d entry => dict_set d (fst entry) (snd entry))
        (map object_entry objs) d.
Proof.
  induction objs as [|[id v] objs IH]; intros pre tail d Ht; [reflexivity|].
  cbn [length flat_map map fold_left encode_object fst snd app].
  set (rest := flat_map encode_object objs ++ tail).
  assert (Hrest : (1 <= length rest)%nat).
  { subst rest. rewrite length_app. destruct tail; [contradiction|].
    cbn [length]. lia. }
  rewrite <- (app_assoc v). fold rest.
  assert (L : length (pre ++ id :: Py.len v :: v ++ rest)
              = (length pre + 2 + length v + length rest)%nat).
  { rewrite length_app. cbn [length]. rewrite length_app. lia. }
  cbn [parse_objects]. rewrite L.
  replace (length pre + 2 + length v + length rest <=? length pre + 2)%nat
    with false by (symmetry; apply Nat.leb_gt; lia).
  rewrite (app_nth2 pre _ 0) by lia.
  replace (length pre + 1 - length pre)%nat with 1%nat by lia.
  cbn [nth].
  assert (Hv : Z.to_nat (Py.len v) = length v) by apply Nat2Z.id.
  rewrite !Hv.
  replace (length pre + 2 + length v + length rest
           <? length pre + 2 + length v)%nat
    with false by (symmetry; apply Nat.ltb_ge; lia).
  rewrite (app_nth2 pre _ 0) by lia. rewrite Nat.sub_diag. cbn [nth].
  replace (skipn (length pre + 2) (pre ++ id :: Py.len v :: v ++ rest))
    with (v ++ rest).
  - rewrite firstn_app, Nat.sub_diag, firstn_all. cbn [firstn].
    rewrite app_nil_r.
    replace (pre ++ id :: Py.len v :: v ++ rest)
      with ((pre ++ id :: Py.len v :: v)
            ++ flat_map encode_object objs ++ tail)
      by (subst rest; rewrite <- app_assoc; reflexivity).
    replace (length pre + 2 + length v)%nat
      with (length (pre ++ id :: Py.len v :: v))
      by (rewrite length_app; cbn [length]; lia).
    rewrite IH by exact Ht. reflexivity.
  - rewrite skipn_app.
    rewrite skipn_all2 by lia.
    replace (length pre + 2 - length pre)%nat with 2%nat by lia.
    reflexivity.
Qed.

(** X23: the objects of an identification response are decoded as they
    were encoded: for a response made of 8 header bytes, whose eighth is
    the number of objects, then for each object its id, its length and
    its bytes, then at least one more byte (the checksum), the decoded
    dictionary holds for every object the ASCII text of its bytes under
    the key object_<id>, in order, a repeated id keeping its place and
    taking the later text. *)
Theorem X23_identification_objects_round_trip :
  forall header objs tail,
    length header = 8%nat ->
    nth 7 header 0 = Py.len objs ->
    tail <> [] ->
    exists info,
      _parse_device_identification_response
        (header ++ flat_map encode_object objs ++ tail)
      = Identified info
      /\ objects info = dict_of (map object_entry objs)
      /\ number_of_objects info = Py.len objs.
Proof.
  intros header objs tail Hh H7 Ht.
  unfold _parse_device_identification_response.
  assert (Hlen : (Py.len (header ++ flat_map encode_object objs ++ tail)
                  <? 8) = false).
  { apply Z.ltb_ge. unfold Py.len. rewrite length_app. lia. }
  rewrite Hlen. eexists. split; [reflexivity|].
  cbn [objects number_of_objects].
  assert (E7 : Py.item (header ++ flat_map encode_object objs ++ tail) 7
               = Py.len objs).
  { unfold Py.item. rewrite app_nth1 by lia. exact H7. }
  rewrite E7. split; [|reflexivity].
  unfold Py.len at 1. rewrite Nat2Z.id. rewrite <- Hh.
  apply parse_objects_encoded. exact Ht.
Qed.

Lemma X23_identification_objects_round_trip_witness :
  exists info,
    _parse_device_identification_response
      ([0x01; 0x11; 0x0E; 0x01; 0x01; 0x00; 0x00; 0x02]
       ++ flat_map encode_object [(0, [0x41; 0x42]); (1, [0x43])]
       ++ [0x00; 0x00])
    = Identified info
    /\ objects info
       = dict_of (map object_entry [(0, [0x41; 0x42]); (1, [0x43])])
    /\ number_of_objects info = Py.len [(0, [0x41; 0x42]); (1, [0x43])].
Proof.
  apply X23_identification_objects_round_trip.
  - reflexivity.
  - reflexivity.
  - discriminate.
Defined.

End DeviceInfoObjects.

(** ** Reading the device information after a hit *)

Section ReadDeviceInfoFacts.

Import DeviceInfo.

(** The vendor decoder on a rendered response of 32 bytes or more. *)
Lemma parse_rendering_complete :
  forall payload text,
    Forall Parser.is_byte payload ->
    text = Parser.hex_format payload \/ text = Parser.raw_response payload ->
    (32 <= length payload)%nat ->
    exists d mg sw hw vs st io pid,
      Parser.parse_specific_device_response text = Parser.Parsed d
      /\ Parser.parse_error d = None
      /\ Parser.device_data d
         = {| Parser.magic := Some mg; Parser.software := Some sw;
              Parser.hardware := Some hw; Parser.ver_status := Some vs;
              Parser.status := Some st; Parser.io_counts := Some io;
              Parser.product_id := Some pid |}
      /\ Parser.vf_major sw = nth 8 payload 0
      /\ Parser.vf_minor sw = nth 9 payload 0
      /\ Parser.vf_major hw = nth 10 payload 0
      /\ Parser.vf_minor hw = nth 11 payload 0.
Proof.
  intros payload text Hp Htext Hlen.
  destruct (byte_list_of_rendering payload text Hp Htext) as [uppercase E].
  unfold Parser.parse_specific_device_response. rewrite E, length_map.
  replace (length payload <? 32)%nat with false
    by (symmetry; apply Nat.ltb_ge; lia).
  rewrite !int_hex_nth by (assumption || lia).
  match goal with
  | |- context [Parser.run_try Parser.try_block _ ?d] =>
      destruct (run_try_fields uppercase payload d Hp Hlen)
        as (mg & sw & hw & vs & st & io & pid & Hd & H8 & H9 & H10 & H11
            & _ & _ & _ & _ & He)
  end.
  eexists. exists mg, sw, hw, vs, st, io, pid.
  split; [reflexivity|]. split; [exact He|].
  repeat split; assumption.
Qed.

Lemma parse_rendering_short :
  forall payload text,
    Forall Parser.is_byte payload ->
    text = Parser.hex_format payload \/ text = Parser.raw_response payload ->
    (length payload < 32)%nat ->
    Parser.parse_specific_device_response text = Parser.NotEnoughData.
Proof.
  intros payload text Hp Htext Hlen.
  destruct (byte_list_of_rendering payload text Hp Htext) as [uppercase E].
  unfold Parser.parse_specific_device_response. rewrite E, length_map.
  replace (length payload <? 32)%nat with true
    by (symmetry; apply Nat.ltb_lt; lia).
  reflexivity.
Qed.

(** The text chosen for the vendor decoder is [response.hex()]. *)
Lemma hex_response_is_raw :
  forall response,
    response <> [] ->
    hex_response_of (_parse_device_identification_response response)
    = Some (Parser.raw_response response).
Proof.
  intros response Hne. destruct response as [|b response]; [contradiction|].
  assert (E : exists a c rest,
             Parser.raw_response (b :: response) = String a (String c rest)).
  { unfold Parser.raw_response. cbn [map]. unfold Parser.hex2 at 1.
    rewrite join_empty_cons. eauto. }
  destruct E as (a & c & rest & E).
  unfold _parse_device_identification_response.
  destruct (Py.len (b :: response) <? 8);
    cbn [hex_response_of raw_response]; rewrite E; reflexivity.
Qed.

(** X24: after a hit, when the device answers the identification request
    at the first read with a response of 7 bytes or more that passes the
    checksum, address and function tests, [_read_device_info] returns the
    decoded response together with the vendor decoder's result on
    [response.hex()]: every identity field when the response has 32 bytes
    or more, and only the not-enough-data error when it is shorter. *)
Theorem X24_device_info_after_hit :
  forall port address response,
    is_open port = true -> write_raises port = false ->
    flush_raises port = false -> Py.byte address ->
    replies port 0 = Registers.ReadBytes response ->
    Forall Py.byte response ->
    7 <= Py.len response -> crc_valid response ->
    Py.item response 0 = address -> Py.item response 1 = 0x11 ->
    ((length response < 32)%nat ->
     _read_device_info (Some port) address
     = Some {| raw_info := _parse_device_identification_response response;
               parsed_info := Some Parser.NotEnoughData |})
    /\
    ((32 <= length response)%nat ->
     exists d mg sw hw vs st io pid,
       _read_device_info (Some port) address
       = Some {| raw_info := _parse_device_identification_response response;
                 parsed_info := Some (Parser.Parsed d) |}
       /\ Parser.parse_error d = None
       /\ Parser.device_data d
          = {| Parser.magic := Some mg; Parser.software := Some sw;
               Parser.hardware := Some hw; Parser.ver_status := Some vs;
               Parser.status := Some st; Parser.io_counts := Some io;
               Parser.product_id := Some pid |}
       /\ Parser.vf_major sw = nth 8 response 0
       /\ Parser.vf_minor sw = nth 9 response 0
       /\ Parser.vf_major hw = nth 10 response 0
       /\ Parser.vf_minor hw = nth 11 response 0).
Proof.
  intros port address response Ho Hw Hf Ha Hr Hb Hlen Hcrc Had Hfc.
  assert (Hne : response <> []) by (intros ->; cbn in Hlen; lia).
  assert (G : fst (get_device_info (Some port) address)
              = Some (_parse_device_identification_response response)).
  { unfold get_device_info. rewrite Ho. cbn [negb].
    rewrite (send_command_first_read port address response) by assumption.
    unfold crc_valid in Hcrc. rewrite Hcrc.
    rewrite accept_checked by assumption. reflexivity. }
  unfold _read_device_info. rewrite G, (hex_response_is_raw response Hne).
  split; intro Hl.
  - rewrite (parse_rendering_short response) by (auto; exact Hb).
    reflexivity.
  - destruct (parse_rendering_complete response
                (Parser.raw_response response) Hb (or_intror eq_refl) Hl)
      as (d & mg & sw & hw & vs & st & io & pid & Hp & Hrest).
    exists d, mg, sw, hw, vs, st, io, pid.
    rewrite Hp. split; [reflexivity | exact Hrest].
Qed.

Lemma X24_device_info_after_hit_witness :
  _read_device_info
    (Some {| is_open := true; write_raises := false; flush_raises := false;
             replies := fun _ =>
                          Registers.ReadBytes
                            (Registers.append_crc
                               [0x01; 0x11; 0x0F; 0xFF; 0x99]) |}) 1
  = Some {| raw_info :=
              _parse_device_identification_response
                (Registers.append_crc [0x01; 0x11; 0x0F; 0xFF; 0x99]);
            parsed_info := Some Parser.NotEnoughData |}
  /\ exists d mg sw hw vs st io pid,
       _read_device_info
         (Some {| is_open := true; write_raises := false;
                  flush_raises := false;
                  replies := fun _ =>
                               Registers.ReadBytes
                                 (Registers.append_crc
                                    (firstn 36 Parser.example_payload)) |})
         0x0F
       = Some {| raw_info :=
                   _parse_device_identification_response
                     (Registers.append_crc (firstn 36 Parser.example_payload));
                 parsed_info := Some (Parser.Parsed d) |}
       /\ Parser.parse_error d = None
       /\ Parser.device_data d
          = {| Parser.magic := Some mg; Parser.software := Some sw;
               Parser.hardware := Some hw; Parser.ver_status := Some vs;
               Parser.status := Some st; Parser.io_counts := Some io;
               Parser.product_id := Some pid |}
       /\ Parser.vf_major sw = 7 /\ Parser.vf_minor sw = 0
       /\ Parser.vf_major hw = 1 /\ Parser.vf_minor hw = 1.
Proof.
  split.
  - apply (X24_device_info_after_hit _ 1
             (Registers.append_crc [0x01; 0x11; 0x0F; 0xFF; 0x99])).
    + reflexivity.
    + reflexivity.
    + reflexivity.
    + unfold Py.byte. lia.
    + reflexivity.
    + apply append_crc_accepted.
      repeat (constructor; [unfold Py.byte; lia|]). constructor.
    + vm_compute. discriminate.
    + vm_compute. reflexivity.
    + reflexivity.
    + reflexivity.
    + vm_compute. lia.
  - apply (X24_device_info_after_hit _ 0x0F
             (Registers.append_crc (firstn 36 Parser.example_payload))).
    + reflexivity.
    + reflexivity.
    + reflexivity.
    + unfold Py.byte. lia.
    + reflexivity.
    + apply append_crc_accepted. unfold Parser.example_payload. cbn [firstn].
      repeat (constructor; [unfold Py.byte; lia|]). constructor.
    + vm_compute. discriminate.
    + vm_compute. reflexivity.
    + reflexivity.
    + reflexivity.
    + vm_compute. lia.
Defined.

End ReadDeviceInfoFacts.

(** ** Scanner wrapper *)

Section WrapperFacts.

Import ScannerWrapper.

Lemma first_baudrate_cases :
  forall _scanner address baudrates,
    match first_baudrate _scanner address baudrates with
    | Some baudrate =>
        exists pre post,
          baudrates = pre ++ baudrate :: post
          /\ Forall (fun b => scan_single _scanner address b = None) pre
          /\ scan_single _scanner address baudrate <> None
    | None =>
        Forall (fun b => scan_single _scanner address b = None) baudrates
    end.
Proof.
  intros _scanner address baudrates.
  induction baudrates as [|b baudrates IH]; cbn [first_baudrate];
    [constructor|].
  destruct (scan_single _scanner address b) eqn:E.
  - exists [], baudrates. repeat split; [constructor|].
    rewrite E. discriminate.
  - destruct (first_baudrate _scanner address baudrates) as [found|].
    + destruct IH as (pre & post & -> & Hpre & Hf).
      exists (b :: pre), post. repeat split; [|exact Hf].
      constructor; assumption.
    + constructor; assumption.
Qed.

(** X25: [auto_detect_baudrate] returns the first speed of the list (the
    five default speeds, 115200 first, when none is given) at which the
    device answers, every earlier speed having been tried without answer;
    it returns None when no speed answers, in particular whenever the
    native scanner is missing or raises. *)
Theorem X25_auto_detect_returns_first_answering_speed :
  forall _scanner address baudrates,
    let tried :=
      match baudrates with
      | None => [115200; 57600; 38400; 19200; 9600]
      | Some given => given
      end in
    match auto_detect_baudrate _scanner address baudrates with
    | Some baudrate =>
        exists pre post native response,
          tried = pre ++ baudrate :: post
          /\ _scanner = Some native
          /\ native address baudrate = NativeHit response
          /\ Forall (fun b => forall r, native address b <> NativeHit r) pre
    | None =>
        Forall (fun b =>
                  forall native,
                    _scanner = Some native ->
                    forall r, native address b <> NativeHit r) tried
    end.
Proof.
  intros _scanner address baudrates tried. unfold auto_detect_baudrate.
  change (match baudrates with
          | Some given => given
          | None => DEFAULT_BAUDRATES
          end) with tried.
  pose proof (first_baudrate_cases _scanner address tried) as H.
  destruct (first_baudrate _scanner address tried) as [found|].
  - destruct H as (pre & post & Ht & Hpre & Hf).
    unfold scan_single in Hf, Hpre.
    destruct _scanner as [native|]; [|contradiction].
    destruct (native address found) as [response| |] eqn:E;
      try contradiction.
    exists pre, post, native, response. repeat split; try assumption.
    eapply Forall_impl; [|exact Hpre].
    intros b Hb r Hr. cbv beta in Hb. rewrite Hr in Hb. discriminate.
  - eapply Forall_impl; [|exact H].
    intros b Hb native -> r Hr. cbv beta in Hb. unfold scan_single in Hb.
    rewrite Hr in Hb. discriminate.
Qed.

End WrapperFacts.

(** ** Identification decoding: the values of the fields *)

Section ParserValues.

Import Parser.
Local Open Scope string_scope.

Lemma hex2_append :
  forall uppercase b rest,
    join "" (hex2 uppercase b :: rest)
    = String (hex_char uppercase (b / 16))
        (String (hex_char uppercase (b mod 16)) (join "" rest)).
Proof. intros. unfold hex2. apply join_empty_cons. Qed.

Lemma int_hex_from_bytes :
  forall uppercase bs acc,
    Forall is_byte bs ->
    int_hex_from acc (join "" (map (hex2 uppercase) bs))
    = Some (fold_left (fun a b => 256 * a + b) bs acc).
Proof.
  intros uppercase bs acc H. revert acc.
  induction H as [|b bs Hb _ IH]; intro acc; [reflexivity|].
  cbn [map fold_left]. rewrite hex2_append. cbn [int_hex_from].
  destruct (nibbles_of_byte b Hb) as [Hh Hl].
  rewrite !hex_digit_hex_char by assumption.
  rewrite IH. do 2 f_equal.
  pose proof (Z.div_mod b 16 ltac:(lia)). lia.
Qed.

(** [int(''.join(parts), 16)] of rendered bytes is their big-endian value. *)
Lemma int_hex_bytes :
  forall uppercase bs,
    Forall is_byte bs -> bs <> [] ->
    int_hex (join "" (map (hex2 uppercase) bs)) = Some (be_value bs).
Proof.
  intros uppercase bs H Hne.
  pose proof (int_hex_from_bytes uppercase bs 0 H) as E.
  destruct bs as [|b bs]; [contradiction|].
  cbn [map] in *. rewrite hex2_append in *. exact E.
Qed.

Lemma slice_map :
  forall (A B : Type) (f : A -> B) l lo hi,
    slice (map f l) lo hi = map f (slice l lo hi).
Proof.
  intros. unfold slice. rewrite skipn_map, firstn_map. reflexivity.
Qed.

Lemma int_hex_slice :
  forall uppercase payload lo hi,
    Forall is_byte payload -> (lo < hi)%nat -> (hi <= length payload)%nat ->
    int_hex (join "" (slice (map (hex2 uppercase) payload) lo hi))
    = Some (be_value (slice payload lo hi)).
Proof.
  intros uppercase payload lo hi Hp Hlo Hhi.
  rewrite slice_map. apply int_hex_bytes.
  - apply Forall_slice. exact Hp.
  - apply slice_not_nil; assumption.
Qed.

Lemma int_hex_rev_slice :
  forall uppercase payload lo hi,
    Forall is_byte payload -> (lo < hi)%nat -> (hi <= length payload)%nat ->
    int_hex (join "" (rev (slice (map (hex2 uppercase) payload) lo hi)))
    = Some (be_value (rev (slice payload lo hi))).
Proof.
  intros uppercase payload lo hi Hp Hlo Hhi.
  rewrite slice_map, <- map_rev. apply int_hex_bytes.
  - apply Forall_rev, Forall_slice. exact Hp.
  - apply rev_not_nil, slice_not_nil; assumption.
Qed.

Ltac guard_true :=
  match goal with
  | |- context [(?k <=? length ?l)%nat] =>
      replace (k <=? length l)%nat with true
        by (symmetry; apply Nat.leb_le; lia)
  end.

Ltac reduce_record :=
  cbn [set_device_data device_data header_device_address
       header_function_code raw_hex byte_count crc parse_error magic software
       hardware ver_status status io_counts product_id].

Ltac value_of_item :=
  match goal with
  | |- context [int_hex (nth ?k (slice (map (hex2 ?u) ?p) ?lo ?hi) "")] =>
      rewrite (int_hex_slice_nth u p lo hi k) by (assumption || lia)
  end.

(** What the try block stores for a rendered response of 32 bytes or
    more. *)
Lemma run_try_decoded :
  forall uppercase payload d0,
    Forall is_byte payload ->
    (32 <= length payload)%nat ->
    let bl := map (hex2 uppercase) payload in
    let d := run_try try_block bl d0 in
    device_data d
    = {| magic :=
           Some (reversed_entry (slice bl 4 8)
                   (fun r => str (be_value (rev (slice payload 4 8)))
                             ++ " (" ++ upper r ++ ")")
                   (join "" (rev (slice bl 4 8))));
         software :=
           Some (version_entry (slice bl 8 10) (nth 8 payload 0)
                   (nth 9 payload 0));
         hardware :=
           Some (version_entry (slice bl 10 12) (nth 10 payload 0)
                   (nth 11 payload 0));
         ver_status :=
           Some {| vs_value :=
                     "0x" ++ upper (join "" (slice bl 12 16)) ++ " ("
                     ++ str (be_value (slice payload 12 16)) ++ ")";
                   vs_hex_format := join " " (slice bl 12 16);
                   vs_decimal := be_value (slice payload 12 16) |};
         status :=
           Some (reversed_entry (slice bl 16 20) (fun r => status_text r)
                   (join "" (rev (slice bl 16 20))));
         io_counts :=
           Some {| io_value :=
                     str (nth 20 payload 0) ++ "/" ++ str (nth 21 payload 0)
                     ++ "/" ++ str (nth 22 payload 0) ++ "/"
                     ++ str (nth 23 payload 0);
                   digital_inputs := nth 20 payload 0;
                   digital_outputs := nth 21 payload 0;
                   analog_inputs := nth 22 payload 0;
                   analog_outputs := nth 23 payload 0 |};
         product_id :=
           Some (reversed_entry (slice bl 28 32)
                   (fun r => str (be_value (rev (slice payload 28 32)))
                             ++ " (" ++ upper r ++ ")")
                   (join "" (rev (slice bl 28 32)))) |}
    /\ crc d
       = (if (34 <=? length payload)%nat
          then
            Some {| crc_value :=
                      "0x"
                      ++ upper (join "" (skipn (length payload - 2) bl))
                      ++ " ("
                      ++ str (be_value (skipn (length payload - 2) payload))
                      ++ ")";
                    crc_hex_format :=
                      join " " (skipn (length payload - 2) bl) |}
          else crc d0)
    /\ parse_error d = parse_error d0.
Proof.
  intros uppercase payload d0 Hp Hlen bl d. subst d bl.
  assert (Hl : length (map (hex2 uppercase) payload) = length payload)
    by apply length_map.
  destruct d0 as [hda hfc [m s h v st io p] rh bc c pe].
  unfold try_block. cbn [run_try].
  unfold parse_magic, with_int. guard_true. cbv beta iota zeta.
  rewrite int_hex_rev_slice by (assumption || lia).
  cbv beta iota. reduce_record.
  unfold parse_software, with_int. guard_true. cbv beta iota zeta.
  do 2 (value_of_item; cbv beta iota). reduce_record.
  unfold parse_hardware, with_int. guard_true. cbv beta iota zeta.
  do 2 (value_of_item; cbv beta iota). reduce_record.
  unfold parse_ver_status, with_int. guard_true. cbv beta iota zeta.
  rewrite int_hex_slice by (assumption || lia).
  cbv beta iota. reduce_record.
  unfold parse_status. guard_true. cbv beta iota zeta. reduce_record.
  unfold parse_io_counts, with_int. guard_true. cbv beta iota zeta.
  do 4 (value_of_item; cbv beta iota). reduce_record.
  unfold parse_product_id, with_int. guard_true. cbv beta iota zeta.
  rewrite int_hex_rev_slice by (assumption || lia).
  cbv beta iota. reduce_record.
  unfold parse_crc, with_int. rewrite Hl.
  destruct (34 <=? length payload)%nat eqn:G.
  - apply Nat.leb_le in G. cbv zeta. rewrite skipn_map.
    rewrite int_hex_bytes.
    + reduce_record. repeat split; reflexivity.
    + rewrite <- (firstn_skipn (length payload - 2) payload) in Hp.
      apply Forall_app in Hp. apply Hp.
    + intro E. apply (f_equal (@length Z)) in E.
      rewrite length_skipn in E. cbn in E. lia.
  - reduce_record. repeat split; reflexivity.
Qed.

End ParserValues.

Section ParserValueFacts.

Import Parser.
Local Open Scope string_scope.

Lemma parse_rendering_runs :
  forall payload text,
    Forall is_byte payload ->
    text = hex_format payload \/ text = raw_response payload ->
    (32 <= length payload)%nat ->
    exists uppercase d0,
      parse_specific_device_response text
      = Parsed (run_try try_block (map (hex2 uppercase) payload) d0)
      /\ crc d0 = None /\ parse_error d0 = None.
Proof.
  intros payload text Hp Htext Hlen.
  destruct (byte_list_of_rendering payload text Hp Htext) as [uppercase E].
  unfold parse_specific_device_response. rewrite E, length_map.
  replace (length payload <? 32)%nat with false
    by (symmetry; apply Nat.ltb_ge; lia).
  rewrite !int_hex_nth by (assumption || lia).
  exists uppercase. eexists. split; [reflexivity|]. split; reflexivity.
Qed.

Lemma slice_four :
  forall (l : list Z) lo,
    (lo + 4 <= length l)%nat ->
    slice l lo (lo + 4)
    = [nth lo l 0; nth (lo + 1) l 0; nth (lo + 2) l 0; nth (lo + 3) l 0].
Proof.
  intros l lo H. unfold slice.
  replace (lo + 4 - lo)%nat with 4%nat by lia.
  rewrite (skipn_two l lo) by lia.
  rewrite (skipn_two l (lo + 2)) by lia.
  cbn [firstn].
  replace (lo + 2 + 1)%nat with (lo + 3)%nat by lia. reflexivity.
Qed.

(** X26: of the 4-byte fields of a rendered response of 32 bytes or more,
    the magic number (bytes 4 to 7) and the product id (bytes 28 to 31)
    are read least significant byte first, while the version status
    (bytes 12 to 15) is read most significant byte first. *)
Theorem X26_byte_order_of_the_word_fields :
  forall payload text,
    Forall is_byte payload ->
    text = hex_format payload \/ text = raw_response payload ->
    (32 <= length payload)%nat ->
    exists d mg vs pid,
      parse_specific_device_response text = Parsed d
      /\ magic (device_data d) = Some mg
      /\ rf_value mg
         = str (nth 4 payload 0 + 256 * nth 5 payload 0
                + 65536 * nth 6 payload 0 + 16777216 * nth 7 payload 0)
           ++ " (" ++ rf_reversed_hex mg ++ ")"
      /\ ver_status (device_data d) = Some vs
      /\ vs_decimal vs
         = 16777216 * nth 12 payload 0 + 65536 * nth 13 payload 0
           + 256 * nth 14 payload 0 + nth 15 payload 0
      /\ product_id (device_data d) = Some pid
      /\ rf_value pid
         = str (nth 28 payload 0 + 256 * nth 29 payload 0
                + 65536 * nth 30 payload 0 + 16777216 * nth 31 payload 0)
           ++ " (" ++ rf_reversed_hex pid ++ ")".
Proof.
  intros payload text Hp Htext Hlen.
  destruct (parse_rendering_runs payload text Hp Htext Hlen)
    as (uppercase & d0 & E & _ & _).
  destruct (run_try_decoded uppercase payload d0 Hp Hlen) as (Hd & _ & _).
  cbv zeta in Hd.
  eexists. eexists. eexists. eexists.
  split; [exact E|]. rewrite Hd. cbn [magic ver_status product_id].
  split; [reflexivity|].
  split.
  { cbn [reversed_entry rf_value rf_reversed_hex].
    change 8%nat with (4 + 4)%nat. rewrite (slice_four payload 4) by lia.
    cbn [rev app be_value fold_left Nat.add].
    do 2 f_equal. lia. }
  split; [reflexivity|].
  split.
  { cbn [vs_decimal].
    change 16%nat with (12 + 4)%nat. rewrite (slice_four payload 12) by lia.
    cbn [be_value fold_left Nat.add]. lia. }
  split; [reflexivity|].
  cbn [reversed_entry rf_value rf_reversed_hex].
  change 32%nat with (28 + 4)%nat. rewrite (slice_four payload 28) by lia.
  cbn [rev app be_value fold_left Nat.add].
  do 2 f_equal. lia.
Qed.

End ParserValueFacts.

Section ParserValueWitnesses.

Import Parser.
Local Open Scope string_scope.

Lemma example_payload_bytes : Forall is_byte example_payload.
Proof.
  unfold example_payload.
  repeat (constructor; [unfold is_byte; lia|]). constructor.
Qed.

Lemma X26_byte_order_of_the_word_fields_witness :
  exists d mg vs pid,
    parse_specific_device_response (hex_format example_payload) = Parsed d
    /\ magic (device_data d) = Some mg
    /\ rf_value mg
       = str (nth 4 example_payload 0 + 256 * nth 5 example_payload 0
              + 65536 * nth 6 example_payload 0
              + 16777216 * nth 7 example_payload 0)
         ++ " (" ++ rf_reversed_hex mg ++ ")"
    /\ ver_status (device_data d) = Some vs
    /\ vs_decimal vs
       = 16777216 * nth 12 example_payload 0
         + 65536 * nth 13 example_payload 0
         + 256 * nth 14 example_payload 0 + nth 15 example_payload 0
    /\ product_id (device_data d) = Some pid
    /\ rf_value pid
       = str (nth 28 example_payload 0 + 256 * nth 29 example_payload 0
              + 65536 * nth 30 example_payload 0
              + 16777216 * nth 31 example_payload 0)
         ++ " (" ++ rf_reversed_hex pid ++ ")".
Proof.
  apply X26_byte_order_of_the_word_fields.
  - exact example_payload_bytes.
  - left. reflexivity.
  - cbn. lia.
Defined.

Lemma last_two :
  forall l : list Z,
    (2 <= length l)%nat ->
    skipn (length l - 2) l
    = [nth (length l - 2) l 0; nth (length l - 1) l 0].
Proof.
  intros l H. rewrite (skipn_two l (length l - 2)) by lia.
  rewrite skipn_all2 by lia.
  replace (length l - 2 + 1)%nat with (length l - 1)%nat by lia.
  reflexivity.
Qed.

(** X27: the decoder adds a checksum entry exactly when the rendered
    response has 34 bytes or more; the number it shows is the last two
    bytes read most significant byte first, that is 256 times the byte
    before last plus the last byte -- the reverse of the order in which
    the two checksum bytes are sent. *)
Theorem X27_crc_entry_is_the_last_two_bytes_big_endian :
  forall payload text,
    Forall is_byte payload ->
    text = hex_format payload \/ text = raw_response payload ->
    (32 <= length payload)%nat ->
    exists d,
      parse_specific_device_response text = Parsed d
      /\ ((length payload < 34)%nat -> crc d = None)
      /\ ((34 <= length payload)%nat ->
          exists c hex,
            crc d = Some c
            /\ crc_value c
               = "0x" ++ hex ++ " ("
                 ++ str (256 * nth (length payload - 2) payload 0
                         + nth (length payload - 1) payload 0)
                 ++ ")").
Proof.
  intros payload text Hp Htext Hlen.
  destruct (parse_rendering_runs payload text Hp Htext Hlen)
    as (uppercase & d0 & E & Hc0 & _).
  destruct (run_try_decoded uppercase payload d0 Hp Hlen) as (_ & Hc & _).
  cbv zeta in Hc.
  eexists. split; [exact E|]. rewrite Hc. split; intro H.
  - replace (34 <=? length payload)%nat with false
      by (symmetry; apply Nat.leb_gt; lia).
    exact Hc0.
  - replace (34 <=? length payload)%nat with true
      by (symmetry; apply Nat.leb_le; lia).
    eexists. eexists. split; [reflexivity|].
    cbn [crc_value]. rewrite (last_two payload) by lia.
    cbn [be_value fold_left]. do 4 f_equal.
Qed.

Lemma X27_crc_entry_is_the_last_two_bytes_big_endian_witness :
  exists d,
    parse_specific_device_response (hex_format example_payload) = Parsed d
    /\ ((length example_payload < 34)%nat -> crc d = None)
    /\ ((34 <= length example_payload)%nat ->
        exists c hex,
          crc d = Some c
          /\ crc_value c
             = "0x" ++ hex ++ " ("
               ++ str (256 * nth (length example_payload - 2)
                                 example_payload 0
                       + nth (length example_payload - 1) example_payload 0)
               ++ ")").
Proof.
  apply X27_crc_entry_is_the_last_two_bytes_big_endian.
  - exact example_payload_bytes.
  - left. reflexivity.
  - cbn. lia.
Defined.

Lemma bytes_fromhex_bytes :
  forall uppercase bs,
    Forall is_byte bs ->
    bytes_fromhex (join "" (map (hex2 uppercase) bs)) = Some bs.
Proof.
  intros uppercase bs H. induction H as [|b bs Hb _ IH]; [reflexivity|].
  cbn [map]. rewrite hex2_append. cbn [bytes_fromhex].
  destruct (nibbles_of_byte b Hb) as [Hh Hl].
  rewrite !hex_digit_hex_char by assumption. rewrite IH.
  do 2 f_equal. pose proof (Z.div_mod b 16 ltac:(lia)). lia.
Qed.

Lemma printable_not_space :
  forall b, 33 <= b <= 126 -> is_space (ascii_of_nat (Z.to_nat b)) = false.
Proof.
  intros b Hb. unfold is_space.
  rewrite nat_ascii_embedding by lia.
  replace (Z.to_nat b <=? 13)%nat with false
    by (symmetry; apply Nat.leb_gt; lia).
  replace (Z.to_nat b <=? 32)%nat with false
    by (symmetry; apply Nat.leb_gt; lia).
  rewrite !andb_false_r. reflexivity.
Qed.

Lemma strip_four :
  forall c1 c2 c3 c4,
    is_space c1 = false -> is_space c4 = false ->
    strip (String c1 (String c2 (String c3 (String c4 EmptyString))))
    = String c1 (String c2 (String c3 (String c4 EmptyString))).
Proof.
  intros c1 c2 c3 c4 H1 H4. unfold strip. cbn [lstrip]. rewrite H1.
  cbn [reverse_string list_ascii_of_string rev app string_of_list_ascii
       lstrip].
  rewrite H4. reflexivity.
Qed.

(** X28: when the four status bytes (16 to 19) of a rendered response of
    32 bytes or more are printable, non-blank ASCII codes (33 to 126),
    the status value is the text of these four characters taken in
    reverse byte order, byte 19 first. *)
Theorem X28_printable_status_is_reversed_text :
  forall payload text,
    Forall is_byte payload ->
    text = hex_format payload \/ text = raw_response payload ->
    (32 <= length payload)%nat ->
    33 <= nth 16 payload 0 <= 126 -> 33 <= nth 17 payload 0 <= 126 ->
    33 <= nth 18 payload 0 <= 126 -> 33 <= nth 19 payload 0 <= 126 ->
    exists d st,
      parse_specific_device_response text = Parsed d
      /\ status (device_data d) = Some st
      /\ rf_value st
         = ascii_text [nth 19 payload 0; nth 18 payload 0; nth 17 payload 0;
                       nth 16 payload 0].
Proof.
  intros payload text Hp Htext Hlen H16 H17 H18 H19.
  destruct (parse_rendering_runs payload text Hp Htext Hlen)
    as (uppercase & d0 & E & _ & _).
  destruct (run_try_decoded uppercase payload d0 Hp Hlen) as (Hd & _ & _).
  cbv zeta in Hd.
  eexists. eexists. split; [exact E|]. rewrite Hd. cbn [status].
  split; [reflexivity|].
  cbn [reversed_entry rf_value]. unfold status_text.
  rewrite slice_map, <- map_rev.
  rewrite bytes_fromhex_bytes by (apply Forall_rev, Forall_slice; exact Hp).
  change 20%nat with (16 + 4)%nat. rewrite (slice_four payload 16) by lia.
  cbn [rev app Nat.add]. unfold decode_ascii_ignore. cbn [filter].
  replace (nth 19 payload 0 <? 128)%Z with true
    by (symmetry; apply Z.ltb_lt; lia).
  replace (nth 18 payload 0 <? 128)%Z with true
    by (symmetry; apply Z.ltb_lt; lia).
  replace (nth 17 payload 0 <? 128)%Z with true
    by (symmetry; apply Z.ltb_lt; lia).
  replace (nth 16 payload 0 <? 128)%Z with true
    by (symmetry; apply Z.ltb_lt; lia).
  cbn [map string_of_list_ascii].
  rewrite strip_four by (apply printable_not_space; assumption).
  reflexivity.
Qed.

Lemma X28_printable_status_is_reversed_text_witness :
  exists d st,
    parse_specific_device_response (hex_format example_payload) = Parsed d
    /\ status (device_data d) = Some st
    /\ rf_value st
       = ascii_text [nth 19 example_payload 0; nth 18 example_payload 0;
                     nth 17 example_payload 0; nth 16 example_payload 0].
Proof.
  apply X28_printable_status_is_reversed_text.
  - exact example_payload_bytes.
  - left. reflexivity.
  - cbn. lia.
  - cbn. lia.
  - cbn. lia.
  - cbn. lia.
  - cbn. lia.
Defined.

End ParserValueWitnesses.
